(** * niicojs/word: the in-memory document model and its structural algorithms

    A shallow embedding of [src/utils/xml.ts], [src/utils/zip.ts] and
    [src/document.ts] (the [Document] class), followed by the properties of
    page segmentation, page removal, merging and serialization.

    Conventions of the embedding:
    - a JavaScript [number] that holds an index or a length is a [Z];
    - a plain object used as a record with ordered keys (an [XmlNode], an
      attribute record) is an association list read by first match and
      written in place, as property assignment does;
    - the namespace record and the [Map] of archive parts are [gmap]s;
    - a method of [Document] is a computation in a state-and-exception
      monad over the fields of the instance. *)

From Stdlib Require Import ZArith String Ascii List Bool Lia DecimalString.
From stdpp Require Import base option list list_numbers gmap strings fin_maps.

Local Open Scope Z_scope.

(* ===================================================================== *)
(** * Plain objects with ordered string keys *)
(* ===================================================================== *)

Section PlainObject.
Context {V : Type}.

(** [o[k]] *)
Fixpoint objGet (o : list (string * V)) (k : string) : option V :=
  match o with
  | [] => None
  | (k', v) :: o' => if String.eqb k' k then Some v else objGet o' k
  end.

(** [k in o] *)
Definition objHas (o : list (string * V)) (k : string) : bool :=
  match objGet o k with Some _ => true | None => false end.

(** [o[k] = v]: an existing key keeps its position, a new key goes last. *)
Fixpoint objSet (o : list (string * V)) (k : string) (v : V)
  : list (string * V) :=
  match o with
  | [] => [(k, v)]
  | (k', v') :: o' =>
      if String.eqb k' k then (k, v) :: o' else (k', v') :: objSet o' k v
  end.
End PlainObject.

(* ===================================================================== *)
(** * utils/xml.ts *)
(* ===================================================================== *)

(** [interface XmlNode { [tagName: string]: XmlNode[] | string |
    Record<string, string> | undefined }]: the value under a key is an array
    of child nodes, a string (the ["#text"] of a text node) or the attribute
    record stored under [":@"]. A missing key is [objGet = None]. *)
Inductive XmlNode : Type :=
| XmlObj (fields : list (string * XmlValue))
with XmlValue : Type :=
| XmlArray (children : list XmlNode)
| XmlString (text : string)
| XmlRecord (attrs : list (string * string)).

Definition nodeFields (node : XmlNode) : list (string * XmlValue) :=
  match node with XmlObj fs => fs end.

(** [tagName in node] *)
Definition hasTag (tagName : string) (node : XmlNode) : bool :=
  objHas (nodeFields node) tagName.

(** [findElement]: the first node that has the tag as a key. *)
Definition findElement (nodes : list XmlNode) (tagName : string)
  : option XmlNode :=
  List.find (hasTag tagName) nodes.

(** [findElements]: immediate children only. *)
Definition findElements (nodes : list XmlNode) (tagName : string)
  : list XmlNode :=
  List.filter (hasTag tagName) nodes.

(** [getChildren]: [node[tagName]] when it is an array, [[]] otherwise. *)
Definition getChildren (node : XmlNode) (tagName : string) : list XmlNode :=
  match objGet (nodeFields node) tagName with
  | Some (XmlArray cs) => cs
  | _ => []
  end.

(** [node[':@'] as Record<string, string> | undefined], then
    [attrs?.[key]]: only an attribute record has string-valued keys. *)
Definition attrOf (node : XmlNode) (key : string) : option string :=
  match objGet (nodeFields node) ":@" with
  | Some (XmlRecord attrs) => objGet attrs key
  | _ => None
  end.

Definition getAttr (node : XmlNode) (name : string) : option string :=
  attrOf node ("@_" +:+ name).

(** [getText]: the ["#text"] of the first text child. *)
Definition getText (node : XmlNode) (tagName : string) : option string :=
  match List.find (hasTag "#text") (getChildren node tagName) with
  | Some child =>
      match objGet (nodeFields child) "#text" with
      | Some (XmlString s) => Some s
      | _ => None
      end
  | None => None
  end.

(** [createElement]: the attribute slot is omitted when no attribute is
    given. *)
Definition createElement (tagName : string) (attrs : list (string * string))
  (children : list XmlNode) : XmlNode :=
  let node := [(tagName, XmlArray children)] in
  match attrs with
  | [] => XmlObj node
  | _ :: _ =>
      let attrObj :=
        fold_left (fun acc kv => objSet acc ("@_" +:+ fst kv) (snd kv)) attrs []
      in
      XmlObj (objSet node ":@" (XmlRecord attrObj))
  end.

Definition createText (text : string) : XmlNode :=
  XmlObj [("#text", XmlString text)].

Definition quoteChar : string := String (ascii_of_nat 34) EmptyString.
Definition newline : string := String (ascii_of_nat 10) EmptyString.

(** [<?xml version="1.0" encoding="UTF-8" standalone="yes"?>\n] *)
Definition xmlDeclaration : string :=
  "<?xml version=" +:+ quoteChar +:+ "1.0" +:+ quoteChar +:+
  " encoding=" +:+ quoteChar +:+ "UTF-8" +:+ quoteChar +:+
  " standalone=" +:+ quoteChar +:+ "yes" +:+ quoteChar +:+ "?>" +:+ newline.

Definition addXmlDeclaration (xml : string) : string :=
  xmlDeclaration +:+ xml.

(** [cloneNode] / [cloneNodes]: [JSON.parse(JSON.stringify(_))] rebuilds every
    object, array and string of the tree. *)
Fixpoint cloneNode (node : XmlNode) : XmlNode :=
  match node with
  | XmlObj fs => XmlObj (List.map (fun kv => (fst kv, cloneValue (snd kv))) fs)
  end
with cloneValue (v : XmlValue) : XmlValue :=
  match v with
  | XmlArray cs => XmlArray (List.map cloneNode cs)
  | XmlString s => XmlString s
  | XmlRecord attrs => XmlRecord (List.map (fun kv => (fst kv, snd kv)) attrs)
  end.

Definition cloneNodes (nodes : list XmlNode) : list XmlNode :=
  List.map cloneNode nodes.

(* ===================================================================== *)
(** * types.ts *)
(* ===================================================================== *)

Record MergeOptions := mkMergeOptions {
  pages : option (list Z);
  addPageBreakBefore : option bool
}.

Record PageInfo := mkPageInfo {
  index : Z;
  startElement : Z;
  endElement : Z
}.

(* ===================================================================== *)
(** * document.ts: the fields of a [Document] *)
(* ===================================================================== *)

Record Document := mkDocument {
  _files : gmap string (list Byte.byte);
  _bodyElements : list XmlNode;
  _documentParsed : list XmlNode;
  _dirty : bool;
  _namespaces : gmap string string;
  _sectPr : option XmlNode
}.

Definition set_files
  (f : gmap string (list Byte.byte) -> gmap string (list Byte.byte))
  (d : Document) : Document :=
  mkDocument (f (_files d)) (_bodyElements d) (_documentParsed d) (_dirty d)
    (_namespaces d) (_sectPr d).
Definition set_bodyElements (f : list XmlNode -> list XmlNode) (d : Document)
  : Document :=
  mkDocument (_files d) (f (_bodyElements d)) (_documentParsed d) (_dirty d)
    (_namespaces d) (_sectPr d).
Definition set_documentParsed (v : list XmlNode) (d : Document) : Document :=
  mkDocument (_files d) (_bodyElements d) v (_dirty d) (_namespaces d)
    (_sectPr d).
Definition set_dirty (v : bool) (d : Document) : Document :=
  mkDocument (_files d) (_bodyElements d) (_documentParsed d) v
    (_namespaces d) (_sectPr d).
Definition set_namespaces (f : gmap string string -> gmap string string)
  (d : Document) : Document :=
  mkDocument (_files d) (_bodyElements d) (_documentParsed d) (_dirty d)
    (f (_namespaces d)) (_sectPr d).
Definition set_sectPr (v : option XmlNode) (d : Document) : Document :=
  mkDocument (_files d) (_bodyElements d) (_documentParsed d) (_dirty d)
    (_namespaces d) v.

(** ** Methods: state of the instance plus exceptions *)

Inductive result (A : Type) : Type :=
| Returned (a : A)
| Thrown (message : string).
Arguments Returned {A} a.
Arguments Thrown {A} message.

Definition Method (A : Type) : Type := Document -> result A * Document.

Definition ret {A} (a : A) : Method A := fun d => (Returned a, d).
Definition throw {A} (message : string) : Method A :=
  fun d => (Thrown message, d).
Definition bind {A B} (m : Method A) (k : A -> Method B) : Method B :=
  fun d =>
    match m d with
    | (Returned a, d') => k a d'
    | (Thrown message, d') => (Thrown message, d')
    end.
Definition this {A} (f : Document -> A) : Method A :=
  fun d => (Returned (f d), d).
Definition update (f : Document -> Document) : Method unit :=
  fun d => (Returned tt, f d).

Notation "'do' x <- m 'in' k" := (bind m (fun x => k))
  (at level 10, x name, m at level 100, k at level 200).
Notation "'run' m 'in' k" := (bind m (fun _ => k))
  (at level 10, m at level 100, k at level 200).

(** State left behind by a call, and what it returned or threw. *)
Definition stateAfter {A} (m : Method A) (d : Document) : Document := snd (m d).
Definition outcome {A} (m : Method A) (d : Document) : result A := fst (m d).

(** Array helpers with JavaScript's clamping of their arguments. *)
Definition clampIndex (len i : Z) : Z :=
  if i <? 0 then Z.max (len + i) 0 else Z.min i len.

(** [l.splice(start, deleteCount)], the array that remains. *)
Definition splice {A} (l : list A) (start deleteCount : Z) : list A :=
  let len := Z.of_nat (length l) in
  let s := clampIndex len start in
  let c := Z.min (Z.max deleteCount 0) (len - s) in
  take (Z.to_nat s) l ++ drop (Z.to_nat (s + c)) l.

(** [l.slice(start, end)] *)
Definition slice {A} (l : list A) (start end_ : Z) : list A :=
  let len := Z.of_nat (length l) in
  let s := clampIndex len start in
  let e := clampIndex len end_ in
  take (Z.to_nat (e - s)) (drop (Z.to_nat s) l).

(** [`${n}`] for an integer [n]. *)
Definition showZ (n : Z) : string := NilZero.string_of_int (Z.to_int n).

(** ** Construction *)

Definition newDocument : Document :=
  mkDocument ∅ [] [] false ∅ None.

(** [Document.create()] *)
Definition create : Document := set_dirty true newDocument.

(** ** Page segmentation *)

(** [_paragraphHasPageBreak]: a run child of the paragraph holds a [w:br]
    whose [w:type] attribute is ["page"]. *)
Definition _paragraphHasPageBreak (paragraph : XmlNode) : bool :=
  existsb
    (fun child =>
       hasTag "w:r" child &&
       existsb
         (fun runChild =>
            hasTag "w:br" runChild &&
            match attrOf runChild "@_w:type" with
            | Some t => String.eqb t "page"
            | None => false
            end)
         (getChildren child "w:r"))
    (getChildren paragraph "w:p").

(** [_hasPageBreak] *)
Definition _hasPageBreak (element : XmlNode) : bool :=
  if hasTag "w:p" element then _paragraphHasPageBreak element else false.

(** The [for] loop of [getPages], from position [i] on; [elements] is what
    is left of [_bodyElements]. It returns [pages], [currentPageStart] and
    [pageIndex] as they are when the loop ends. *)
Fixpoint getPages_loop (elements : list XmlNode) (i : Z)
  (pgs : list PageInfo) (currentPageStart pageIndex : Z)
  : list PageInfo * Z * Z :=
  match elements with
  | [] => (pgs, currentPageStart, pageIndex)
  | element :: rest =>
      if _hasPageBreak element then
        getPages_loop rest (i + 1)
          (pgs ++ [mkPageInfo pageIndex currentPageStart i])
          (i + 1) (pageIndex + 1)
      else
        getPages_loop rest (i + 1) pgs currentPageStart pageIndex
  end.

(** [getPages()] *)
Definition getPages (d : Document) : list PageInfo :=
  let len := Z.of_nat (length (_bodyElements d)) in
  let '(pgs, currentPageStart, pageIndex) :=
    getPages_loop (_bodyElements d) 0 [] 0 0 in
  if currentPageStart <? len then
    pgs ++ [mkPageInfo pageIndex currentPageStart (len - 1)]
  else if 0 <? Z.of_nat (length pgs) then
    pgs ++ [mkPageInfo pageIndex (-1) (-1)]
  else
    pgs ++ [mkPageInfo 0 (-1) (-1)].

(** [getPageCount()] *)
Definition getPageCount (d : Document) : Z :=
  Z.of_nat (length (getPages d)).

(** [_createPageBreakParagraph]:
    [<w:p><w:r><w:br w:type="page"/></w:r></w:p>] *)
Definition _createPageBreakParagraph : XmlNode :=
  let brElement := createElement "w:br" [("w:type", "page")] [] in
  let runElement := createElement "w:r" [] [brElement] in
  createElement "w:p" [] [runElement].

(** [addPageBreak()] *)
Definition addPageBreak : Method unit :=
  run update (set_dirty true) in
  update (set_bodyElements (fun b => b ++ [_createPageBreakParagraph])).

(** [pages[i]]; reading a property of the [undefined] that an index outside
    the array gives is a [TypeError]. *)
Definition pageAt (pgs : list PageInfo) (i : Z) : Method PageInfo :=
  match (if i <? 0 then None else pgs !! Z.to_nat i) with
  | Some page => ret page
  | None => throw "TypeError: Cannot read properties of undefined"
  end.

(** [removePage(index)] *)
Definition removePage (index : Z) : Method unit :=
  do pgs <- this getPages in
  let count := Z.of_nat (length pgs) in
  if (index <? 0) || (index >=? count) then
    throw ("Page index out of bounds: " +:+ showZ index +:+
           ". Document has " +:+ showZ count +:+ " page(s).")
  else
    run update (set_dirty true) in
    do page <- pageAt pgs index in
    if startElement page =? -1 then
      if 0 <? index then
        do prevPage <- pageAt pgs (index - 1) in
        if endElement prevPage >=? 0 then
          update (set_bodyElements (fun b => splice b (endElement prevPage) 1))
        else ret tt
      else ret tt
    else
      let removeCount := endElement page - startElement page + 1 in
      update
        (set_bodyElements (fun b => splice b (startElement page) removeCount)).

(** ** Merging *)

(** [_mergeNamespaces]: a key of the source is added only when the target
    does not have it yet. *)
Definition _mergeNamespaces (sourceNamespaces : gmap string string)
  : Method unit :=
  update (set_namespaces (fun ns =>
    map_fold
      (fun key value acc =>
         match acc !! key with
         | Some _ => acc
         | None => <[key := value]> acc
         end)
      ns sourceNamespaces)).

(** [_copyDocumentStructure] *)
Definition _copyDocumentStructure (sourceDoc : Document) : Method unit :=
  run (do mine <- this _sectPr in
       match _sectPr sourceDoc, mine with
       | Some sectPr, None => update (set_sectPr (Some (cloneNode sectPr)))
       | _, _ => ret tt
       end) in
  update (set_files (fun files =>
    map_fold
      (fun path content acc =>
         if String.eqb path "word/document.xml" then acc
         else match acc !! path with
              | Some _ => acc
              | None => <[path := content]> acc
              end)
      files (_files sourceDoc))).

(** The page selection of [merge]: the requested indices that exist, in the
    order requested, or every page. *)
Definition pagesToMerge (options : MergeOptions) (sourcePages : list PageInfo)
  : list PageInfo :=
  match pages options with
  | Some requested =>
      omap (fun idx => sourcePages !! Z.to_nat idx)
        (List.filter
           (fun idx => (idx >=? 0) && (idx <? Z.of_nat (length sourcePages)))
           requested)
  | None => sourcePages
  end.

(** [merge], once [source] is a [Document] (from [this._dirty = true] on).
    [sourceDoc] is the source as it is when the call begins; a document
    merged into itself is read the same way, since the call only appends to
    the body and the page ranges were taken before. *)
Definition mergeDocument (sourceDoc : Document) (options : MergeOptions)
  : Method unit :=
  run update (set_dirty true) in
  run _mergeNamespaces (_namespaces sourceDoc) in
  do isFirstMerge <- this (fun d =>
       (Z.of_nat (length (_bodyElements d)) =? 0) &&
       (Z.of_nat (size (_files d)) =? 0)) in
  run (if isFirstMerge then _copyDocumentStructure sourceDoc else ret tt) in
  let sourcePages := getPages sourceDoc in
  let breakBefore :=
    match addPageBreakBefore options with Some false => false | _ => true end in
  let selected := pagesToMerge options sourcePages in
  if Z.of_nat (length selected) =? 0 then ret tt
  else
    run (do len <- this (fun d => Z.of_nat (length (_bodyElements d))) in
         if breakBefore && (0 <? len) then
           update (set_bodyElements (fun b => b ++ [_createPageBreakParagraph]))
         else ret tt) in
    update (set_bodyElements (fun b =>
      fold_left
        (fun acc page =>
           if startElement page =? -1 then acc
           else
             let elements :=
               slice (_bodyElements sourceDoc) (startElement page)
                 (endElement page + 1) in
             acc ++ cloneNodes elements)
        selected b)).

(* ===================================================================== *)
(** * utils/zip.ts *)
(* ===================================================================== *)

(** [s.endsWith(suffix)] *)
Definition endsWith (s suffix : string) : bool :=
  let n := String.length s in
  let k := String.length suffix in
  (k <=? n)%nat && String.eqb (String.substring (n - k) k s) suffix.

(** The test both [readZip] and [writeZip] apply to an entry: not a
    directory, and with content. *)
Definition keptEntry (path : string) (content : list Byte.byte) : bool :=
  negb (endsWith path "/") && (0 <? length content)%nat.

(** [readZip], on the entries that [unzipSync] found. *)
Definition readZip_entries (entries : list (string * list Byte.byte))
  : gmap string (list Byte.byte) :=
  fold_left
    (fun files entry =>
       if keptEntry (fst entry) (snd entry)
       then <[fst entry := snd entry]> files else files)
    entries ∅.

(** [writeZip]: the record [zipData] that is handed to [zipSync], as the
    map of its own keys. Assigning under the key [__proto__] would set the
    prototype of [zipData] and add no key: the map follows the code for the
    part stores that hold no part of that name. *)
Definition writeZip_data (files : gmap string (list Byte.byte))
  : gmap string (list Byte.byte) :=
  map_fold
    (fun path content zipData =>
       if negb (keptEntry path content) then zipData
       else <[path := content]> zipData)
    ∅ files.

(** [readZipText]. A text is given by its UTF-8 bytes, and [strFromU8] reads
    the bytes as the text they encode: this follows the code on well-formed
    UTF-8 that does not begin with U+FEFF (the decoder puts U+FFFD for an
    ill-formed sequence and drops a leading U+FEFF). *)
Definition readZipText (files : gmap string (list Byte.byte)) (path : string)
  : option string :=
  string_of_list_byte <$> files !! path.

(** [writeZipText]; [strToU8] gives the UTF-8 bytes of the text (U+FFFD for
    a lone surrogate, which a text given by its bytes does not hold). *)
Definition writeZipText (files : gmap string (list Byte.byte))
  (path content : string) : gmap string (list Byte.byte) :=
  <[path := list_byte_of_string content]> files.

(* ===================================================================== *)
(** * document.ts: loading and saving *)
(* ===================================================================== *)

Definition W_NS : string :=
  "http://schemas.openxmlformats.org/wordprocessingml/2006/main".
Definition R_NS : string :=
  "http://schemas.openxmlformats.org/officeDocument/2006/relationships".
Definition PKG_NS : string :=
  "http://schemas.openxmlformats.org/package/2006/relationships".
Definition CT_NS : string :=
  "http://schemas.openxmlformats.org/package/2006/content-types".

(** What [merge] accepts as its source. *)
Inductive MergeSource : Type :=
| SourceDocument (sourceDoc : Document)
| SourcePath (path : string)
| SourceBuffer (data : list Byte.byte).

(* ===================================================================== *)
(** * Template substitution *)
(* ===================================================================== *)

(** [type TemplateValue = string | number | boolean | null | undefined]
    (README). A key bound to [undefined] is a key that is absent from the
    data; a number is an integer here. *)
Inductive TemplateValue : Type :=
| TString (s : string)
| TNumber (n : Z)
| TBoolean (b : bool)
| TNull.

(** [interface TemplateOptions] (README). A [pattern] is the rule it applies
    at the head of a text: the captured key and the length of the match. *)
Record TemplateOptions := mkTemplateOptions {
  pattern : option (string -> option (string * nat));
  removeMissing : option bool;
  transform : option (TemplateValue -> string -> string)
}.

Definition defaultTemplateOptions : TemplateOptions :=
  mkTemplateOptions None None None.

(** Modelled from the spec: the default placeholder pattern, which is not
    under src/. Section 3: it matches [{identifier}], the identifier being
    alphanumeric, underscore, dot or hyphen characters. *)
Definition isIdentifierChar (c : ascii) : bool :=
  let n := nat_of_ascii c in
  ((48 <=? n) && (n <=? 57) || (65 <=? n) && (n <=? 90) ||
   (97 <=? n) && (n <=? 122) || (n =? 95) || (n =? 46) || (n =? 45))%nat.

(** Modelled from the spec: the longest run of identifier characters at the
    head of a text, and what follows it. *)
Fixpoint takeIdentifier (s : string) : string * string :=
  match s with
  | EmptyString => (EmptyString, EmptyString)
  | String c rest =>
      if isIdentifierChar c then
        let (key, rest') := takeIdentifier rest in (String c key, rest')
      else (EmptyString, s)
  end.

(** Modelled from the spec: the default pattern at the head of a text, with
    the captured key and the length of the match. *)
Definition defaultPattern (s : string) : option (string * nat) :=
  match s with
  | String "{" rest =>
      match takeIdentifier rest with
      | (String c key, String "}" _) =>
          Some (String c key, S (S (String.length (String c key))))
      | _ => None
      end
  | _ => None
  end.

(** Modelled from the spec: the matching policy of section 4.5, which is not
    under src/: the pattern is applied left to right, matches do not overlap,
    and each match is replaced on its own. [skip] counts the characters of
    the current match that are still to be passed over. *)
Fixpoint replaceMatches (matchAt : string -> option (string * nat))
  (replacement : string -> string -> string) (skip : nat) (s : string)
  : string :=
  match s with
  | EmptyString => EmptyString
  | String c rest =>
      match skip with
      | S skip' => replaceMatches matchAt replacement skip' rest
      | O =>
          match matchAt s with
          | Some (key, S len) =>
              replacement (String.substring 0 (S len) s) key +:+
              replaceMatches matchAt replacement len rest
          | Some (key, O) =>
              replacement EmptyString key +:+
              String c (replaceMatches matchAt replacement O rest)
          | None => String c (replaceMatches matchAt replacement O rest)
          end
      end
  end.

(** Modelled from the spec: does the pattern match anywhere in the text?
    Section 4.5 leaves a paragraph without placeholder as it is. *)
Fixpoint hasPlaceholder (matchAt : string -> option (string * nat))
  (s : string) : bool :=
  match matchAt s with
  | Some _ => true
  | None =>
      match s with
      | EmptyString => false
      | String _ rest => hasPlaceholder matchAt rest
      end
  end.

(** Modelled from the spec: the text a value is inserted as, which is not
    under src/. Section 4.5: [transform] when given, else the scalar as text,
    [null] as the empty string. *)
Definition valueText (options : TemplateOptions) (value : TemplateValue)
  (key : string) : string :=
  match transform options with
  | Some f => f value key
  | None =>
      match value with
      | TString s => s
      | TNumber n => showZ n
      | TBoolean true => "true"
      | TBoolean false => "false"
      | TNull => EmptyString
      end
  end.

(** Modelled from the spec: what replaces one matched placeholder. Sections
    4.5 and 7: a key without data keeps its placeholder, or loses it when
    [removeMissing] is set. *)
Definition replacementText (data : gmap string TemplateValue)
  (options : TemplateOptions) (matched key : string) : string :=
  match data !! key with
  | Some value => valueText options value key
  | None =>
      match removeMissing options with
      | Some true => EmptyString
      | _ => matched
      end
  end.

(** Modelled from the spec: the pattern in force, the default one unless
    the options give another. *)
Definition patternOf (options : TemplateOptions)
  : string -> option (string * nat) :=
  match pattern options with Some p => p | None => defaultPattern end.

(** Modelled from the spec: the substitution pass over one logical string. *)
Definition substituteText (data : gmap string TemplateValue)
  (options : TemplateOptions) (text : string) : string :=
  replaceMatches (patternOf options) (replacementText data options) O text.

(** Modelled from the spec: the text of one [w:t] element and of one run
    (the text leaves of section 4.5). *)
Definition textOfLeaf (leaf : XmlNode) : string :=
  fold_right
    (fun child acc =>
       match objGet (nodeFields child) "#text" with
       | Some (XmlString s) => s +:+ acc
       | _ => acc
       end)
    EmptyString (getChildren leaf "w:t").

Definition textOfRun (textRun : XmlNode) : string :=
  fold_right
    (fun runChild acc =>
       if hasTag "w:t" runChild then textOfLeaf runChild +:+ acc else acc)
    EmptyString (getChildren textRun "w:r").

(** Modelled from the spec: a run that carries a text leaf. *)
Definition isTextRun (child : XmlNode) : bool :=
  hasTag "w:r" child && existsb (hasTag "w:t") (getChildren child "w:r").

(** Modelled from the spec: the text-leaf runs within an element, in
    document order. Section 4.5 speaks of all text-leaf runs within a
    paragraph: a run is taken when it carries a text leaf and is not
    searched further; any other element (a hyperlink, a tracked insertion)
    is searched through the children under each of its tags. *)
Fixpoint runsWithin (node : XmlNode) : list XmlNode :=
  if hasTag "w:r" node then
    if isTextRun node then [node] else []
  else
    match node with
    | XmlObj fs =>
        flat_map
          (fun kv =>
             match snd kv with
             | XmlArray cs => flat_map runsWithin cs
             | _ => []
             end)
          fs
    end.

(** Modelled from the spec: the text runs of a paragraph, at any depth. *)
Definition textRuns (paragraph : XmlNode) : list XmlNode :=
  flat_map runsWithin (getChildren paragraph "w:p").

(** Modelled from the spec: does the element hold a text run, at any
    depth? *)
Definition holdsTextRun (node : XmlNode) : bool :=
  match runsWithin node with [] => false | _ :: _ => true end.

(** Modelled from the spec: the logical string of a paragraph, which is not
    under src/. Section 4.5: the text of all its text-leaf runs, in order. *)
Definition paragraphText (paragraph : XmlNode) : string :=
  fold_right (fun textRun acc => textOfRun textRun +:+ acc) EmptyString
    (textRuns paragraph).

(** Modelled from the spec: the single run that takes the place of the text
    runs, which is not under src/. Section 4.5: one consolidated text run,
    formatting kept from the first run only. It is the first text run, its
    text leaves replaced by one leaf with the whole text. *)
Definition consolidatedRun (firstRun : XmlNode) (text : string) : XmlNode :=
  let kept :=
    List.filter (fun runChild => negb (hasTag "w:t" runChild))
      (getChildren firstRun "w:r") in
  let leaf :=
    createElement "w:t" [("xml:space", "preserve")] [createText text] in
  XmlObj (objSet (nodeFields firstRun) "w:r" (XmlArray (kept ++ [leaf]))).

(** Modelled from the spec: the children of an element once the text runs
    are replaced, [consolidateOne] being the replacement of one child.
    [placed] tells whether the consolidated run stands already, which it
    does once a child that holds a text run is passed. *)
Section Consolidate.
Variable consolidateOne : XmlNode -> bool -> list XmlNode.

Fixpoint consolidateNodes (children : list XmlNode) (placed : bool)
  : list XmlNode :=
  match children with
  | [] => []
  | child :: rest =>
      consolidateOne child placed ++
      consolidateNodes rest (placed || holdsTextRun child)
  end.

Fixpoint consolidateFields (fs : list (string * XmlValue)) (placed : bool)
  : list (string * XmlValue) :=
  match fs with
  | [] => []
  | kv :: rest =>
      match snd kv with
      | XmlArray cs =>
          (fst kv, XmlArray (consolidateNodes cs placed)) ::
          consolidateFields rest (placed || existsb holdsTextRun cs)
      | v => (fst kv, v) :: consolidateFields rest placed
      end
  end.
End Consolidate.

(** Modelled from the spec: what takes the place of one element. Section
    4.5: the consolidated run stands where the first text run was, the other
    text runs are gone, every other element stays, searched as [runsWithin]
    searches it. *)
Fixpoint consolidateNode (text : string) (node : XmlNode) (placed : bool)
  : list XmlNode :=
  if hasTag "w:r" node then
    if isTextRun node then
      if placed then [] else [consolidatedRun node text]
    else [node]
  else
    match node with
    | XmlObj fs => [XmlObj (consolidateFields (consolidateNode text) fs placed)]
    end.

(** Modelled from the spec: the children of the paragraph once the text runs
    are replaced. *)
Definition consolidate (children : list XmlNode) (text : string)
  (placed : bool) : list XmlNode :=
  consolidateNodes (consolidateNode text) children placed.

(** Modelled from the spec: the per-paragraph pass, which is not under src/.
    Section 4.5: the substitution runs over the logical string and the result
    is written back as one consolidated text run in place of the text runs;
    a paragraph without placeholder is left as it is. *)
Definition renderParagraph (data : gmap string TemplateValue)
  (options : TemplateOptions) (paragraph : XmlNode) : XmlNode :=
  let text := paragraphText paragraph in
  if hasPlaceholder (patternOf options) text then
    XmlObj (objSet (nodeFields paragraph) "w:p"
      (XmlArray
         (consolidate (getChildren paragraph "w:p")
            (substituteText data options text) false)))
  else paragraph.

(** Modelled from the spec: the walk over a part, which is not under src/.
    Section 4.5: a paragraph is rendered; any other element is searched for
    paragraphs below it (table rows and cells). *)
Fixpoint renderNode (data : gmap string TemplateValue)
  (options : TemplateOptions) (node : XmlNode) : XmlNode :=
  if hasTag "w:p" node then renderParagraph data options node
  else
    match node with
    | XmlObj fs =>
        XmlObj
          (List.map
             (fun kv =>
                (fst kv,
                 match snd kv with
                 | XmlArray cs => XmlArray (List.map (renderNode data options) cs)
                 | v => v
                 end))
             fs)
    end.

(** Modelled from the spec: [render(data, options)] on the document body,
    which is not under src/ (only its call sites and tests are). The same
    pass over the header and footer parts named by the relationship records
    is outside this model. *)
Definition render (data : gmap string TemplateValue)
  (options : TemplateOptions) : Method unit :=
  run update (set_dirty true) in
  update (set_bodyElements (List.map (renderNode data options))).

(* ===================================================================== *)
(** * document.ts: loading, saving and merging from a source *)
(* ===================================================================== *)

(** The archive library (fflate), the XML library (fast-xml-parser) and the
    file system, as the document calls them; a call that throws gives
    [Thrown]. [zipSync] stamps every entry with the time at which it is
    called: that time is its first argument, and [clock] is the time of the
    call at hand. *)
Record Collaborators := mkCollaborators {
  unzipSync : list Byte.byte -> result (list (string * list Byte.byte));
  zipSync : Z -> gmap string (list Byte.byte) -> list Byte.byte;
  parseXml : string -> result (list XmlNode);
  stringifyXml : list XmlNode -> string;
  readFile : string -> result (list Byte.byte);
  writeFile : string -> list Byte.byte -> result unit;
  clock : Z
}.

(** [readZip] *)
Definition readZip (env : Collaborators) (data : list Byte.byte)
  : result (gmap string (list Byte.byte)) :=
  match unzipSync env data with
  | Returned entries => Returned (readZip_entries entries)
  | Thrown message => Thrown message
  end.

(** [writeZip] *)
Definition writeZip (env : Collaborators)
  (files : gmap string (list Byte.byte)) : list Byte.byte :=
  zipSync env (clock env) (writeZip_data files).

(** [_parseDocument] *)
Definition _parseDocument (env : Collaborators) (xml : string) : Method unit :=
  match parseXml env xml with
  | Thrown message => throw message
  | Returned parsed =>
      run update (set_documentParsed parsed) in
      match findElement parsed "w:document" with
      | None => ret tt
      | Some documentNode =>
          run (match objGet (nodeFields documentNode) ":@" with
               | Some (XmlRecord attrs) =>
                   update (set_namespaces (fun ns =>
                     fold_left
                       (fun acc kv =>
                          let key := fst kv in
                          if String.prefix "@_xmlns" key then
                            let nsKey :=
                              String.substring 2 (String.length key - 2) key in
                            <[nsKey := snd kv]> acc
                          else acc)
                       attrs ns))
               | _ => ret tt
               end) in
          let documentChildren := getChildren documentNode "w:document" in
          match findElement documentChildren "w:body" with
          | None => ret tt
          | Some bodyNode =>
              let bodyChildren := getChildren bodyNode "w:body" in
              run (match findElement bodyChildren "w:sectPr" with
                   | Some sectPrNode => update (set_sectPr (Some sectPrNode))
                   | None => ret tt
                   end) in
              update (set_bodyElements (fun _ =>
                List.filter (fun child => negb (hasTag "w:sectPr" child))
                  bodyChildren))
          end
      end
  end.

(** [Document.fromBuffer] *)
Definition fromBuffer (env : Collaborators) (data : list Byte.byte)
  : result Document :=
  match readZip env data with
  | Thrown message => Thrown message
  | Returned files =>
      let doc := set_files (fun _ => files) newDocument in
      match readZipText files "word/document.xml" with
      | Some documentXml =>
          if (0 <? String.length documentXml)%nat then
            match _parseDocument env documentXml doc with
            | (Returned _, doc') => Returned doc'
            | (Thrown message, _) => Thrown message
            end
          else Returned doc
      | None => Returned doc
      end
  end.

(** [Document.fromFile] *)
Definition fromFile (env : Collaborators) (path : string) : result Document :=
  match readFile env path with
  | Returned data => fromBuffer env data
  | Thrown message => Thrown message
  end.

(** [_createContentTypes] *)
Definition _createContentTypes (env : Collaborators) : string :=
  let types :=
    createElement "Types" [("xmlns", CT_NS)]
      [ createElement "Default"
          [("Extension", "rels");
           ("ContentType",
            "application/vnd.openxmlformats-package.relationships+xml")] [];
        createElement "Default"
          [("Extension", "xml"); ("ContentType", "application/xml")] [];
        createElement "Override"
          [("PartName", "/word/document.xml");
           ("ContentType",
            "application/vnd.openxmlformats-officedocument.wordprocessingml.document.main+xml")]
          [] ] in
  xmlDeclaration +:+ stringifyXml env [types].

(** [_createRootRels] *)
Definition _createRootRels (env : Collaborators) : string :=
  let rels :=
    createElement "Relationships" [("xmlns", PKG_NS)]
      [ createElement "Relationship"
          [("Id", "rId1");
           ("Type",
            "http://schemas.openxmlformats.org/officeDocument/2006/relationships/officeDocument");
           ("Target", "word/document.xml")] [] ] in
  xmlDeclaration +:+ stringifyXml env [rels].

(** [_createDocumentRels] *)
Definition _createDocumentRels (env : Collaborators) : string :=
  let rels := createElement "Relationships" [("xmlns", PKG_NS)] [] in
  xmlDeclaration +:+ stringifyXml env [rels].

(** [if (!this._files.has(path)) writeZipText(this._files, path, content)] *)
Definition ensurePart (path content : string) : Method unit :=
  update (set_files (fun files =>
    match files !! path with
    | Some _ => files
    | None => writeZipText files path content
    end)).

(** [_ensureBasicStructure] *)
Definition _ensureBasicStructure (env : Collaborators) : Method unit :=
  run ensurePart "[Content_Types].xml" (_createContentTypes env) in
  run ensurePart "_rels/.rels" (_createRootRels env) in
  ensurePart "word/_rels/document.xml.rels" (_createDocumentRels env).

(** [_getNamespaceAttributes] *)
Definition _getNamespaceAttributes (d : Document) : list (string * string) :=
  if (0 <? size (_namespaces d))%nat then map_to_list (_namespaces d)
  else [("xmlns:w", W_NS); ("xmlns:r", R_NS)].

(** [_updateDocumentXml] *)
Definition _updateDocumentXml (env : Collaborators) : Method unit :=
  do bodyElements <- this _bodyElements in
  do sectPr <- this _sectPr in
  let last :=
    match sectPr with
    | Some node => cloneNode node
    | None =>
        createElement "w:sectPr" []
          [ createElement "w:pgSz" [("w:w", "12240"); ("w:h", "15840")] [];
            createElement "w:pgMar"
              [("w:top", "1440"); ("w:right", "1440"); ("w:bottom", "1440");
               ("w:left", "1440"); ("w:header", "720"); ("w:footer", "720");
               ("w:gutter", "0")] [] ]
    end in
  let bodyChildren := bodyElements ++ [last] in
  let body := createElement "w:body" [] bodyChildren in
  do namespaceAttrs <- this _getNamespaceAttributes in
  let document := createElement "w:document" namespaceAttrs [body] in
  let xml := xmlDeclaration +:+ stringifyXml env [document] in
  update (set_files (fun files => writeZipText files "word/document.xml" xml)).

(** [_updateFiles] *)
Definition _updateFiles (env : Collaborators) : Method unit :=
  do unchanged <-
    this (fun d => negb (_dirty d) && (0 <? size (_files d))%nat) in
  if unchanged then ret tt
  else
    run (_ensureBasicStructure env) in
    _updateDocumentXml env.

(** [toBuffer] *)
Definition toBuffer (env : Collaborators) : Method (list Byte.byte) :=
  run (_updateFiles env) in
  do files <- this _files in
  ret (writeZip env files).

(** [toFile]: the buffer of [toBuffer], written to the path. *)
Definition toFile (env : Collaborators) (path : string) : Method unit :=
  do buffer <- toBuffer env in
  fun d => (writeFile env path buffer, d).

(** The parts of the package that [toBuffer], and so [toFile], writes: the
    record that [writeZip] hands to the archive library. *)
Definition packageParts (env : Collaborators) (d : Document)
  : gmap string (list Byte.byte) :=
  writeZip_data (_files (stateAfter (toBuffer env) d)).

(** The first lines of [merge]: the source as a [Document]. *)
Definition loadSource (env : Collaborators) (source : MergeSource)
  : result Document :=
  match source with
  | SourceDocument sourceDoc => Returned sourceDoc
  | SourcePath path => fromFile env path
  | SourceBuffer data => fromBuffer env data
  end.

(** [merge] *)
Definition merge (env : Collaborators) (source : MergeSource)
  (options : MergeOptions) : Method unit :=
  match loadSource env source with
  | Returned sourceDoc => mergeDocument sourceDoc options
  | Thrown message => throw message
  end.

(** Several merges into one target, one after the other. *)
Definition mergeAll (env : Collaborators)
  (sources : list (MergeSource * MergeOptions)) (d : Document) : Document :=
  fold_left (fun acc so => stateAfter (merge env (fst so) (snd so)) acc)
    sources d.

(** The documents a caller can hold: created or loaded, then changed by the
    public methods. *)
Inductive reachable (env : Collaborators) : Document -> Prop :=
| reach_create : reachable env create
| reach_fromBuffer (data : list Byte.byte) (d : Document) :
    fromBuffer env data = Returned d -> reachable env d
| reach_fromFile (path : string) (d : Document) :
    fromFile env path = Returned d -> reachable env d
| reach_addPageBreak (d : Document) :
    reachable env d -> reachable env (stateAfter addPageBreak d)
| reach_removePage (d : Document) (i : Z) :
    reachable env d -> reachable env (stateAfter (removePage i) d)
| reach_merge (d : Document) (source : MergeSource) (sourceDoc : Document)
    (options : MergeOptions) :
    reachable env d -> loadSource env source = Returned sourceDoc ->
    reachable env sourceDoc ->
    reachable env (stateAfter (merge env source options) d)
| reach_render (d : Document) (data : gmap string TemplateValue)
    (options : TemplateOptions) :
    reachable env d -> reachable env (stateAfter (render data options) d)
| reach_toBuffer (d : Document) :
    reachable env d -> reachable env (stateAfter (toBuffer env) d)
| reach_toFile (d : Document) (path : string) :
    reachable env d -> reachable env (stateAfter (toFile env path) d).

(** The state [_updateFiles] leaves when it does not return at once. *)
Definition regenerated (env : Collaborators) (d : Document) : Document :=
  let d1 :=
    stateAfter (ensurePart "[Content_Types].xml" (_createContentTypes env)) d in
  let d2 := stateAfter (ensurePart "_rels/.rels" (_createRootRels env)) d1 in
  let d3 :=
    stateAfter
      (ensurePart "word/_rels/document.xml.rels" (_createDocumentRels env))
      d2 in
  stateAfter (_updateDocumentXml env) d3.

(* ===================================================================== *)
(** * Vocabulary of the properties *)
(* ===================================================================== *)

(** The number of break-bearing elements of a body. *)
Definition breakCount (elements : list XmlNode) : nat :=
  length (List.filter _hasPageBreak elements).

(** Their positions, counted from [i]. *)
Fixpoint breakPositions (elements : list XmlNode) (i : Z) : list Z :=
  match elements with
  | [] => []
  | element :: rest =>
      if _hasPageBreak element then i :: breakPositions rest (i + 1)
      else breakPositions rest (i + 1)
  end.

Definition isBreakFree (elements : list XmlNode) : Prop :=
  Forall (fun element => _hasPageBreak element = false) elements.

(** The body positions [startElement .. endElement] of a page. *)
Definition pageRange (p : PageInfo) : list Z :=
  seqZ (startElement p) (endElement p - startElement p + 1).

(** A page that a break closes: break-free elements, then the break-bearing
    paragraph at [endElement]. *)
Definition closedPage (body : list XmlNode) (p : PageInfo) : Prop :=
  exists before content brk after,
    body = before ++ content ++ brk :: after /\
    Z.of_nat (length before) = startElement p /\
    startElement p + Z.of_nat (length content) = endElement p /\
    isBreakFree content /\ _hasPageBreak brk = true.

(** What follows the last break seen so far. *)
Definition openTail (body : list XmlNode) (start : Z) : Prop :=
  exists before content,
    body = before ++ content /\
    Z.of_nat (length before) = start /\ isBreakFree content.

Definition sentinelPage (pageIndex : Z) : PageInfo :=
  mkPageInfo pageIndex (-1) (-1).

(** No page is left open after the last break: the body is empty or ends on
    a break-bearing paragraph. *)
Definition noOpenPage (body : list XmlNode) : bool :=
  match last body with
  | Some element => _hasPageBreak element
  | None => true
  end.

(** The last entry of [getPages]: the open page when there is one, else the
    sentinel. *)
Definition finalPage (body : list XmlNode) (start : Z) : PageInfo :=
  let pageIndex := Z.of_nat (breakCount body) in
  if noOpenPage body then sentinelPage pageIndex
  else mkPageInfo pageIndex start (Z.of_nat (length body) - 1).

(** The state [merge] has built when it looks at the page selection: dirty,
    namespaces merged, structure copied into a pristine target. *)
Definition beforeSelection (sourceDoc d : Document) : Document :=
  let d1 := set_namespaces (fun ns => ns ∪ _namespaces sourceDoc)
              (set_dirty true d) in
  if (Z.of_nat (length (_bodyElements d)) =? 0) &&
     (Z.of_nat (size (_files d)) =? 0)
  then stateAfter (_copyDocumentStructure sourceDoc) d1
  else d1.

(** The elements appended for the selected pages. *)
Definition appendPages (sourceDoc : Document) (selected : list PageInfo)
  (b : list XmlNode) : list XmlNode :=
  fold_left
    (fun acc page =>
       if startElement page =? -1 then acc
       else
         acc ++
         slice (_bodyElements sourceDoc) (startElement page)
           (endElement page + 1))
    selected b.

(** The page selection is empty when [pages] is given and none of its
    indices is a page of the source ([pages: []] included). *)
Definition selectsNothing (options : MergeOptions) (sourceDoc : Document)
  : Prop :=
  exists requested : list Z,
    pages options = Some requested /\
    Forall (fun idx => idx < 0 \/ getPageCount sourceDoc <= idx) requested.

(** The union of a target's declarations with those of the sources, taken
    in the order of the merges. *)
Definition unionInOrder (target : gmap string string)
  (sources : list Document) : gmap string string :=
  foldl (fun ns s => ns ∪ _namespaces s) target sources.

(** Every stored part passes the test of [readZip] and [writeZip]. *)
Definition partsKept (files : gmap string (list Byte.byte)) : Prop :=
  map_Forall (fun path content => keptEntry path content = true) files.

(** Methods that leave the part store alone. *)
Definition keepsFiles {A} (m : Method A) : Prop :=
  forall d : Document, _files (stateAfter m d) = _files d.








(** ** Vocabulary of the further properties *)

(** The break-bearing paragraph that [merge] puts before the merged content:
    wanted unless [addPageBreakBefore] is [false], and only when the target
    has body elements. *)
Definition breakBefore (options : MergeOptions) (d : Document)
  : list XmlNode :=
  match addPageBreakBefore options with
  | Some false => []
  | _ => if 0 <? Z.of_nat (length (_bodyElements d))
         then [_createPageBreakParagraph] else []
  end.

(** The section properties that [_updateDocumentXml] puts last in the body:
    a copy of the stored ones, or the defaults (Letter size). *)
Definition writtenSectPr (d : Document) : XmlNode :=
  match _sectPr d with
  | Some node => cloneNode node
  | None =>
      createElement "w:sectPr" []
        [ createElement "w:pgSz" [("w:w", "12240"); ("w:h", "15840")] [];
          createElement "w:pgMar"
            [("w:top", "1440"); ("w:right", "1440"); ("w:bottom", "1440");
             ("w:left", "1440"); ("w:header", "720"); ("w:footer", "720");
             ("w:gutter", "0")] [] ]
  end.

(** The [document] node that [_updateDocumentXml] builds, and the text it
    stores under [word/document.xml]. *)
Definition documentTree (d : Document) : XmlNode :=
  createElement "w:document" (_getNamespaceAttributes d)
    [createElement "w:body" [] (_bodyElements d ++ [writtenSectPr d])].

Definition documentXml (env : Collaborators) (d : Document) : string :=
  xmlDeclaration +:+ stringifyXml env [documentTree d].

(** The parts of a document once [_ensureBasicStructure] has run. *)
Definition ensuredParts (env : Collaborators)
  (files : gmap string (list Byte.byte)) : gmap string (list Byte.byte) :=
  let ensure path content (parts : gmap string (list Byte.byte)) :=
    match parts !! path with
    | Some _ => parts
    | None => writeZipText parts path content
    end in
  ensure "word/_rels/document.xml.rels" (_createDocumentRels env)
    (ensure "_rels/.rels" (_createRootRels env)
       (ensure "[Content_Types].xml" (_createContentTypes env) files)).

(** The elements of page [idx] of a document, as [merge] slices them out of
    the body; none for the sentinel and for an index that is no page. *)
Definition pageElements (d : Document) (idx : Z) : list XmlNode :=
  match (if idx <? 0 then None else getPages d !! Z.to_nat idx) with
  | Some page =>
      if startElement page =? -1 then []
      else slice (_bodyElements d) (startElement page) (endElement page + 1)
  | None => []
  end.

(** The requested indices that are pages of the source, as [merge] filters
    them: in the order requested, repeats included. *)
Definition validRequests (requested : list Z) (sourceDoc : Document)
  : list Z :=
  List.filter (fun idx => (idx >=? 0) && (idx <? getPageCount sourceDoc))
    requested.

(** The same collaborators at another time of call. *)
Definition atTime (now : Z) (env : Collaborators) : Collaborators :=
  mkCollaborators (unzipSync env) (zipSync env) (parseXml env)
    (stringifyXml env) (readFile env) (writeFile env) now.

(** Well-formed UTF-8 (Unicode, table 3-7): no stray or missing
    continuation byte, no overlong form, no surrogate, nothing above
    U+10FFFF. *)
Definition byteIn (low high : nat) (c : ascii) : bool :=
  let n := nat_of_ascii c in ((low <=? n) && (n <=? high))%nat.

Fixpoint wellFormedUtf8 (s : string) : bool :=
  match s with
  | EmptyString => true
  | String b0 rest =>
      if byteIn 0 127 b0 then wellFormedUtf8 rest
      else
        match rest with
        | EmptyString => false
        | String b1 rest1 =>
            if byteIn 194 223 b0 then byteIn 128 191 b1 && wellFormedUtf8 rest1
            else
              match rest1 with
              | EmptyString => false
              | String b2 rest2 =>
                  if byteIn 224 239 b0 then
                    (if byteIn 224 224 b0 then byteIn 160 191 b1
                     else if byteIn 237 237 b0 then byteIn 128 159 b1
                     else byteIn 128 191 b1) &&
                    byteIn 128 191 b2 && wellFormedUtf8 rest2
                  else
                    match rest2 with
                    | EmptyString => false
                    | String b3 rest3 =>
                        byteIn 240 244 b0 &&
                        (if byteIn 240 240 b0 then byteIn 144 191 b1
                         else if byteIn 244 244 b0 then byteIn 128 143 b1
                         else byteIn 128 191 b1) &&
                        byteIn 128 191 b2 && byteIn 128 191 b3 &&
                        wellFormedUtf8 rest3
                    end
              end
        end
  end.

(** The bytes of U+FEFF. *)
Definition byteOrderMark : string :=
  String (ascii_of_nat 239)
    (String (ascii_of_nat 187) (String (ascii_of_nat 191) EmptyString)).

(** A text that [strToU8], then [strFromU8], give back as it is: it has no
    lone surrogate, so that its bytes are well-formed UTF-8, and it does not
    begin with U+FEFF, which the decoder drops. *)
Definition exactText (s : string) : bool :=
  wellFormedUtf8 s && negb (String.prefix byteOrderMark s).

(** The shape every method keeps: no section properties among the body
    elements, the stored section properties are a [w:sectPr] element, and
    every stored namespace key is an [xmlns] attribute name. *)
Definition wellFormed (d : Document) : Prop :=
  Forall (fun element => hasTag "w:sectPr" element = false) (_bodyElements d) /\
  (forall node, _sectPr d = Some node -> hasTag "w:sectPr" node = true) /\
  (forall key, is_Some (_namespaces d !! key) ->
               String.prefix "xmlns" key = true).

(** Methods that keep the shape. *)
Definition keepsShape {A} (m : Method A) : Prop :=
  forall d : Document, wellFormed d -> wellFormed (stateAfter m d).

(* ===================================================================== *)
(** * The model at work *)
(* ===================================================================== *)

(** One fixed set of collaborators: every archive opens as a package that
    holds a style sheet only, no file can be read, and the XML library sees
    no element and prints nothing. *)
Module Bench.
Definition stylesOnly : list (string * list Byte.byte) :=
  [("word/styles.xml", list_byte_of_string "<w:styles/>")].

Definition env : Collaborators :=
  mkCollaborators
    (fun data => Returned stylesOnly)
    (fun now zipData => [])
    (fun xml => Returned [])
    (fun nodes => EmptyString)
    (fun path => Thrown "ENOENT")
    (fun path data => Returned tt)
    0.

(** [<w:p><w:r><w:t>text</w:t></w:r></w:p>] *)
Definition textRun (text : string) : XmlNode :=
  createElement "w:r" [] [createElement "w:t" [] [createText text]].
Definition textParagraph (text : string) : XmlNode :=
  createElement "w:p" [] [textRun text].

Definition withBody (body : list XmlNode) : Document :=
  set_bodyElements (fun _ => body) create.

(** One page of content, no break. *)
Definition onePage : Document := withBody [textParagraph "cover"].

(** Three pages of content, two breaks. *)
Definition threePages : Document :=
  withBody
    [textParagraph "a"; _createPageBreakParagraph;
     textParagraph "b"; _createPageBreakParagraph;
     textParagraph "c"].

(** Two pages: a break and nothing else. *)
Definition twoPages : Document := stateAfter addPageBreak create.

(** [{name}] split over two runs. *)
Definition splitParagraph : XmlNode :=
  createElement "w:p" [] [textRun "{na"; textRun "me}"].


(** [{name}] split over a run and a run inside a hyperlink. *)
Definition linkedParagraph : XmlNode :=
  createElement "w:p" []
    [textRun "{na";
     createElement "w:hyperlink" [("r:id", "rId5")] [textRun "me}"]].

(** A source that has namespaces, section properties and parts. *)
Definition styledSource : Document :=
  mkDocument
    {[ "word/document.xml" := list_byte_of_string "<w:document/>";
       "word/styles.xml" := list_byte_of_string "<w:styles/>" ]}
    [textParagraph "body"] [] false
    {[ "xmlns:w" := W_NS; "xmlns:w14" := "urn:w14" ]}
    (Some (createElement "w:sectPr" [] [])).

(** A target that declares [xmlns:w] its own way. *)
Definition ownNamespace : Document :=
  set_namespaces (fun _ => {[ "xmlns:w" := "urn:own" ]}) create.

(** The document that [fromBuffer] builds on the bench: the style sheet is
    its only part. *)
Definition loaded : Document :=
  set_files
    (fun _ => {[ "word/styles.xml" := list_byte_of_string "<w:styles/>" ]})
    newDocument.

End Bench.

(** Collaborators that read back what was written for one document: every
    archive opens as the package of the three-page bench document, and every
    XML text is read as its document node after the declaration. *)
Module Reread.
Definition prolog : list XmlNode :=
  [XmlObj [("?xml", XmlArray [createText EmptyString]);
           (":@", XmlRecord [("@_version", "1.0"); ("@_encoding", "UTF-8");
                             ("@_standalone", "yes")])]].

Definition env : Collaborators :=
  mkCollaborators
    (fun data =>
       Returned (map_to_list (packageParts Bench.env Bench.threePages)))
    (fun now zipData => [])
    (fun xml => Returned (prolog ++ [documentTree Bench.threePages]))
    (fun nodes => EmptyString)
    (fun path => Thrown "ENOENT")
    (fun path data => Returned tt)
    0.
End Reread.

(* ===================================================================== *)
(** * Page segmentation *)
(* ===================================================================== *)

Lemma breakCount_app (a b : list XmlNode) :
  breakCount (a ++ b) = (breakCount a + breakCount b)%nat.
Proof. unfold breakCount. rewrite List.filter_app, length_app. reflexivity. Qed.

Lemma breakCount_cons (e : XmlNode) (l : list XmlNode) :
  breakCount (e :: l) =
  ((if _hasPageBreak e then 1 else 0) + breakCount l)%nat.
Proof. unfold breakCount. simpl. destruct (_hasPageBreak e); reflexivity. Qed.

Lemma breakCount_free (l : list XmlNode) : isBreakFree l -> breakCount l = 0%nat.
Proof.
  induction 1 as [|e l He _ IH]; [reflexivity|].
  rewrite breakCount_cons, He, IH. reflexivity.
Qed.

Lemma breakCount_all (l : list XmlNode) :
  Forall (fun e => _hasPageBreak e = true) l -> breakCount l = length l.
Proof.
  induction 1 as [|e l He _ IH]; [reflexivity|].
  rewrite breakCount_cons, He, IH. reflexivity.
Qed.

Lemma length_breakPositions (l : list XmlNode) (i : Z) :
  length (breakPositions l i) = breakCount l.
Proof.
  revert i. induction l as [|e l IH]; intros i; [reflexivity|].
  rewrite breakCount_cons. simpl.
  destruct (_hasPageBreak e); simpl; rewrite IH; reflexivity.
Qed.

Lemma openTail_snoc_free (done : list XmlNode) (e : XmlNode) (start : Z) :
  openTail done start -> _hasPageBreak e = false ->
  openTail (done ++ [e]) start.
Proof.
  intros (before & content & -> & Hlen & Hfree) He.
  exists before, (content ++ [e]). split; [by rewrite app_assoc|].
  split; [done|]. apply Forall_app. split; [done|]. by constructor.
Qed.

Lemma openTail_fresh (done : list XmlNode) :
  openTail done (Z.of_nat (length done)).
Proof.
  exists done, []. split; [by rewrite app_nil_r|]. split; [done|]. constructor.
Qed.

Lemma openTail_bound (done : list XmlNode) (start : Z) :
  openTail done start -> 0 <= start <= Z.of_nat (length done).
Proof.
  intros (before & content & -> & Hlen & _). rewrite length_app. lia.
Qed.

Lemma last_cons_cases {A} (e : A) (rest : list A) :
  last (e :: rest) = match last rest with Some x => Some x | None => Some e end.
Proof.
  destruct rest as [|x rest']; [reflexivity|].
  rewrite last_cons. reflexivity.
Qed.

(** The loop of [getPages], started after the elements [done] with a page
    open at [cps]: the pages it adds are closed by the breaks of [elements],
    in order, they continue the numbering from [idx], and together they cover
    the positions from [cps] up to the start of the page left open. *)
Lemma getPages_loop_spec (elements : list XmlNode) :
  forall (done : list XmlNode) (pgs : list PageInfo) (cps idx : Z),
    openTail done cps ->
    exists (new : list PageInfo) (cps' : Z),
      getPages_loop elements (Z.of_nat (length done)) pgs cps idx =
        (pgs ++ new, cps', idx + Z.of_nat (length new)) /\
      length new = breakCount elements /\
      List.map index new = seqZ idx (Z.of_nat (length new)) /\
      List.map endElement new =
        breakPositions elements (Z.of_nat (length done)) /\
      concat (List.map pageRange new) = seqZ cps (cps' - cps) /\
      cps <= cps' /\
      Forall (closedPage (done ++ elements)) new /\
      openTail (done ++ elements) cps' /\
      (cps' = Z.of_nat (length (done ++ elements)) <->
       match last elements with
       | Some e => _hasPageBreak e = true
       | None => cps = Z.of_nat (length done)
       end).
Proof.
  induction elements as [|e rest IH]; intros done pgs cps idx Hopen.
  - exists [], cps. simpl. rewrite !app_nil_r, Z.add_0_r, Z.sub_diag.
    repeat split; try done; try lia.
  - pose proof (openTail_bound _ _ Hopen) as Hb.
    assert (Hlen : Z.of_nat (length done) + 1 = Z.of_nat (length (done ++ [e])))
      by (rewrite length_app; simpl; lia).
    assert (Hbody : done ++ e :: rest = (done ++ [e]) ++ rest)
      by (by rewrite <- app_assoc).
    simpl getPages_loop. simpl breakPositions. rewrite breakCount_cons.
    destruct (_hasPageBreak e) eqn:He.
    + rewrite Hlen.
      destruct (IH (done ++ [e])
                  (pgs ++ [mkPageInfo idx cps (Z.of_nat (length done))])
                  (Z.of_nat (length (done ++ [e]))) (idx + 1)
                  (openTail_fresh _))
        as (new & cps' & Hrun & Hcount & Hidx & Hends & Hcover & Hle & Hclosed
            & Htail & Hlast).
      exists (mkPageInfo idx cps (Z.of_nat (length done)) :: new), cps'.
      rewrite Hrun, <- app_assoc. simpl.
      repeat split.
      * f_equal. lia.
      * by rewrite Hcount.
      * rewrite Hidx. rewrite (seqZ_cons idx) by lia.
        do 2 f_equal; lia.
      * by rewrite Hends.
      * rewrite Hcover. unfold pageRange. simpl.
        replace (cps' - cps)
          with ((Z.of_nat (length done) - cps + 1) +
                (cps' - Z.of_nat (length (done ++ [e])))) by lia.
        rewrite (seqZ_app cps (Z.of_nat (length done) - cps + 1)) by lia.
        do 2 f_equal. lia.
      * lia.
      * constructor; [|by rewrite Hbody].
        destruct Hopen as (before & content & -> & Hstart & Hfree).
        exists before, content, e, rest. simpl.
        rewrite <- app_assoc. repeat split; try done.
        rewrite length_app. lia.
      * by rewrite Hbody.
      * rewrite Hbody. rewrite Hlast, last_cons_cases.
        destruct (last rest); tauto.
      * rewrite Hbody. rewrite Hlast, last_cons_cases.
        destruct (last rest); tauto.
    + rewrite Hlen.
      destruct (IH (done ++ [e]) pgs cps idx (openTail_snoc_free _ _ _ Hopen He))
        as (new & cps' & Hrun & Hcount & Hidx & Hends & Hcover & Hle & Hclosed
            & Htail & Hlast).
      exists new, cps'. rewrite Hrun. simpl.
      repeat split; try done; try (by rewrite Hbody).
      * rewrite Hbody, Hlast, last_cons_cases.
        destruct (last rest); [tauto|]. rewrite <- Hlen. lia.
      * rewrite Hbody, Hlast, last_cons_cases.
        destruct (last rest); [tauto|]. rewrite He. discriminate.
Qed.

(** [getPages] is the pages closed by the breaks, then the final page. *)
Lemma getPages_structure (d : Document) :
  let body := _bodyElements d in
  exists (closed : list PageInfo) (start : Z),
    getPages d = closed ++ [finalPage body start] /\
    length closed = breakCount body /\
    List.map index closed = seqZ 0 (Z.of_nat (breakCount body)) /\
    List.map endElement closed = breakPositions body 0 /\
    concat (List.map pageRange closed) = seqZ 0 start /\
    Forall (closedPage body) closed /\
    openTail body start /\
    (noOpenPage body = true <-> start = Z.of_nat (length body)).
Proof.
  intros body. unfold getPages. fold body.
  destruct (getPages_loop_spec body [] [] 0 0 (openTail_fresh []))
    as (new & cps' & Hrun & Hcount & Hidx & Hends & Hcover & Hle & Hclosed
        & Htail & Hlast).
  change (Z.of_nat (@length XmlNode [])) with 0 in *.
  simpl in Hrun, Hends, Hclosed, Htail, Hlast. rewrite Hrun. simpl.
  rewrite Z.sub_0_r in Hcover.
  assert (Hno : noOpenPage body = true <-> cps' = Z.of_nat (length body)).
  { rewrite Hlast. unfold noOpenPage. destruct (last body); tauto. }
  pose proof (openTail_bound _ _ Htail) as Hb.
  exists new, cps'. rewrite Hcount in Hidx.
  split; [|split_and!; done].
  unfold finalPage. rewrite <- Hcount.
  destruct (cps' <? Z.of_nat (length body)) eqn:Hlt.
  - apply Z.ltb_lt in Hlt.
    destruct (noOpenPage body); [|done].
    assert (cps' = Z.of_nat (length body)) by tauto. lia.
  - apply Z.ltb_ge in Hlt.
    assert (Heq : noOpenPage body = true) by (apply Hno; lia).
    rewrite Heq.
    destruct (0 <? Z.of_nat (length new)) eqn:Hpos; [done|].
    apply Z.ltb_ge in Hpos. destruct new; [done|simpl in Hpos; lia].
Qed.

Lemma getPageCount_breaks (d : Document) :
  getPageCount d = Z.of_nat (breakCount (_bodyElements d)) + 1.
Proof.
  destruct (getPages_structure d) as (closed & start & Hp & Hlen & _).
  unfold getPageCount. rewrite Hp, length_app, Hlen. simpl. lia.
Qed.

(** A body made of break-bearing paragraphs only: one page more than it has
    elements. *)
Lemma getPageCount_breaks_only (d : Document) :
  Forall (fun e => _hasPageBreak e = true) (_bodyElements d) ->
  getPageCount d = Z.of_nat (length (_bodyElements d)) + 1.
Proof. intros Hall. by rewrite getPageCount_breaks, breakCount_all. Qed.

Lemma closedPage_bounds (body : list XmlNode) (p : PageInfo) :
  closedPage body p ->
  0 <= startElement p <= endElement p /\
  endElement p < Z.of_nat (length body).
Proof.
  intros (before & content & brk & after & -> & Hs & He & _).
  rewrite !length_app. simpl. lia.
Qed.

(** The entries of [getPages] that hold content, and the sentinel. *)
Lemma getPages_cover (d : Document) :
  let body := _bodyElements d in
  exists content : list PageInfo,
    getPages d =
      content ++
      (if noOpenPage body
       then [sentinelPage (Z.of_nat (breakCount body))] else []) /\
    concat (List.map pageRange content) = seqZ 0 (Z.of_nat (length body)) /\
    Forall (fun p => 0 <= startElement p <= endElement p /\
                     endElement p < Z.of_nat (length body)) content.
Proof.
  intros body.
  destruct (getPages_structure d)
    as (closed & start & Hp & Hlen & Hidx & Hends & Hcover & Hclosed & Htail
        & Hno).
  fold body in Hp, Hlen, Hidx, Hends, Hcover, Hclosed, Htail, Hno.
  pose proof (openTail_bound _ _ Htail) as Hb.
  assert (Hbounds : Forall (fun p => 0 <= startElement p <= endElement p /\
                                     endElement p < Z.of_nat (length body))
                      closed).
  { eapply Forall_impl; [exact Hclosed|]. intros p Hc.
    by apply closedPage_bounds in Hc. }
  exists (closed ++ (if noOpenPage body then [] else [finalPage body start])).
  split; [|split].
  - rewrite Hp. unfold finalPage.
    destruct (noOpenPage body); by rewrite <- ?app_assoc, ?app_nil_r.
  - rewrite List.map_app, concat_app, Hcover.
    unfold finalPage. destruct (noOpenPage body) eqn:Hn; simpl.
    + rewrite app_nil_r. f_equal. by apply Hno.
    + rewrite app_nil_r. unfold pageRange. simpl.
      assert (start <> Z.of_nat (length body)) by (intros ?; by apply Hno in H).
      rewrite <- (seqZ_app 0 start) by lia. f_equal. lia.
  - apply Forall_app. split; [done|].
    unfold finalPage. destruct (noOpenPage body) eqn:Hn; constructor; [|done].
    simpl. assert (start <> Z.of_nat (length body)) by (intros ?; by apply Hno in H).
    lia.
Qed.

(** C1. [getPages] on a body with [k] break-bearing paragraphs returns
    [k + 1] entries numbered [0 .. k]; entry [j < k] ends on the [j]-th
    break position; the entries that hold content are non-empty ranges
    which, put end to end, are exactly the positions [0 .. lastIndex] (no
    gap, no overlap, in order); and they are followed by one sentinel
    [(-1, -1)] entry exactly when the body is empty or its last element is
    a break. So the page count is the number of breaks plus one. *)
Theorem getPages_partitions_body (d : Document) :
  let body := _bodyElements d in
  let k := breakCount body in
  exists content : list PageInfo,
    getPages d =
      content ++
      (if noOpenPage body then [sentinelPage (Z.of_nat k)] else []) /\
    getPageCount d = Z.of_nat k + 1 /\
    List.map index (getPages d) = seqZ 0 (Z.of_nat k + 1) /\
    List.map endElement (take k (getPages d)) = breakPositions body 0 /\
    concat (List.map pageRange content) = seqZ 0 (Z.of_nat (length body)) /\
    Forall (fun p => 0 <= startElement p <= endElement p /\
                     endElement p < Z.of_nat (length body)) content.
Proof.
  intros body k.
  destruct (getPages_cover d) as (content & Hp & Hcover & Hbounds).
  destruct (getPages_structure d)
    as (closed & start & Hp' & Hlen & Hidx & Hends & _).
  fold body in Hp, Hcover, Hbounds, Hp', Hlen, Hidx, Hends.
  fold k in Hp, Hp', Hlen, Hidx.
  exists content. split_and!; try done.
  - apply getPageCount_breaks.
  - rewrite Hp', List.map_app, Hidx. simpl.
    rewrite (seqZ_app 0 (Z.of_nat k) 1) by lia.
    f_equal. unfold finalPage. fold k. by destruct (noOpenPage body).
  - rewrite Hp', take_app_length' by done. exact Hends.
Qed.

(* ===================================================================== *)
(** * Removing a page *)
(* ===================================================================== *)

Lemma splice_middle {A} (before middle after : list A) :
  splice (before ++ middle ++ after) (Z.of_nat (length before))
    (Z.of_nat (length middle)) = before ++ after.
Proof.
  unfold splice, clampIndex. rewrite !length_app.
  destruct (Z.of_nat (length before) <? 0) eqn:Hneg;
    [apply Z.ltb_lt in Hneg; lia|].
  rewrite Z.min_l by lia.
  rewrite Z.max_l by lia. rewrite Z.min_l by lia.
  rewrite Nat2Z.id, take_app_length.
  rewrite <- Nat2Z.inj_add, Nat2Z.id.
  rewrite app_assoc, drop_app_length' by (by rewrite length_app).
  reflexivity.
Qed.

(** The bounds check passes and [pages[index]] is read. *)
Lemma removePage_in_bounds (d : Document) (i : Z) (p : PageInfo) :
  0 <= i -> getPages d !! Z.to_nat i = Some p ->
  (i <? 0) || (i >=? Z.of_nat (length (getPages d))) = false /\
  pageAt (getPages d) i (set_dirty true d) = (Returned p, set_dirty true d).
Proof.
  intros Hi Hp. pose proof (lookup_lt_Some _ _ _ Hp) as Hlt. split.
  - apply orb_false_iff. split; [apply Z.ltb_ge; lia|].
    rewrite Z.geb_leb. apply Z.leb_gt. lia.
  - unfold pageAt. destruct (i <? 0) eqn:Hneg; [apply Z.ltb_lt in Hneg; lia|].
    by rewrite Hp.
Qed.

(** Removal of a page that holds content. *)
Lemma removePage_content (d : Document) (i : Z) (p : PageInfo) :
  0 <= i -> getPages d !! Z.to_nat i = Some p -> startElement p <> -1 ->
  removePage i d =
    (Returned tt,
     set_bodyElements
       (fun b => splice b (startElement p) (endElement p - startElement p + 1))
       (set_dirty true d)).
Proof.
  intros Hi Hp Hs. destruct (removePage_in_bounds d i p Hi Hp) as [Hin Hat].
  unfold removePage, bind, this. simpl. rewrite Hin.
  unfold bind, update at 1. simpl. rewrite Hat.
  destruct (startElement p =? -1) eqn:Heq; [apply Z.eqb_eq in Heq; done|].
  reflexivity.
Qed.

(** Removal of the empty trailing page that follows a break. *)
Lemma removePage_trailing (d : Document) (i : Z) (p prev : PageInfo) :
  0 < i -> getPages d !! Z.to_nat i = Some p -> startElement p = -1 ->
  getPages d !! Z.to_nat (i - 1) = Some prev -> 0 <= endElement prev ->
  removePage i d =
    (Returned tt,
     set_bodyElements (fun b => splice b (endElement prev) 1)
       (set_dirty true d)).
Proof.
  intros Hi Hp Hs Hprev He.
  destruct (removePage_in_bounds d i p ltac:(lia) Hp) as [Hin Hat].
  destruct (removePage_in_bounds d (i - 1) prev ltac:(lia) Hprev) as [_ Hat'].
  unfold removePage, bind, this. simpl. rewrite Hin.
  unfold bind, update at 1. simpl. rewrite Hat, Hs. simpl.
  destruct (0 <? i) eqn:Hpos; [|apply Z.ltb_ge in Hpos; lia].
  rewrite Hat'.
  destruct (endElement prev >=? 0) eqn:Hge; [reflexivity|].
  rewrite Z.geb_leb in Hge. apply Z.leb_gt in Hge. lia.
Qed.

(** A page closed by a break, cut out of the body, takes that one break with
    it. *)
Lemma splice_closedPage (body : list XmlNode) (p : PageInfo) :
  closedPage body p ->
  breakCount
    (splice body (startElement p) (endElement p - startElement p + 1)) =
  (breakCount body - 1)%nat /\ (1 <= breakCount body)%nat.
Proof.
  intros (before & content & brk & after & -> & Hs & He & Hfree & Hbrk).
  assert (Hbody : before ++ content ++ brk :: after =
                  before ++ (content ++ [brk]) ++ after)
    by (by rewrite <- app_assoc).
  rewrite Hbody, <- Hs.
  replace (endElement p - Z.of_nat (length before) + 1)
    with (Z.of_nat (length (content ++ [brk])))
    by (rewrite length_app; simpl; lia).
  rewrite splice_middle, !breakCount_app, (breakCount_free content Hfree).
  rewrite breakCount_cons, Hbrk. simpl. lia.
Qed.

(** The break at the end of a closed page, cut out alone. *)
Lemma splice_closing_break (body : list XmlNode) (p : PageInfo) :
  closedPage body p ->
  breakCount (splice body (endElement p) 1) = (breakCount body - 1)%nat /\
  (1 <= breakCount body)%nat.
Proof.
  intros (before & content & brk & after & -> & Hs & He & Hfree & Hbrk).
  assert (Hbody : before ++ content ++ brk :: after =
                  (before ++ content) ++ [brk] ++ after)
    by (by rewrite <- app_assoc).
  rewrite Hbody.
  replace (endElement p) with (Z.of_nat (length (before ++ content)))
    by (rewrite length_app; lia).
  change 1 with (Z.of_nat (length [brk])).
  rewrite splice_middle, !breakCount_app, (breakCount_free content Hfree).
  rewrite breakCount_cons, Hbrk. simpl. lia.
Qed.

Lemma removePage_sentinel_first (d : Document) (i : Z) (p : PageInfo) :
  i = 0 -> getPages d !! Z.to_nat i = Some p -> startElement p = -1 ->
  removePage i d = (Returned tt, set_dirty true d).
Proof.
  intros Hi Hp Hs.
  destruct (removePage_in_bounds d i p ltac:(lia) Hp) as [Hin Hat].
  unfold removePage, bind, this. simpl. rewrite Hin.
  unfold bind, update at 1. simpl. rewrite Hat, Hs. simpl.
  destruct (0 <? i) eqn:Hpos; [apply Z.ltb_lt in Hpos; lia|reflexivity].
Qed.

Lemma getPageCount_set_body (f : list XmlNode -> list XmlNode) (d : Document) :
  getPageCount (set_bodyElements f (set_dirty true d)) =
  Z.of_nat (breakCount (f (_bodyElements d))) + 1.
Proof. by rewrite getPageCount_breaks. Qed.

Lemma getPageCount_set_dirty (d : Document) :
  getPageCount (set_dirty true d) = getPageCount d.
Proof. by rewrite !getPageCount_breaks. Qed.

Lemma finalPage_start (body : list XmlNode) (start : Z) :
  0 <= start ->
  startElement (finalPage body start) = -1 <-> noOpenPage body = true.
Proof.
  intros Hs. unfold finalPage. destruct (noOpenPage body); simpl; [done|].
  split; [lia|done].
Qed.

(** C6. For an index below 0 or not below the page count, [removePage]
    throws an error whose message gives the index and the page count, and
    the document it leaves is the document it was given: body elements,
    dirty flag and every other field. *)
Theorem removePage_out_of_bounds (d : Document) (i : Z) :
  i < 0 \/ getPageCount d <= i ->
  removePage i d =
    (Thrown ("Page index out of bounds: " +:+ showZ i +:+
             ". Document has " +:+ showZ (getPageCount d) +:+ " page(s)."),
     d).
Proof.
  intros Hout. unfold removePage, bind, this, getPageCount. simpl.
  destruct ((i <? 0) || (i >=? Z.of_nat (length (getPages d)))) eqn:Hin;
    [reflexivity|].
  apply orb_false_iff in Hin as [Hneg Hge].
  apply Z.ltb_ge in Hneg. rewrite Z.geb_leb in Hge. apply Z.leb_gt in Hge.
  unfold getPageCount in Hout. lia.
Qed.

(** C3, as amended. For a valid index, [removePage] returns, and the page
    count goes down by exactly 1 when the page is closed by a break (it is
    not the last page) or is the empty trailing page after a final break;
    removing the only page of a document leaves the count at 1. *)
Theorem removePage_decreases_count (d : Document) (i : Z) :
  0 <= i < getPageCount d ->
  outcome (removePage i) d = Returned tt /\
  (i < getPageCount d - 1 \/ (0 < i /\ noOpenPage (_bodyElements d) = true) ->
   getPageCount (stateAfter (removePage i) d) = getPageCount d - 1) /\
  (getPageCount d = 1 ->
   getPageCount (stateAfter (removePage i) d) = 1).
Proof.
  intros Hi. rewrite getPageCount_breaks in *.
  destruct (getPages_structure d)
    as (closed & start & Hp & Hlen & Hidx & Hends & Hcover & Hclosed & Htail
        & Hno).
  pose proof (openTail_bound _ _ Htail) as Hb.
  set (body := _bodyElements d) in *. set (k := breakCount body) in *.
  unfold outcome, stateAfter.
  destruct (decide (i < Z.of_nat k)) as [Hlt|Hlast].
  - (* a page closed by a break *)
    assert (Hlk : (Z.to_nat i < length closed)%nat) by lia.
    destruct (lookup_lt_is_Some_2 _ _ Hlk) as [p Hcp].
    pose proof (Forall_lookup_1 _ _ _ _ Hclosed Hcp) as Hpage.
    pose proof (closedPage_bounds _ _ Hpage) as [Hpb _].
    destruct (splice_closedPage _ _ Hpage) as [Hcut Hpos].
    rewrite (removePage_content d i p) by
      (try lia; rewrite Hp; by apply lookup_app_l_Some).
    simpl. rewrite getPageCount_set_body. fold body. rewrite Hcut.
    split; [done|]. split; intros; lia.
  - assert (Hik : i = Z.of_nat k) by lia.
    assert (Hfinal : getPages d !! Z.to_nat i = Some (finalPage body start)).
    { rewrite Hp, Hik, Nat2Z.id, <- Hlen. apply list_lookup_middle. done. }
    destruct (noOpenPage body) eqn:Hopen.
    + (* the sentinel *)
      assert (Hs : startElement (finalPage body start) = -1)
        by (apply finalPage_start; [lia|done]).
      destruct (decide (0 < i)) as [Hpos|Hzero].
      * assert (Hlk : (Z.to_nat (i - 1) < length closed)%nat) by lia.
        destruct (lookup_lt_is_Some_2 _ _ Hlk) as [prev Hcp].
        pose proof (Forall_lookup_1 _ _ _ _ Hclosed Hcp) as Hpage.
        pose proof (closedPage_bounds _ _ Hpage) as [Hpb _].
        destruct (splice_closing_break _ _ Hpage) as [Hcut Hk].
        rewrite (removePage_trailing d i _ prev Hpos Hfinal Hs) by
          (try lia; rewrite Hp; by apply lookup_app_l_Some).
        simpl. rewrite getPageCount_set_body. fold body. rewrite Hcut.
        split; [done|]. split; intros; lia.
      * assert (Hi0 : i = 0) by lia.
        rewrite (removePage_sentinel_first d i _ Hi0 Hfinal Hs). simpl.
        rewrite getPageCount_set_dirty, getPageCount_breaks. fold body k.
        split; [done|]. split; intros; lia.
    + (* the last page, with content *)
      assert (Hs : startElement (finalPage body start) <> -1).
      { intros Hs. apply finalPage_start in Hs; [congruence|lia]. }
      rewrite (removePage_content d i _ ltac:(lia) Hfinal Hs). simpl.
      split; [done|]. split; [intros [?|[_ ?]]; [lia|done]|].
      intros Hone. rewrite getPageCount_set_body. fold body.
      unfold finalPage. rewrite Hopen. simpl.
      destruct Htail as (before & content & Hbody & Hstart & Hfree).
      rewrite Hbody, <- Hstart.
      replace (Z.of_nat (length (before ++ content)) - 1 -
               Z.of_nat (length before) + 1)
        with (Z.of_nat (length content)) by (rewrite length_app; lia).
      rewrite <- (app_nil_r content) at 1.
      rewrite splice_middle, app_nil_r.
      assert (breakCount before = 0%nat); [|lia].
      assert (k = 0%nat) by lia. unfold k in *. rewrite Hbody in *.
      rewrite breakCount_app in *. lia.
Qed.

Lemma breakPositions_app (a b : list XmlNode) (i : Z) :
  breakPositions (a ++ b) i =
  breakPositions a i ++ breakPositions b (i + Z.of_nat (length a)).
Proof.
  revert i. induction a as [|e a IH]; intros i; simpl.
  - by rewrite Z.add_0_r.
  - rewrite IH.
    replace (i + 1 + Z.of_nat (length a)) with (i + Z.of_nat (S (length a)))
      by lia.
    by destruct (_hasPageBreak e).
Qed.

Lemma splice_last {A} (rest : list A) (x : A) :
  splice (rest ++ [x]) (Z.of_nat (length rest)) 1 = rest.
Proof.
  pose proof (splice_middle rest [x] []) as H.
  by rewrite !app_nil_r in H.
Qed.

(** C10. When the last entry of [getPages] is the sentinel and its index is
    above 0, the body is [rest ++ [brk]] with [brk] a break-bearing
    paragraph, the page before the sentinel ends on [brk], and [removePage]
    of the last index leaves exactly [rest] as the body: one element is
    removed, every other element stays where it was, and the page count goes
    down by exactly 1. *)
Theorem removePage_trailing_sentinel (d : Document) (p : PageInfo) :
  last (getPages d) = Some p -> startElement p = -1 -> 0 < index p ->
  exists (prev : PageInfo) (rest : list XmlNode) (brk : XmlNode),
    index p = getPageCount d - 1 /\
    getPages d !! Z.to_nat (index p - 1) = Some prev /\
    _bodyElements d = rest ++ [brk] /\
    _hasPageBreak brk = true /\
    endElement prev = Z.of_nat (length rest) /\
    removePage (index p) d =
      (Returned tt, set_bodyElements (fun _ => rest) (set_dirty true d)) /\
    getPageCount (stateAfter (removePage (index p)) d) = getPageCount d - 1.
Proof.
  intros Hlast Hs Hpos.
  destruct (getPages_structure d)
    as (closed & start & Hp & Hlen & Hidx & Hends & Hcover & Hclosed & Htail
        & Hno).
  pose proof (openTail_bound _ _ Htail) as Hb.
  set (body := _bodyElements d) in *.
  rewrite Hp, last_snoc in Hlast. injection Hlast as <-.
  apply finalPage_start in Hs; [|lia].
  assert (Hk : index (finalPage body start) = Z.of_nat (breakCount body))
    by (unfold finalPage; by destruct (noOpenPage body)).
  rewrite Hk in *.
  (* the body ends on a break *)
  unfold noOpenPage in Hs. destruct (last body) as [brk|] eqn:Hl.
  2:{ apply last_None in Hl. rewrite Hl in Hpos. unfold breakCount in Hpos.
      simpl in Hpos. lia. }
  apply last_Some in Hl as [rest Hbody].
  (* the page before the sentinel *)
  assert (Hlk : (Z.to_nat (Z.of_nat (breakCount body) - 1) < length closed)%nat)
    by lia.
  destruct (lookup_lt_is_Some_2 _ _ Hlk) as [prev Hcp].
  assert (Hend : endElement prev = Z.of_nat (length rest)).
  { assert (Hm : List.map endElement closed
                   !! Z.to_nat (Z.of_nat (breakCount body) - 1)
                 = Some (endElement prev)).
    { change (List.map endElement closed) with (endElement <$> closed).
      by rewrite list_lookup_fmap, Hcp. }
    rewrite Hends, Hbody, breakPositions_app in Hm. simpl in Hm.
    rewrite Hs in Hm.
    rewrite breakCount_app, breakCount_cons, Hs in Hm.
    replace (Z.to_nat (Z.of_nat (breakCount rest + (1 + breakCount [])) - 1))
      with (length (breakPositions rest 0)) in Hm.
    - rewrite list_lookup_middle in Hm by done. injection Hm as <-. lia.
    - rewrite length_breakPositions. change (breakCount []) with 0%nat. lia. }
  assert (Hfinal : getPages d !! Z.to_nat (Z.of_nat (breakCount body))
                   = Some (finalPage body start)).
  { rewrite Hp, Nat2Z.id, <- Hlen. by apply list_lookup_middle. }
  assert (Hprev : getPages d !! Z.to_nat (Z.of_nat (breakCount body) - 1)
                  = Some prev)
    by (rewrite Hp; by apply lookup_app_l_Some).
  assert (Hrun : removePage (Z.of_nat (breakCount body)) d =
            (Returned tt,
             set_bodyElements (fun _ => rest) (set_dirty true d))).
  { assert (Hsent : startElement (finalPage body start) = -1).
    { apply finalPage_start; [lia|].
      unfold noOpenPage. by rewrite Hbody, last_snoc. }
    rewrite (removePage_trailing d _ _ prev Hpos Hfinal Hsent Hprev) by lia.
    unfold set_bodyElements. simpl. fold body.
    by rewrite Hend, Hbody, splice_last. }
  exists prev, rest, brk. split_and!; try done.
  - rewrite getPageCount_breaks. fold body. lia.
  - unfold stateAfter. rewrite Hrun. simpl.
    rewrite getPageCount_set_body, getPageCount_breaks. fold body.
    rewrite Hbody, breakCount_app, breakCount_cons, Hs.
    change (breakCount []) with 0%nat. lia.
Qed.

(* ===================================================================== *)
(** * Merging: the steps of [merge] *)
(* ===================================================================== *)

(** A deep clone is equal, as a value, to the node it copies. *)
Fixpoint cloneNode_id (node : XmlNode) : cloneNode node = node
with cloneValue_id (v : XmlValue) : cloneValue v = v.
Proof.
  - destruct node as [fs]. simpl. f_equal.
    induction fs as [|[key v] fs IH]; simpl; [reflexivity|].
    by rewrite (cloneValue_id v), IH.
  - destruct v as [cs|s|attrs]; simpl; [|reflexivity|].
    + f_equal. induction cs as [|c cs IH]; simpl; [reflexivity|].
      by rewrite (cloneNode_id c), IH.
    + f_equal. induction attrs as [|[key value] attrs IH]; simpl;
        [reflexivity|]. by rewrite IH.
Qed.

Lemma cloneNodes_id (nodes : list XmlNode) : cloneNodes nodes = nodes.
Proof.
  unfold cloneNodes. induction nodes as [|n nodes IH]; simpl; [reflexivity|].
  by rewrite cloneNode_id, IH.
Qed.

(** The loop of [_mergeNamespaces] computes the union that keeps the
    target's value on a shared key. *)
Lemma mergeNamespaces_fold (target source : gmap string string) :
  map_fold
    (fun key value acc =>
       match acc !! key with
       | Some _ => acc
       | None => <[key := value]> acc
       end)
    target source = target ∪ source.
Proof.
  apply (map_fold_weak_ind (fun r m => r = target ∪ m)).
  - by rewrite (right_id_L ∅ (∪)).
  - intros key value m r Hm ->.
    destruct ((target ∪ m) !! key) as [x|] eqn:Hk.
    + apply lookup_union_Some_raw in Hk as [Hk|[_ Hk]]; [|congruence].
      apply map_eq. intros j. rewrite !lookup_union.
      destruct (decide (key = j)) as [<-|Hne].
      * by rewrite Hk, lookup_insert_eq, Hm.
      * by rewrite lookup_insert_ne.
    + apply lookup_union_None in Hk as [Hk _].
      by apply insert_union_r.
Qed.

(** The loop of [_copyDocumentStructure] adds the parts of the source that
    the target lacks, the primary document part left out. *)
Lemma copyFiles_fold (files source : gmap string (list Byte.byte)) :
  map_fold
    (fun path content acc =>
       if String.eqb path "word/document.xml" then acc
       else match acc !! path with
            | Some _ => acc
            | None => <[path := content]> acc
            end)
    files source = files ∪ delete "word/document.xml" source.
Proof.
  apply (map_fold_weak_ind
           (fun r m => r = files ∪ delete "word/document.xml" m)).
  - by rewrite delete_empty, (right_id_L ∅ (∪)).
  - intros path content m r Hm ->.
    destruct (String.eqb_spec path "word/document.xml") as [->|Hne].
    + by rewrite delete_insert_eq.
    + rewrite delete_insert_ne by done.
      assert (Hdel : delete "word/document.xml" m !! path = None)
        by (by rewrite lookup_delete_ne).
      destruct ((files ∪ delete "word/document.xml" m) !! path) as [x|] eqn:Hk.
      * apply lookup_union_Some_raw in Hk as [Hk|[_ Hk]]; [|congruence].
        apply map_eq. intros j. rewrite !lookup_union.
        destruct (decide (path = j)) as [<-|Hnj].
        -- by rewrite Hk, lookup_insert_eq, Hdel.
        -- by rewrite lookup_insert_ne.
      * apply lookup_union_None in Hk as [Hk _].
        by apply insert_union_r.
Qed.

Lemma _mergeNamespaces_run (source : gmap string string) (d : Document) :
  _mergeNamespaces source d =
    (Returned tt, set_namespaces (fun ns => ns ∪ source) d).
Proof.
  unfold _mergeNamespaces, update, set_namespaces.
  by rewrite mergeNamespaces_fold.
Qed.

Lemma _copyDocumentStructure_run (sourceDoc d : Document) :
  _copyDocumentStructure sourceDoc d =
    (Returned tt,
     set_files
       (fun files => files ∪ delete "word/document.xml" (_files sourceDoc))
       (set_sectPr
          (match _sectPr d with
           | Some own => Some own
           | None => _sectPr sourceDoc
           end) d)).
Proof.
  unfold _copyDocumentStructure, bind, this, update, set_files.
  destruct d as [files body parsed dirty ns [own|]];
    destruct (_sectPr sourceDoc) as [sectPr|]; simpl;
    rewrite ?cloneNode_id, copyFiles_fold; reflexivity.
Qed.

Lemma appendPages_clone (sourceDoc : Document) (selected : list PageInfo)
  (b : list XmlNode) :
  fold_left
    (fun acc page =>
       if startElement page =? -1 then acc
       else
         let elements :=
           slice (_bodyElements sourceDoc) (startElement page)
             (endElement page + 1) in
         acc ++ cloneNodes elements)
    selected b = appendPages sourceDoc selected b.
Proof.
  unfold appendPages. revert b.
  induction selected as [|page selected IH]; intros b; simpl; [reflexivity|].
  rewrite cloneNodes_id. apply IH.
Qed.

Lemma beforeSelection_body (sourceDoc d : Document) :
  _bodyElements (beforeSelection sourceDoc d) = _bodyElements d.
Proof.
  unfold beforeSelection, stateAfter.
  destruct (_ && _); [|reflexivity].
  by rewrite _copyDocumentStructure_run.
Qed.

(** [merge] on a loaded source, step by step. *)
Lemma mergeDocument_run (sourceDoc : Document) (options : MergeOptions)
  (d : Document) :
  mergeDocument sourceDoc options d =
    (Returned tt,
     let selected := pagesToMerge options (getPages sourceDoc) in
     let breakBefore :=
       match addPageBreakBefore options with Some false => false | _ => true end
     in
     if Z.of_nat (length selected) =? 0 then beforeSelection sourceDoc d
     else
       set_bodyElements
         (fun b =>
            appendPages sourceDoc selected
              (if breakBefore && (0 <? Z.of_nat (length b))
               then b ++ [_createPageBreakParagraph] else b))
         (beforeSelection sourceDoc d)).
Proof.
  unfold mergeDocument, bind at 1. unfold update at 1.
  unfold bind at 1. rewrite _mergeNamespaces_run.
  unfold bind at 1, this at 1. unfold beforeSelection, stateAfter.
  change (_bodyElements (set_namespaces _ (set_dirty true d)))
    with (_bodyElements d).
  change (_files (set_namespaces _ (set_dirty true d))) with (_files d).
  set (d1 := set_namespaces _ (set_dirty true d)).
  set (first := (_ =? 0) && (_ =? 0)).
  unfold bind at 1.
  assert (Hstruct :
    (if first then _copyDocumentStructure sourceDoc else ret tt) d1 =
    (Returned tt,
     if first then snd (_copyDocumentStructure sourceDoc d1) else d1)).
  { destruct first; [|reflexivity]. by rewrite _copyDocumentStructure_run. }
  rewrite Hstruct. simpl.
  destruct (Z.of_nat (length (pagesToMerge options (getPages sourceDoc))) =? 0);
    [reflexivity|].
  unfold bind, this, update, set_bodyElements. simpl.
  destruct (match addPageBreakBefore options with
            | Some false => false | _ => true end &&
            (0 <? Z.of_nat (length (_bodyElements
               (if first then snd (_copyDocumentStructure sourceDoc d1) else d1)))));
    simpl; by rewrite appendPages_clone.
Qed.

Lemma pagesToMerge_nothing (options : MergeOptions) (sourceDoc : Document) :
  selectsNothing options sourceDoc ->
  pagesToMerge options (getPages sourceDoc) = [].
Proof.
  intros (requested & Hreq & Hout). unfold pagesToMerge. rewrite Hreq.
  unfold getPageCount in Hout. clear Hreq.
  induction Hout as [|idx requested Hidx _ IH]; [reflexivity|]. simpl.
  destruct ((idx >=? 0) && (idx <? Z.of_nat (length (getPages sourceDoc))))
    eqn:Hin; [|exact IH].
  apply andb_true_iff in Hin as [Hge Hlt].
  rewrite Z.geb_leb in Hge. apply Z.leb_le in Hge. apply Z.ltb_lt in Hlt. lia.
Qed.

Lemma beforeSelection_namespaces (sourceDoc d : Document) :
  _namespaces (beforeSelection sourceDoc d) =
  _namespaces d ∪ _namespaces sourceDoc.
Proof.
  unfold beforeSelection, stateAfter. rewrite _copyDocumentStructure_run.
  by destruct (_ && _).
Qed.

(** ** Namespaces in merge order *)

Lemma unionInOrder_target (sources : list Document) :
  forall (target : gmap string string) (key value : string),
    target !! key = Some value ->
    unionInOrder target sources !! key = Some value.
Proof.
  induction sources as [|s sources IH]; intros target key value Hk; [done|].
  simpl. apply IH. by apply lookup_union_Some_l.
Qed.

Lemma unionInOrder_first (before : list Document) :
  forall (target : gmap string string) (s : Document) (after : list Document)
         (key value : string),
    target !! key = None ->
    Forall (fun s' => _namespaces s' !! key = None) before ->
    _namespaces s !! key = Some value ->
    unionInOrder target (before ++ s :: after) !! key = Some value.
Proof.
  induction before as [|s0 before IH];
    intros target s after key value Ht Hbefore Hs; simpl.
  - apply unionInOrder_target. by rewrite lookup_union_r.
  - inversion Hbefore as [|? ? Hs0 Hrest]; subst.
    apply IH; try done. by apply lookup_union_None.
Qed.

Lemma unionInOrder_None (sources : list Document) :
  forall (target : gmap string string) (key : string),
    unionInOrder target sources !! key = None <->
    target !! key = None /\
    Forall (fun s => _namespaces s !! key = None) sources.
Proof.
  induction sources as [|s sources IH]; intros target key; simpl.
  - split; [intros ?; by split|by intros [? _]].
  - rewrite IH, lookup_union_None, Forall_cons. tauto.
Qed.

(** ** Merging every page *)

Lemma omap_lookup_range (body : list XmlNode) (len : nat) :
  forall s : nat,
    (s + len <= length body)%nat ->
    omap (fun x : Z => body !! Z.to_nat x)
      (seqZ (Z.of_nat s) (Z.of_nat len)) = take len (drop s body).
Proof.
  induction len as [|len IH]; intros s Hle.
  - by rewrite seqZ_nil by lia.
  - rewrite seqZ_cons by lia. simpl. rewrite Nat2Z.id.
    destruct (lookup_lt_is_Some_2 body s ltac:(lia)) as [x Hx].
    rewrite Hx, (drop_S _ _ _ Hx). simpl. f_equal.
    replace (Z.succ (Z.of_nat s)) with (Z.of_nat (S s)) by lia.
    replace (Z.pred (Z.of_nat (S len))) with (Z.of_nat len) by lia.
    apply IH. lia.
Qed.

Lemma slice_pageRange (body : list XmlNode) (p : PageInfo) :
  0 <= startElement p <= endElement p ->
  endElement p < Z.of_nat (length body) ->
  slice body (startElement p) (endElement p + 1) =
  omap (fun x : Z => body !! Z.to_nat x) (pageRange p).
Proof.
  intros Hs He. unfold slice, clampIndex, pageRange.
  destruct (startElement p <? 0) eqn:H1; [apply Z.ltb_lt in H1; lia|].
  destruct (endElement p + 1 <? 0) eqn:H2; [apply Z.ltb_lt in H2; lia|].
  rewrite !Z.min_l by lia.
  rewrite <- (Z2Nat.id (startElement p)) at 3 by lia.
  rewrite <- (Z2Nat.id (endElement p - startElement p + 1)) by lia.
  rewrite omap_lookup_range by lia.
  f_equal; lia.
Qed.

Lemma appendPages_content (sourceDoc : Document) (content : list PageInfo) :
  Forall (fun p => 0 <= startElement p <= endElement p /\
                   endElement p < Z.of_nat (length (_bodyElements sourceDoc)))
    content ->
  forall b : list XmlNode,
    appendPages sourceDoc content b =
    b ++ omap (fun x : Z => _bodyElements sourceDoc !! Z.to_nat x)
           (concat (List.map pageRange content)).
Proof.
  unfold appendPages.
  induction 1 as [|p content [Hs He] _ IH]; intros b; simpl.
  - by rewrite app_nil_r.
  - destruct (startElement p =? -1) eqn:Hneg; [apply Z.eqb_eq in Hneg; lia|].
    rewrite IH, omap_app, slice_pageRange by done.
    by rewrite <- app_assoc.
Qed.

(** Merging all the pages of a source appends its whole body. *)
Lemma appendPages_all (sourceDoc : Document) (b : list XmlNode) :
  appendPages sourceDoc (getPages sourceDoc) b = b ++ _bodyElements sourceDoc.
Proof.
  destruct (getPages_cover sourceDoc) as (content & Hp & Hcover & Hbounds).
  rewrite Hp. unfold appendPages. rewrite fold_left_app.
  fold (appendPages sourceDoc content b).
  rewrite (appendPages_content _ _ Hbounds), Hcover.
  pose proof (omap_lookup_range (_bodyElements sourceDoc)
                (length (_bodyElements sourceDoc)) 0 ltac:(lia)) as Hall.
  change (Z.of_nat 0) with 0 in Hall.
  simpl in Hall. rewrite Hall, drop_0, take_ge by lia.
  by destruct (noOpenPage (_bodyElements sourceDoc)).
Qed.

(* ===================================================================== *)
(** * The part store *)
(* ===================================================================== *)

Lemma readZip_entries_kept (entries : list (string * list Byte.byte)) :
  partsKept (readZip_entries entries).
Proof.
  unfold readZip_entries.
  assert (Hgen : forall acc, partsKept acc ->
            partsKept
              (fold_left
                 (fun files entry =>
                    if keptEntry (fst entry) (snd entry)
                    then <[fst entry := snd entry]> files else files)
                 entries acc)).
  { induction entries as [|[path content] entries IH]; intros acc Hacc;
      [done|]. simpl. apply IH.
    destruct (keptEntry path content) eqn:Hk; [|done].
    by apply map_Forall_insert_2. }
  apply Hgen, map_Forall_empty.
Qed.

Lemma writeZip_data_kept (files : gmap string (list Byte.byte)) :
  partsKept files -> writeZip_data files = files.
Proof.
  unfold writeZip_data.
  apply (map_fold_weak_ind (fun r m => partsKept m -> r = m)); [done|].
  intros path content m r Hm IH Hkept.
  apply map_Forall_insert in Hkept as [Hk Hrest]; [|done].
  rewrite Hk. simpl. by rewrite IH.
Qed.

(** An XML part that the document generates is never empty. *)
Lemma generated_part_kept (path xml : string) :
  endsWith path "/" = false ->
  keptEntry path (list_byte_of_string (xmlDeclaration +:+ xml)) = true.
Proof. intros Hpath. unfold keptEntry. rewrite Hpath. reflexivity. Qed.

Lemma ensurePart_kept (path xml : string) (d : Document) :
  endsWith path "/" = false ->
  partsKept (_files d) ->
  partsKept (_files (stateAfter (ensurePart path (xmlDeclaration +:+ xml)) d)).
Proof.
  intros Hpath Hkept. unfold stateAfter, ensurePart, update. simpl.
  destruct (_files d !! path); [done|].
  apply map_Forall_insert_2; [|done]. by apply generated_part_kept.
Qed.

Lemma ensurePart_present (path content : string) (d : Document) :
  is_Some (_files (stateAfter (ensurePart path content) d) !! path).
Proof.
  unfold stateAfter, ensurePart, update, writeZipText. simpl.
  destruct (_files d !! path) eqn:Hp; [by rewrite Hp|].
  by rewrite lookup_insert_eq.
Qed.

Lemma ensurePart_keeps (path content other : string) (d : Document) :
  is_Some (_files d !! other) ->
  is_Some (_files (stateAfter (ensurePart path content) d) !! other).
Proof.
  intros Hother. unfold stateAfter, ensurePart, update, writeZipText. simpl.
  destruct (_files d !! path); [done|].
  rewrite lookup_insert. by case_decide.
Qed.

Lemma beforeSelection_files (sourceDoc d : Document) :
  partsKept (_files d) -> partsKept (_files sourceDoc) ->
  partsKept (_files (beforeSelection sourceDoc d)).
Proof.
  intros Hd Hs. unfold beforeSelection, stateAfter.
  rewrite _copyDocumentStructure_run.
  destruct (_ && _); [|done]. simpl.
  apply map_Forall_union_2; [done|].
  intros path content Hin. apply lookup_delete_Some in Hin as [_ Hin].
  by apply Hs.
Qed.

Lemma keeps_ret {A} (a : A) : keepsFiles (ret a).
Proof. by intros d. Qed.

Lemma keeps_throw {A} (message : string) : keepsFiles (@throw A message).
Proof. by intros d. Qed.

Lemma keeps_this {A} (f : Document -> A) : keepsFiles (this f).
Proof. by intros d. Qed.

Lemma keeps_update (f : Document -> Document) :
  (forall d, _files (f d) = _files d) -> keepsFiles (update f).
Proof. intros Hf d. apply Hf. Qed.

Lemma keeps_bind {A B} (m : Method A) (k : A -> Method B) :
  keepsFiles m -> (forall a, keepsFiles (k a)) -> keepsFiles (bind m k).
Proof.
  intros Hm Hk d. unfold stateAfter, bind.
  specialize (Hm d). unfold stateAfter in Hm.
  destruct (m d) as [[a|message] d']; simpl in *; [|done].
  rewrite <- Hm. apply Hk.
Qed.

Ltac keeps_files :=
  repeat first
    [ apply keeps_ret
    | apply keeps_throw
    | apply keeps_this
    | apply keeps_update; intros; reflexivity
    | apply keeps_bind; [|intros ?]
    | match goal with
      | |- keepsFiles (if ?b then _ else _) => destruct b
      | |- keepsFiles (match ?x with _ => _ end) => destruct x
      end ].

Lemma removePage_keepsFiles (i : Z) : keepsFiles (removePage i).
Proof. unfold removePage, pageAt. keeps_files. Qed.

(* ===================================================================== *)
(** * Template substitution *)
(* ===================================================================== *)

(** ** Strings *)

#[local] Arguments String.append _ _ : simpl nomatch.



Lemma string_length_app (a b : string) :
  String.length (a +:+ b) = (String.length a + String.length b)%nat.
Proof. induction a as [|x a IH]; simpl; [reflexivity|]. by rewrite IH. Qed.



(** ** The default pattern *)








(** ** The substitution pass *)










(** ** Consolidation of the text runs *)

Lemma objGet_objSet {V} (o : list (string * V)) (k : string) (v : V) :
  objGet (objSet o k v) k = Some v.
Proof.
  induction o as [|[k' v'] o IH]; simpl.
  - by rewrite String.eqb_refl.
  - destruct (String.eqb k' k) eqn:Hk; simpl; [by rewrite String.eqb_refl|].
    by rewrite Hk.
Qed.




















(** The walk goes through every element that is not a paragraph: the
    children under each of its tags are rendered in place, so a paragraph
    in a table cell is rendered as one in the body is. *)
Lemma renderNode_children (data : gmap string TemplateValue)
  (options : TemplateOptions) (node : XmlNode) (tagName : string) :
  hasTag "w:p" node = false ->
  getChildren (renderNode data options node) tagName =
  List.map (renderNode data options) (getChildren node tagName).
Proof.
  intros Hp. destruct node as [fs]. simpl renderNode. rewrite Hp.
  unfold getChildren. simpl nodeFields. clear Hp.
  induction fs as [|[k v] fs IH]; simpl; [reflexivity|].
  destruct (String.eqb k tagName); [by destruct v|exact IH].
Qed.



(* ===================================================================== *)
(** * Merging and saving, for any collaborators *)
(* ===================================================================== *)

Section WithCollaborators.

Variable env : Collaborators.

Lemma merge_nothing_run (source : MergeSource) (sourceDoc : Document)
  (options : MergeOptions) (d : Document) :
  loadSource env source = Returned sourceDoc ->
  selectsNothing options sourceDoc ->
  merge env source options d = (Returned tt, beforeSelection sourceDoc d).
Proof.
  intros Hload Hsel. unfold merge. rewrite Hload, mergeDocument_run.
  by rewrite (pagesToMerge_nothing _ _ Hsel).
Qed.

(** C7. A merge whose [pages] list is empty, or holds only indices outside
    [0, source page count), returns without error and leaves the target's
    body elements, hence its page count, as they were. *)
Theorem merge_nothing_keeps_body (source : MergeSource)
  (sourceDoc : Document) (options : MergeOptions) (d : Document) :
  loadSource env source = Returned sourceDoc ->
  selectsNothing options sourceDoc ->
  outcome (merge env source options) d = Returned tt /\
  _bodyElements (stateAfter (merge env source options) d) = _bodyElements d /\
  getPageCount (stateAfter (merge env source options) d) = getPageCount d.
Proof.
  intros Hload Hsel. unfold outcome, stateAfter.
  rewrite (merge_nothing_run _ _ _ _ Hload Hsel). simpl.
  split; [done|]. rewrite !getPageCount_breaks, beforeSelection_body. done.
Qed.


(** ** Namespaces over several merges *)

Lemma merge_namespaces (source : MergeSource) (sourceDoc : Document)
  (options : MergeOptions) (d : Document) :
  loadSource env source = Returned sourceDoc ->
  _namespaces (stateAfter (merge env source options) d) =
  _namespaces d ∪ _namespaces sourceDoc.
Proof.
  intros Hload. unfold stateAfter, merge.
  rewrite Hload, mergeDocument_run. simpl.
  destruct (_ =? 0); simpl; apply beforeSelection_namespaces.
Qed.

Lemma mergeAll_unionInOrder (sources : list (MergeSource * MergeOptions))
  (docs : list Document) :
  Forall2 (fun so s => loadSource env (fst so) = Returned s) sources docs ->
  forall d : Document,
    _namespaces (mergeAll env sources d) = unionInOrder (_namespaces d) docs.
Proof.
  induction 1 as [|[source options] s sources docs Hload _ IH]; intros d;
    [reflexivity|].
  unfold mergeAll in *. simpl. simpl in Hload. rewrite IH.
  by rewrite (merge_namespaces _ _ _ _ Hload).
Qed.

(** C8. After any sequence of merges, the target's namespace declarations
    are the union of its own with those of the sources, in merge order: a
    key the target had keeps the target's value, a key the target lacked has
    the value of the first source that declares it, no other key appears,
    and each key is listed once. *)
Theorem mergeAll_namespaces_first_wins
  (sources : list (MergeSource * MergeOptions)) (docs : list Document)
  (d : Document) :
  Forall2 (fun so s => loadSource env (fst so) = Returned s) sources docs ->
  let merged := _namespaces (mergeAll env sources d) in
  merged = unionInOrder (_namespaces d) docs /\
  (forall key value,
     _namespaces d !! key = Some value -> merged !! key = Some value) /\
  (forall before s after key value,
     docs = before ++ s :: after ->
     _namespaces d !! key = None ->
     Forall (fun s' => _namespaces s' !! key = None) before ->
     _namespaces s !! key = Some value ->
     merged !! key = Some value) /\
  (forall key,
     merged !! key = None <->
     _namespaces d !! key = None /\
     Forall (fun s => _namespaces s !! key = None) docs) /\
  NoDup (map_to_list merged).*1.
Proof.
  intros Hload merged.
  assert (Heq : merged = unionInOrder (_namespaces d) docs)
    by (by apply mergeAll_unionInOrder).
  split; [exact Heq|]. rewrite Heq. split_and!.
  - intros key value. apply unionInOrder_target.
  - intros before s after key value ->. by apply unionInOrder_first.
  - intros key. apply unionInOrder_None.
  - apply NoDup_fst_map_to_list.
Qed.

(** ** Merging every page into a target with content *)

(** With the default options, a merge into a target that has content leaves
    the target's body, one break-bearing paragraph, then the source's body. *)
Lemma merge_default_body (source : MergeSource) (sourceDoc d : Document) :
  loadSource env source = Returned sourceDoc ->
  _bodyElements d <> [] ->
  _bodyElements (stateAfter (merge env source (mkMergeOptions None None)) d) =
  _bodyElements d ++ [_createPageBreakParagraph] ++ _bodyElements sourceDoc.
Proof.
  intros Hload Hbody. unfold stateAfter, merge.
  rewrite Hload, mergeDocument_run. simpl.
  unfold pagesToMerge. simpl.
  pose proof (getPageCount_breaks sourceDoc) as Hcount.
  destruct (Z.of_nat (length (getPages sourceDoc)) =? 0) eqn:Hzero.
  { apply Z.eqb_eq in Hzero. unfold getPageCount in Hcount. lia. }
  simpl. rewrite beforeSelection_body.
  destruct (0 <? Z.of_nat (length (_bodyElements d))) eqn:Hpos.
  - by rewrite appendPages_all, <- app_assoc.
  - apply Z.ltb_ge in Hpos. destruct (_bodyElements d); [done|simpl in Hpos; lia].
Qed.

(** C4, as amended. Merging a 3-page source with the default options into
    a target that has body content and no break (1 page) gives a target of
    exactly 4 pages: the break put before the merged content and the two
    breaks of the source. *)
Theorem merge_three_pages_into_one (source : MergeSource)
  (sourceDoc d : Document) :
  loadSource env source = Returned sourceDoc ->
  _bodyElements d <> [] ->
  getPageCount d = 1 ->
  getPageCount sourceDoc = 3 ->
  getPageCount (stateAfter (merge env source (mkMergeOptions None None)) d) = 4.
Proof.
  intros Hload Hbody Hone Hthree.
  rewrite getPageCount_breaks in *.
  rewrite (merge_default_body _ _ _ Hload Hbody).
  rewrite !breakCount_app, breakCount_cons.
  change (_hasPageBreak _createPageBreakParagraph) with true. cbv iota.
  change (breakCount []) with 0%nat. lia.
Qed.

(** ** Serialization *)

Lemma _parseDocument_files (xml : string) (d : Document) :
  _files (stateAfter (_parseDocument env xml) d) = _files d.
Proof.
  unfold stateAfter, _parseDocument.
  destruct (parseXml env xml) as [parsed|message]; [|reflexivity].
  unfold bind, update, ret. simpl.
  destruct (findElement parsed "w:document") as [documentNode|];
    [|reflexivity].
  destruct (objGet (nodeFields documentNode) ":@") as [[cs|s|attrs]|]; simpl;
    destruct (findElement (getChildren documentNode "w:document") "w:body")
      as [bodyNode|]; simpl; try reflexivity;
    destruct (findElement (getChildren bodyNode "w:body") "w:sectPr");
    reflexivity.
Qed.

Lemma fromBuffer_kept (data : list Byte.byte) (d : Document) :
  fromBuffer env data = Returned d -> partsKept (_files d).
Proof.
  unfold fromBuffer, readZip.
  destruct (unzipSync env data) as [entries|message]; [|discriminate].
  pose proof (readZip_entries_kept entries) as Hkept.
  set (doc := set_files (fun _ => readZip_entries entries) newDocument).
  destruct (readZipText (readZip_entries entries) "word/document.xml")
    as [documentXml|]; [|by intros [= <-]].
  destruct (0 <? String.length documentXml)%nat; [|by intros [= <-]].
  pose proof (_parseDocument_files documentXml doc) as Hfiles.
  unfold stateAfter in Hfiles.
  destruct (_parseDocument env documentXml doc) as [[[]|message] doc'];
    [|discriminate].
  intros [= <-]. simpl in Hfiles. by rewrite Hfiles.
Qed.

Lemma loadSource_kept (source : MergeSource) (sourceDoc : Document) :
  loadSource env source = Returned sourceDoc ->
  (forall s, source = SourceDocument s -> partsKept (_files s)) ->
  partsKept (_files sourceDoc).
Proof.
  destruct source as [s|path|data]; simpl; intros Hload Hdoc.
  - injection Hload as <-. by apply Hdoc.
  - unfold fromFile in Hload. destruct (readFile env path); [|discriminate].
    by eapply fromBuffer_kept.
  - by eapply fromBuffer_kept.
Qed.

Lemma _updateFiles_run (d : Document) :
  stateAfter (_updateFiles env) d =
  if negb (_dirty d) && (0 <? size (_files d))%nat then d else regenerated env d.
Proof.
  unfold stateAfter, _updateFiles, bind, this. simpl.
  destruct (negb (_dirty d) && (0 <? size (_files d))%nat); reflexivity.
Qed.

Lemma toBuffer_state (d : Document) :
  stateAfter (toBuffer env) d = stateAfter (_updateFiles env) d.
Proof.
  unfold stateAfter, toBuffer, bind, this, ret.
  by destruct (_updateFiles env d) as [[[]|message] d'].
Qed.

(** [toFile] leaves the document as [toBuffer] does, and hands the buffer of
    [toBuffer] to the file system. *)
Lemma toFile_state (path : string) (d : Document) :
  stateAfter (toFile env path) d = stateAfter (toBuffer env) d.
Proof.
  unfold stateAfter, toFile, bind.
  by destruct (toBuffer env d) as [[buffer|message] d'].
Qed.

Lemma toFile_writes_buffer (path : string) (d : Document)
  (buffer : list Byte.byte) :
  outcome (toBuffer env) d = Returned buffer ->
  outcome (toFile env path) d = writeFile env path buffer.
Proof.
  unfold outcome, toFile, bind.
  destruct (toBuffer env d) as [[b|message] d']; simpl; [|discriminate].
  by intros [= ->].
Qed.

Lemma _updateDocumentXml_files (d : Document) :
  exists xml : string,
    _files (stateAfter (_updateDocumentXml env) d) =
    <["word/document.xml" := list_byte_of_string (xmlDeclaration +:+ xml)]>
      (_files d).
Proof.
  unfold stateAfter, _updateDocumentXml, bind, this, update, writeZipText.
  simpl. eexists. reflexivity.
Qed.

Lemma regenerated_kept (d : Document) :
  partsKept (_files d) -> partsKept (_files (regenerated env d)).
Proof.
  intros Hkept. unfold regenerated.
  destruct (_updateDocumentXml_files
              (stateAfter (ensurePart "word/_rels/document.xml.rels"
                             (_createDocumentRels env))
                 (stateAfter (ensurePart "_rels/.rels" (_createRootRels env))
                    (stateAfter (ensurePart "[Content_Types].xml"
                                   (_createContentTypes env)) d))))
    as [xml ->].
  apply map_Forall_insert_2; [by apply generated_part_kept|].
  repeat (apply ensurePart_kept; [reflexivity|]). exact Hkept.
Qed.

Lemma regenerated_parts (d : Document) :
  is_Some (_files (regenerated env d) !! "[Content_Types].xml") /\
  is_Some (_files (regenerated env d) !! "_rels/.rels") /\
  is_Some (_files (regenerated env d) !! "word/document.xml") /\
  is_Some (_files (regenerated env d) !! "word/_rels/document.xml.rels").
Proof.
  unfold regenerated.
  set (d1 := stateAfter (ensurePart "[Content_Types].xml" (_createContentTypes env)) d).
  set (d2 := stateAfter (ensurePart "_rels/.rels" (_createRootRels env)) d1).
  set (d3 := stateAfter (ensurePart "word/_rels/document.xml.rels"
                            (_createDocumentRels env)) d2).
  destruct (_updateDocumentXml_files d3) as [xml ->].
  assert (H1 : is_Some (_files d1 !! "[Content_Types].xml"))
    by apply ensurePart_present.
  assert (H2 : is_Some (_files d2 !! "_rels/.rels"))
    by apply ensurePart_present.
  assert (H3 : is_Some (_files d3 !! "word/_rels/document.xml.rels"))
    by apply ensurePart_present.
  split_and!.
  - rewrite lookup_insert_ne by done. by do 2 apply ensurePart_keeps.
  - rewrite lookup_insert_ne by done. by apply ensurePart_keeps.
  - by rewrite lookup_insert_eq.
  - by rewrite lookup_insert_ne.
Qed.

(** Every part of a reachable document has a path that is not a directory
    and content that is not empty, so [writeZip] drops none of them. *)
Lemma reachable_partsKept (d : Document) : reachable env d -> partsKept (_files d).
Proof.
  induction 1 as [|data d Hload|path d Hload|d _ IH|d i _ IH
                  |d source sourceDoc options _ IH Hload _ IHs
                  |d data options _ IH|d _ IH|d path _ IH].
  - apply map_Forall_empty.
  - by eapply fromBuffer_kept.
  - unfold fromFile in Hload. destruct (readFile env path); [|discriminate].
    by eapply fromBuffer_kept.
  - exact IH.
  - by rewrite removePage_keepsFiles.
  - unfold stateAfter, merge. rewrite Hload, mergeDocument_run. simpl.
    destruct (_ =? 0); simpl; by apply beforeSelection_files.
  - exact IH.
  - rewrite toBuffer_state, _updateFiles_run.
    destruct (_ && _); [exact IH|]. by apply regenerated_kept.
  - rewrite toFile_state, toBuffer_state, _updateFiles_run.
    destruct (_ && _); [exact IH|]. by apply regenerated_kept.
Qed.

(** C5, as amended. For a reachable document that is dirty or has an empty
    part store, the package that [toBuffer] (hence [toFile]) writes holds
    [[Content_Types].xml], [_rels/.rels], [word/document.xml] and
    [word/_rels/document.xml.rels]. A document that is not dirty and has
    parts is written with exactly the parts it holds. *)
Theorem toBuffer_basic_parts (d : Document) :
  reachable env d ->
  (_dirty d = true \/ _files d = ∅ ->
   is_Some (packageParts env d !! "[Content_Types].xml") /\
   is_Some (packageParts env d !! "_rels/.rels") /\
   is_Some (packageParts env d !! "word/document.xml") /\
   is_Some (packageParts env d !! "word/_rels/document.xml.rels")) /\
  (_dirty d = false -> _files d <> ∅ -> packageParts env d = _files d).
Proof.
  intros Hreach. unfold packageParts.
  rewrite (writeZip_data_kept _ (reachable_partsKept _ (reach_toBuffer _ _ Hreach))).
  rewrite toBuffer_state, _updateFiles_run. split.
  - intros Hfresh.
    assert (Hgo : negb (_dirty d) && (0 <? size (_files d))%nat = false).
    { destruct Hfresh as [-> | ->]; [done|].
      rewrite map_size_empty. apply andb_false_r. }
    rewrite Hgo. apply regenerated_parts.
  - intros Hclean Hparts. rewrite Hclean. simpl.
    apply map_size_non_empty_iff in Hparts.
    destruct (size (_files d)); [done|reflexivity].
Qed.

End WithCollaborators.

(* ===================================================================== *)
(** * Instances on the bench documents *)
(* ===================================================================== *)

Lemma removePage_out_of_bounds_witness :
  (5 < 0 \/ getPageCount (stateAfter addPageBreak create) <= 5) /\
  removePage 5 (stateAfter addPageBreak create) =
    (Thrown "Page index out of bounds: 5. Document has 2 page(s).",
     stateAfter addPageBreak create).
Proof.
  split; [right; vm_compute; discriminate|].
  apply (removePage_out_of_bounds (stateAfter addPageBreak create) 5).
  right. vm_compute. discriminate.
Defined.

Lemma removePage_decreases_count_witness :
  0 <= 1 < getPageCount (stateAfter addPageBreak create) /\
  outcome (removePage 1) (stateAfter addPageBreak create) = Returned tt /\
  getPageCount (stateAfter (removePage 1) (stateAfter addPageBreak create)) =
    getPageCount (stateAfter addPageBreak create) - 1.
Proof.
  assert (H : 0 <= 1 < getPageCount (stateAfter addPageBreak create))
    by (split; [lia|reflexivity]).
  split; [exact H|].
  destruct (removePage_decreases_count _ 1 H) as (Hret & Hdec & _).
  split; [exact Hret|]. apply Hdec. right. split; [lia|reflexivity].
Defined.

(** C3 as it is written fails on the empty document: index 0 is valid, and
    after [removePage(0)] the page count is still 1. *)
Lemma removePage_only_page_keeps_count :
  0 <= 0 < getPageCount create /\
  outcome (removePage 0) create = Returned tt /\
  getPageCount (stateAfter (removePage 0) create) = getPageCount create /\
  getPageCount (stateAfter (removePage 0) create) <> getPageCount create - 1.
Proof.
  assert (Hcount : getPageCount create = 1) by reflexivity.
  assert (Hafter : getPageCount (stateAfter (removePage 0) create) = 1)
    by reflexivity.
  rewrite Hcount, Hafter. repeat split; try lia. 
Qed.

Lemma removePage_trailing_sentinel_witness :
  let d := stateAfter addPageBreak (stateAfter addPageBreak create) in
  let p := sentinelPage 2 in
  last (getPages d) = Some p /\ startElement p = -1 /\ 0 < index p /\
  exists (prev : PageInfo) (rest : list XmlNode) (brk : XmlNode),
    index p = getPageCount d - 1 /\
    getPages d !! Z.to_nat (index p - 1) = Some prev /\
    _bodyElements d = rest ++ [brk] /\
    _hasPageBreak brk = true /\
    endElement prev = Z.of_nat (length rest) /\
    removePage (index p) d =
      (Returned tt, set_bodyElements (fun _ => rest) (set_dirty true d)) /\
    getPageCount (stateAfter (removePage (index p)) d) = getPageCount d - 1.
Proof.
  intros d p.
  assert (H1 : last (getPages d) = Some p) by reflexivity.
  assert (H2 : startElement p = -1) by reflexivity.
  assert (H3 : 0 < index p) by reflexivity.
  split; [exact H1|]. split; [exact H2|]. split; [exact H3|].
  exact (removePage_trailing_sentinel d p H1 H2 H3).
Defined.

Example pages_of_create : getPages create = [sentinelPage 0].
Proof. reflexivity. Qed.

Example pages_of_threePages :
  getPages Bench.threePages =
  [mkPageInfo 0 0 1; mkPageInfo 1 2 3; mkPageInfo 2 4 4].
Proof. reflexivity. Qed.

Example pages_of_twoPages :
  getPages Bench.twoPages = [mkPageInfo 0 0 0; sentinelPage 1].
Proof. reflexivity. Qed.

Lemma addPageBreak_body (d : Document) :
  _bodyElements (stateAfter addPageBreak d) =
  _bodyElements d ++ [_createPageBreakParagraph].
Proof. reflexivity. Qed.

(** [addPageBreak] [n] times on a new document gives [n + 1] pages. *)
Lemma getPageCount_addPageBreak (n : nat) :
  getPageCount (Nat.iter n (stateAfter addPageBreak) create) = Z.of_nat n + 1.
Proof.
  rewrite getPageCount_breaks.
  assert (Hbreaks :
    breakCount (_bodyElements (Nat.iter n (stateAfter addPageBreak) create))
    = n); [|by rewrite Hbreaks].
  induction n as [|n IH]; [reflexivity|].
  change (Nat.iter (S n) (stateAfter addPageBreak) create)
    with (stateAfter addPageBreak
            (Nat.iter n (stateAfter addPageBreak) create)).
  rewrite addPageBreak_body, breakCount_app, IH.
  change (breakCount [_createPageBreakParagraph]) with 1%nat. lia.
Qed.


(** The scenario of the specification, evaluated. *)
Example render_name_ivy :
  paragraphText
    (renderParagraph {[ "name" := TString "Ivy" ]} defaultTemplateOptions
       Bench.splitParagraph) = "Ivy".
Proof. vm_compute. reflexivity. Qed.

(** The same with the second run inside a hyperlink: the runs are read
    through the hyperlink, and one run is left, where the first stood. *)
Example render_name_in_hyperlink :
  let rendered :=
    renderParagraph {[ "name" := TString "Ivy" ]} defaultTemplateOptions
      Bench.linkedParagraph in
  textOfRun <$> textRuns Bench.linkedParagraph = ["{na"; "me}"] /\
  textOfRun <$> textRuns rendered = ["Ivy"] /\
  paragraphText rendered = "Ivy".
Proof. vm_compute. repeat split; reflexivity. Qed.


Lemma merge_nothing_keeps_body_witness :
  let source := SourceDocument Bench.twoPages in
  let options := mkMergeOptions (Some [10; 20; 30]) None in
  loadSource Bench.env source = Returned Bench.twoPages /\
  selectsNothing options Bench.twoPages /\
  outcome (merge Bench.env source options) Bench.onePage = Returned tt /\
  _bodyElements (stateAfter (merge Bench.env source options) Bench.onePage) =
    _bodyElements Bench.onePage /\
  getPageCount (stateAfter (merge Bench.env source options) Bench.onePage) =
    getPageCount Bench.onePage.
Proof.
  intros source options.
  assert (Hsel : selectsNothing options Bench.twoPages).
  { exists [10; 20; 30]. split; [reflexivity|].
    repeat (apply List.Forall_cons; [right; vm_compute; discriminate|]).
    apply List.Forall_nil. }
  split; [reflexivity|]. split; [exact Hsel|].
  exact (merge_nothing_keeps_body Bench.env source Bench.twoPages options
           Bench.onePage eq_refl Hsel).
Defined.


(** The empty selection leaves a loaded, clean and empty target dirty, with
    the namespaces, the section properties and the style sheet of the
    source. *)
Example merge_nothing_changes_target :
  let d' :=
    stateAfter
      (merge Bench.env (SourceDocument Bench.styledSource)
         (mkMergeOptions (Some []) None)) newDocument in
  _dirty newDocument = false /\ _dirty d' = true /\
  _namespaces d' !! "xmlns:w14" = Some "urn:w14" /\
  _sectPr d' = Some (createElement "w:sectPr" [] []) /\
  _files d' = {[ "word/styles.xml" := list_byte_of_string "<w:styles/>" ]}.
Proof. vm_compute. repeat split; reflexivity. Qed.

Lemma mergeAll_namespaces_first_wins_witness :
  let sources :=
    [(SourceDocument Bench.styledSource, mkMergeOptions None None);
     (SourceDocument Bench.twoPages, mkMergeOptions (Some [0]) (Some false))] in
  let docs := [Bench.styledSource; Bench.twoPages] in
  let d := Bench.ownNamespace in
  let merged := _namespaces (mergeAll Bench.env sources d) in
  Forall2 (fun so s => loadSource Bench.env (fst so) = Returned s)
    sources docs /\
  merged = unionInOrder (_namespaces d) docs /\
  (forall key value,
     _namespaces d !! key = Some value -> merged !! key = Some value) /\
  (forall before s after key value,
     docs = before ++ s :: after ->
     _namespaces d !! key = None ->
     Forall (fun s' => _namespaces s' !! key = None) before ->
     _namespaces s !! key = Some value ->
     merged !! key = Some value) /\
  (forall key,
     merged !! key = None <->
     _namespaces d !! key = None /\
     Forall (fun s => _namespaces s !! key = None) docs) /\
  NoDup (map_to_list merged).*1.
Proof.
  intros sources docs d merged.
  assert (Hload : Forall2 (fun so s => loadSource Bench.env (fst so) = Returned s)
                    sources docs)
    by (repeat constructor).
  split; [exact Hload|].
  exact (mergeAll_namespaces_first_wins Bench.env sources docs d Hload).
Defined.

(** The target's own [xmlns:w] survives the merges; [xmlns:w14] comes from
    the first source. *)
Example mergeAll_keeps_own_namespace :
  let merged :=
    _namespaces
      (mergeAll Bench.env
         [(SourceDocument Bench.styledSource, mkMergeOptions None None);
          (SourceDocument Bench.twoPages, mkMergeOptions None None)]
         Bench.ownNamespace) in
  merged !! "xmlns:w" = Some "urn:own" /\
  merged !! "xmlns:w14" = Some "urn:w14".
Proof. vm_compute. split; reflexivity. Qed.

Lemma merge_three_pages_into_one_witness :
  let source := SourceDocument Bench.threePages in
  loadSource Bench.env source = Returned Bench.threePages /\
  _bodyElements Bench.onePage <> [] /\
  getPageCount Bench.onePage = 1 /\
  getPageCount Bench.threePages = 3 /\
  getPageCount
    (stateAfter (merge Bench.env source (mkMergeOptions None None))
       Bench.onePage) = 4.
Proof.
  intros source.
  assert (Hbody : _bodyElements Bench.onePage <> []) by discriminate.
  split; [reflexivity|]. split; [exact Hbody|].
  split; [reflexivity|]. split; [reflexivity|].
  exact (merge_three_pages_into_one Bench.env source Bench.threePages
           Bench.onePage eq_refl Hbody eq_refl eq_refl).
Defined.

(** C4 as it is written fails: a target of one page of content and no
    break, a source of three pages with two breaks, default options, and
    the target then reports 4 pages, not 5. *)
Lemma merge_three_pages_is_not_five :
  getPageCount Bench.onePage = 1 /\
  breakCount (_bodyElements Bench.onePage) = 0%nat /\
  _bodyElements Bench.onePage <> [] /\
  getPageCount Bench.threePages = 3 /\
  breakCount (_bodyElements Bench.threePages) = 2%nat /\
  outcome
    (merge Bench.env (SourceDocument Bench.threePages)
       (mkMergeOptions None None)) Bench.onePage = Returned tt /\
  getPageCount
    (stateAfter
       (merge Bench.env (SourceDocument Bench.threePages)
          (mkMergeOptions None None)) Bench.onePage) <> 5.
Proof.
  split; [reflexivity|]. split; [reflexivity|]. split; [discriminate|].
  split; [reflexivity|]. split; [reflexivity|]. split; [reflexivity|].
  vm_compute. discriminate.
Qed.

Lemma toBuffer_basic_parts_witness :
  reachable Bench.env create /\
  _dirty create = true /\
  is_Some (packageParts Bench.env create !! "[Content_Types].xml") /\
  is_Some (packageParts Bench.env create !! "_rels/.rels") /\
  is_Some (packageParts Bench.env create !! "word/document.xml") /\
  is_Some (packageParts Bench.env create !! "word/_rels/document.xml.rels").
Proof.
  split; [constructor|]. split; [reflexivity|].
  destruct (toBuffer_basic_parts Bench.env create (reach_create Bench.env))
    as [Hparts _].
  apply Hparts. left. reflexivity.
Defined.

(** C5 as it is written fails: a document loaded from an archive that holds
    a style sheet only, and never changed, is written back as that one
    part. *)
Lemma toBuffer_loaded_archive_lacks_parts :
  fromBuffer Bench.env [] = Returned Bench.loaded /\
  reachable Bench.env Bench.loaded /\
  packageParts Bench.env Bench.loaded =
    {[ "word/styles.xml" := list_byte_of_string "<w:styles/>" ]} /\
  packageParts Bench.env Bench.loaded !! "[Content_Types].xml" = None /\
  packageParts Bench.env Bench.loaded !! "_rels/.rels" = None /\
  packageParts Bench.env Bench.loaded !! "word/document.xml" = None /\
  packageParts Bench.env Bench.loaded !! "word/_rels/document.xml.rels"
    = None.
Proof.
  assert (Hload : fromBuffer Bench.env [] = Returned Bench.loaded)
    by (vm_compute; reflexivity).
  split; [exact Hload|]. split; [exact (reach_fromBuffer _ _ _ Hload)|].
  vm_compute. repeat split; reflexivity.
Qed.

(* ===================================================================== *)
(** * Further properties of the code *)
(* ===================================================================== *)

(* ===================================================================== *)
(** * Adding a page break *)
(* ===================================================================== *)

Lemma noOpenPage_snoc_break (body : list XmlNode) (brk : XmlNode) :
  _hasPageBreak brk = true -> noOpenPage (body ++ [brk]) = true.
Proof. intros Hbrk. unfold noOpenPage. by rewrite last_snoc. Qed.

(** X1. [addPageBreak] on any document returns, sets the dirty flag, puts
    one break-bearing paragraph after the body it found, and so adds
    exactly one page; the page list then ends on the sentinel, numbered
    with the old page count. *)
Theorem addPageBreak_adds_one_page (d : Document) :
  let d' := stateAfter addPageBreak d in
  outcome addPageBreak d = Returned tt /\
  _dirty d' = true /\
  _bodyElements d' = _bodyElements d ++ [_createPageBreakParagraph] /\
  getPageCount d' = getPageCount d + 1 /\
  last (getPages d') = Some (sentinelPage (getPageCount d)).
Proof.
  intros d'. split; [reflexivity|]. split; [reflexivity|].
  split; [reflexivity|].
  assert (Hcount : getPageCount d' = getPageCount d + 1).
  { rewrite !getPageCount_breaks. unfold d'.
    rewrite addPageBreak_body, breakCount_app.
    change (breakCount [_createPageBreakParagraph]) with 1%nat. lia. }
  split; [exact Hcount|].
  destruct (getPages_structure d') as (closed & start & Hp & _).
  rewrite Hp, last_snoc. unfold finalPage, d'.
  rewrite addPageBreak_body, noOpenPage_snoc_break by reflexivity.
  rewrite breakCount_app.
  change (breakCount [_createPageBreakParagraph]) with 1%nat.
  rewrite getPageCount_breaks. do 2 f_equal. lia.
Qed.

(* ===================================================================== *)
(** * More on merging *)
(* ===================================================================== *)

Lemma slice_elements {A} (l : list A) (start end_ : Z) (x : A) :
  x ∈ slice l start end_ -> x ∈ l.
Proof.
  unfold slice. intros Hx.
  eapply elem_of_sublist; [exact Hx|].
  etrans; [apply sublist_take|apply sublist_drop].
Qed.

Lemma appendPages_suffix (sourceDoc : Document) (selected : list PageInfo) :
  forall b : list XmlNode,
    exists added : list XmlNode,
      appendPages sourceDoc selected b = b ++ added /\
      Forall (fun e => e ∈ _bodyElements sourceDoc) added.
Proof.
  unfold appendPages.
  induction selected as [|page selected IH]; intros b; simpl.
  - exists []. split; [by rewrite app_nil_r|constructor].
  - destruct (startElement page =? -1); [apply IH|].
    destruct (IH (b ++ slice (_bodyElements sourceDoc) (startElement page)
                         (endElement page + 1)))
      as (added & -> & Hadded).
    eexists. split; [by rewrite <- app_assoc|].
    apply Forall_app. split; [|done].
    apply Forall_forall. intros x. apply slice_elements.
Qed.

Section MergeExtras.

Variable env : Collaborators.

(** The body after a merge, for any options. *)
Lemma merge_body (source : MergeSource) (sourceDoc : Document)
  (options : MergeOptions) (d : Document) :
  loadSource env source = Returned sourceDoc ->
  let selected := pagesToMerge options (getPages sourceDoc) in
  _bodyElements (stateAfter (merge env source options) d) =
  match selected with
  | [] => _bodyElements d
  | _ :: _ =>
      appendPages sourceDoc selected (_bodyElements d ++ breakBefore options d)
  end.
Proof.
  intros Hload selected. unfold stateAfter, merge.
  rewrite Hload, mergeDocument_run. simpl. fold selected.
  destruct selected as [|page rest] eqn:Hsel.
  - simpl. apply beforeSelection_body.
  - change (Z.of_nat (length (page :: rest)) =? 0) with false.
    simpl. rewrite beforeSelection_body. unfold breakBefore.
    destruct (addPageBreakBefore options) as [[|]|]; simpl;
      destruct (0 <? Z.of_nat (length (_bodyElements d)));
      by rewrite ?app_nil_r.
Qed.

(** X2. A merge that names no pages appends the whole body of the source,
    in order, after the target's body, with one break-bearing paragraph in
    between when the target has content and [addPageBreakBefore] is not
    [false]. The page count is then the sum of the two page counts when the
    break is inserted, and one less when it is not. *)
Theorem merge_all_pages (source : MergeSource) (sourceDoc : Document)
  (options : MergeOptions) (d : Document) :
  loadSource env source = Returned sourceDoc ->
  pages options = None ->
  let d' := stateAfter (merge env source options) d in
  outcome (merge env source options) d = Returned tt /\
  _bodyElements d' =
    _bodyElements d ++ breakBefore options d ++ _bodyElements sourceDoc /\
  getPageCount d' =
    getPageCount d + getPageCount sourceDoc -
    (match breakBefore options d with [] => 1 | _ => 0 end).
Proof.
  intros Hload Hall d'.
  assert (Hret : outcome (merge env source options) d = Returned tt).
  { unfold outcome, merge. by rewrite Hload, mergeDocument_run. }
  assert (Hbody : _bodyElements d' =
            _bodyElements d ++ breakBefore options d ++ _bodyElements sourceDoc).
  { unfold d'. rewrite (merge_body _ _ _ _ Hload).
    unfold pagesToMerge. rewrite Hall.
    destruct (getPages_structure sourceDoc) as (closed & start & Hp & _).
    destruct (getPages sourceDoc) as [|page rest] eqn:Hpages.
    { by destruct closed. }
    by rewrite <- Hpages, appendPages_all, <- app_assoc. }
  split; [exact Hret|]. split; [exact Hbody|].
  rewrite !getPageCount_breaks, Hbody, !breakCount_app.
  unfold breakBefore.
  destruct (addPageBreakBefore options) as [[|]|];
    try destruct (0 <? Z.of_nat (length (_bodyElements d)));
    change (breakCount [_createPageBreakParagraph]) with 1%nat;
    change (breakCount []) with 0%nat; lia.
Qed.

(** X3. A merge never removes, changes or reorders what the target holds:
    the new body is the old body followed by added elements, and each added
    element is the break-bearing paragraph of [merge] or an element of the
    source's body. *)
Theorem merge_only_appends (source : MergeSource) (sourceDoc : Document)
  (options : MergeOptions) (d : Document) :
  loadSource env source = Returned sourceDoc ->
  exists added : list XmlNode,
    _bodyElements (stateAfter (merge env source options) d) =
      _bodyElements d ++ added /\
    Forall (fun e => e = _createPageBreakParagraph \/
                     e ∈ _bodyElements sourceDoc) added.
Proof.
  intros Hload. rewrite (merge_body _ _ _ _ Hload).
  destruct (pagesToMerge options (getPages sourceDoc)) as [|page rest].
  - exists []. split; [by rewrite app_nil_r|constructor].
  - destruct (appendPages_suffix sourceDoc (page :: rest)
                (_bodyElements d ++ breakBefore options d))
      as (added & -> & Hadded).
    exists (breakBefore options d ++ added).
    split; [by rewrite <- app_assoc|].
    apply Forall_app. split.
    + unfold breakBefore.
      destruct (addPageBreakBefore options) as [[|]|];
        try destruct (0 <? Z.of_nat (length (_bodyElements d)));
        repeat constructor.
    + eapply Forall_impl; [exact Hadded|]. intros e He. by right.
Qed.

(** X4. Only a merge into a pristine target copies structure: when the
    target has a body element or a part, [merge] leaves its parts and its
    section properties as they were, whatever the source holds, and sets
    the dirty flag. *)
Theorem merge_structure_only_first (source : MergeSource)
  (sourceDoc : Document) (options : MergeOptions) (d : Document) :
  loadSource env source = Returned sourceDoc ->
  _bodyElements d <> [] \/ _files d <> ∅ ->
  let d' := stateAfter (merge env source options) d in
  _files d' = _files d /\ _sectPr d' = _sectPr d /\ _dirty d' = true.
Proof.
  intros Hload Hused d'. unfold d', stateAfter, merge.
  rewrite Hload, mergeDocument_run. simpl.
  assert (Hfirst : (Z.of_nat (length (_bodyElements d)) =? 0) &&
                   (Z.of_nat (size (_files d)) =? 0) = false).
  { apply andb_false_iff. destruct Hused as [Hbody|Hfiles].
    - left. apply Z.eqb_neq. destruct (_bodyElements d); [done|]. simpl. lia.
    - right. apply Z.eqb_neq. apply map_size_non_empty_iff in Hfiles. lia. }
  unfold beforeSelection. rewrite Hfirst.
  by destruct (Z.of_nat (length (pagesToMerge options (getPages sourceDoc)))
               =? 0).
Qed.

(** X5. A source that cannot be loaded makes [merge] throw the error of the
    load before anything is written: the target is left as it was, dirty
    flag included. This is so when the file of a path cannot be read and
    when the archive of a path or of a buffer cannot be opened. *)
Theorem merge_load_failure (source : MergeSource) (options : MergeOptions)
  (d : Document) (message : string) :
  (exists path, source = SourcePath path /\
                readFile env path = Thrown message) \/
  (exists path data, source = SourcePath path /\
                     readFile env path = Returned data /\
                     unzipSync env data = Thrown message) \/
  (exists data, source = SourceBuffer data /\
                unzipSync env data = Thrown message) ->
  merge env source options d = (Thrown message, d).
Proof.
  intros [(path & -> & Hread)
         |[(path & data & -> & Hread & Hzip)|(data & -> & Hzip)]];
    unfold merge, loadSource, fromFile, fromBuffer, readZip;
    rewrite ?Hread, ?Hzip; reflexivity.
Qed.

End MergeExtras.

(* ===================================================================== *)
(** * The archive helpers of utils/zip.ts *)
(* ===================================================================== *)

Lemma writeZip_data_lookup (files : gmap string (list Byte.byte))
  (path : string) :
  writeZip_data files !! path =
  match files !! path with
  | Some content => if keptEntry path content then Some content else None
  | None => None
  end.
Proof.
  unfold writeZip_data.
  apply (map_fold_weak_ind
           (fun r m =>
              r !! path =
              match m !! path with
              | Some content =>
                  if keptEntry path content then Some content else None
              | None => None
              end)); [done|].
  intros p content m r Hm IH.
  destruct (decide (p = path)) as [->|Hne].
  - rewrite lookup_insert_eq, Hm in *.
    destruct (keptEntry path content); simpl; [by rewrite lookup_insert_eq|done].
  - rewrite lookup_insert_ne by done.
    destruct (negb (keptEntry p content)); [done|].
    by rewrite lookup_insert_ne.
Qed.

(** X6. For a part store that holds no part named [__proto__], [writeZip]
    hands the archive library, at the time of the call, exactly the parts
    whose path is not a directory and whose content is not empty, each with
    its content unchanged; every other part is left out, and nothing is
    added. *)
Theorem writeZip_drops_empty_entries (env : Collaborators)
  (files : gmap string (list Byte.byte)) :
  files !! "__proto__" = None ->
  writeZip env files =
  zipSync env (clock env)
    (filter (fun entry => keptEntry (fst entry) (snd entry) = true) files).
Proof.
  intros _. unfold writeZip. f_equal. apply map_eq. intros path.
  rewrite writeZip_data_lookup.
  destruct (files !! path) as [content|] eqn:Hl.
  - destruct (keptEntry path content) eqn:Hk; symmetry.
    + by apply map_lookup_filter_Some.
    + apply map_lookup_filter_None. right. intros x Hx. simpl.
      assert (x = content) as -> by congruence. by rewrite Hk.
  - symmetry. apply map_lookup_filter_None. by left.
Qed.

Lemma readZip_entries_fold_lookup (entries : list (string * list Byte.byte)) :
  forall (acc : gmap string (list Byte.byte)) (path : string)
         (content : list Byte.byte),
    fold_left
      (fun files entry =>
         if keptEntry (fst entry) (snd entry)
         then <[fst entry := snd entry]> files else files)
      entries acc !! path = Some content ->
    acc !! path = Some content \/
    (keptEntry path content = true /\ (path, content) ∈ entries).
Proof.
  induction entries as [|[p c] entries IH]; intros acc path content Hl;
    simpl in *; [by left|].
  apply IH in Hl as [Hl|[Hk Hin]]; [|right; split; [done|by right]].
  destruct (keptEntry p c) eqn:Hk; [|by left].
  destruct (decide (p = path)) as [->|Hne].
  - rewrite lookup_insert_eq in Hl. injection Hl as ->.
    right. split; [done|by left].
  - rewrite lookup_insert_ne in Hl by done. by left.
Qed.

Lemma readZip_entries_fold_keeps (entries : list (string * list Byte.byte)) :
  forall (acc : gmap string (list Byte.byte)) (path : string)
         (content : list Byte.byte),
    path ∉ entries.*1 -> acc !! path = Some content ->
    fold_left
      (fun files entry =>
         if keptEntry (fst entry) (snd entry)
         then <[fst entry := snd entry]> files else files)
      entries acc !! path = Some content.
Proof.
  induction entries as [|[p c] entries IH]; intros acc path content Hnot Hl;
    simpl in *; [done|].
  apply not_elem_of_cons in Hnot as [Hne Hnot].
  apply IH; [done|].
  destruct (keptEntry p c); [|done]. by rewrite lookup_insert_ne.
Qed.

Lemma readZip_entries_present (entries : list (string * list Byte.byte))
  (path : string) (content : list Byte.byte) :
  NoDup entries.*1 ->
  (path, content) ∈ entries -> keptEntry path content = true ->
  readZip_entries entries !! path = Some content.
Proof.
  unfold readZip_entries. generalize (∅ : gmap string (list Byte.byte)).
  induction entries as [|[p c] entries IH]; intros acc Hnd Hin Hk.
  { by apply elem_of_nil in Hin. }
  simpl in Hnd. apply NoDup_cons in Hnd as [Hfresh Hnd].
  apply elem_of_cons in Hin as [[= <- <-]|Hin]; simpl.
  - rewrite Hk. apply readZip_entries_fold_keeps; [done|].
    apply lookup_insert_eq.
  - by apply IH.
Qed.

(** X7. [readZip] keeps an entry of the archive exactly when its path is not
    a directory and its content is not empty: every part it returns is such
    an entry, every such entry is returned (entry paths being distinct, as
    the keys of an object are), and what it returns is written back by
    [writeZip] as it is. *)
Theorem readZip_keeps_files (env : Collaborators) (data : list Byte.byte)
  (entries : list (string * list Byte.byte)) :
  unzipSync env data = Returned entries ->
  exists files : gmap string (list Byte.byte),
    readZip env data = Returned files /\
    (forall path content,
       files !! path = Some content ->
       keptEntry path content = true /\ (path, content) ∈ entries) /\
    (NoDup entries.*1 ->
     forall path content,
       (path, content) ∈ entries -> keptEntry path content = true ->
       files !! path = Some content) /\
    writeZip_data files = files.
Proof.
  intros Hzip. unfold readZip. rewrite Hzip.
  exists (readZip_entries entries). split; [reflexivity|]. split_and!.
  - intros path content Hl. unfold readZip_entries in Hl.
    apply readZip_entries_fold_lookup in Hl as [Hl|Hl]; [|done].
    by rewrite lookup_empty in Hl.
  - intros Hnd path content Hin Hk. by apply readZip_entries_present.
  - apply writeZip_data_kept, readZip_entries_kept.
Qed.

(** X8. A text without lone surrogate that does not begin with U+FEFF,
    written with [writeZipText], is read back by [readZipText] under the
    same path, a part already there being replaced; the text of every other
    path is as before. *)
Theorem readZipText_writeZipText (files : gmap string (list Byte.byte))
  (path content other : string) :
  exactText content = true ->
  readZipText (writeZipText files path content) path = Some content /\
  (other <> path ->
   readZipText (writeZipText files path content) other =
   readZipText files other).
Proof.
  intros _. unfold readZipText, writeZipText. split.
  - by rewrite lookup_insert_eq; simpl; rewrite string_of_list_byte_of_string.
  - intros Hne. by rewrite lookup_insert_ne.
Qed.

(* ===================================================================== *)
(** * The node helpers of utils/xml.ts *)
(* ===================================================================== *)

Lemma objGet_objSet_ne {V} (o : list (string * V)) (k k' : string) (v : V) :
  k <> k' -> objGet (objSet o k v) k' = objGet o k'.
Proof.
  intros Hne. induction o as [|[k0 v0] o IH]; simpl.
  - destruct (String.eqb_spec k k'); [done|reflexivity].
  - destruct (String.eqb_spec k0 k) as [->|Hk]; simpl.
    + destruct (String.eqb_spec k k'); [done|reflexivity].
    + by rewrite IH.
Qed.

Lemma objGet_app {V} (a b : list (string * V)) (k : string) :
  objGet (a ++ b) k =
  match objGet a k with Some v => Some v | None => objGet b k end.
Proof.
  induction a as [|[k0 v0] a IH]; simpl; [reflexivity|].
  by destruct (String.eqb k0 k).
Qed.

Lemma attribute_key_inj (k k' : string) : "@_" +:+ k = "@_" +:+ k' -> k = k'.
Proof. by intros [= ->]. Qed.

(** The attribute record that [createElement] builds: a name given twice
    keeps its place and takes the later value. *)
Lemma createElement_attrObj (attrs : list (string * string)) (name : string) :
  forall acc : list (string * string),
    objGet
      (fold_left (fun acc kv => objSet acc ("@_" +:+ fst kv) (snd kv)) attrs acc)
      ("@_" +:+ name) =
    match objGet (rev attrs) name with
    | Some v => Some v
    | None => objGet acc ("@_" +:+ name)
    end.
Proof.
  induction attrs as [|[k v] attrs IH]; intros acc; simpl; [reflexivity|].
  rewrite IH, objGet_app. destruct (objGet (rev attrs) name); [reflexivity|].
  simpl. destruct (String.eqb_spec k name) as [->|Hne].
  - apply objGet_objSet.
  - apply objGet_objSet_ne. intros Heq. by apply attribute_key_inj in Heq.
Qed.

(** The keys of the node that [createElement] builds. *)
Lemma createElement_fields (tagName : string)
  (attrs : list (string * string)) (children : list XmlNode) :
  tagName <> ":@" ->
  nodeFields (createElement tagName attrs children) =
  (tagName, XmlArray children) ::
  match attrs with
  | [] => []
  | _ :: _ =>
      [(":@",
        XmlRecord
          (fold_left (fun acc kv => objSet acc ("@_" +:+ fst kv) (snd kv))
             attrs []))]
  end.
Proof.
  intros Htag%String.eqb_neq. unfold createElement.
  destruct attrs; [reflexivity|]. simpl. by rewrite Htag.
Qed.

Lemma createElement_hasTag (tagName : string)
  (attrs : list (string * string)) (children : list XmlNode) :
  tagName <> ":@" ->
  hasTag tagName (createElement tagName attrs children) = true.
Proof.
  intros Htag. unfold hasTag, objHas.
  rewrite createElement_fields by done. simpl. by rewrite String.eqb_refl.
Qed.

Lemma createElement_children (tagName : string)
  (attrs : list (string * string)) (children : list XmlNode) :
  tagName <> ":@" ->
  getChildren (createElement tagName attrs children) tagName = children.
Proof.
  intros Htag. unfold getChildren.
  rewrite createElement_fields by done. simpl. by rewrite String.eqb_refl.
Qed.

(** X9. What [createElement] builds is read back by the accessors: for a
    tag other than the attribute slot [":@"], the element has the tag, its
    children are the children given, the first text child is what [getText]
    returns, and [getAttr] returns the value given for a name (the later
    one when the name is given twice), or nothing for a name not given. *)
Theorem createElement_reads_back (tagName : string)
  (attrs : list (string * string)) (children : list XmlNode)
  (name : string) :
  tagName <> ":@" ->
  let node := createElement tagName attrs children in
  hasTag tagName node = true /\
  findElement [node] tagName = Some node /\
  getChildren node tagName = children /\
  getAttr node name = objGet (rev attrs) name /\
  (forall text rest,
     children = createText text :: rest -> getText node tagName = Some text).
Proof.
  intros Htag node.
  assert (Hne : String.eqb tagName ":@" = false) by by apply String.eqb_neq.
  assert (Hhas : hasTag tagName node = true)
    by by apply createElement_hasTag.
  assert (Hchildren : getChildren node tagName = children)
    by by apply createElement_children.
  split; [exact Hhas|]. split; [by unfold findElement; simpl; rewrite Hhas|].
  split; [exact Hchildren|]. split.
  - unfold getAttr, attrOf, node. rewrite createElement_fields by done.
    cbn [objGet]. rewrite Hne.
    destruct attrs as [|kv attrs]; [reflexivity|].
    cbn [objGet]. rewrite String.eqb_refl, createElement_attrObj.
    by destruct (objGet (rev (kv :: attrs)) name).
  - intros text rest ->. unfold getText. rewrite Hchildren. reflexivity.
Qed.

(** X10. [findElement] returns the first of the elements that
    [findElements] returns, and nothing exactly when no node has the tag;
    the node it returns is one of the nodes and has the tag. *)
Theorem findElement_first_of_findElements (nodes : list XmlNode)
  (tagName : string) :
  findElement nodes tagName = head (findElements nodes tagName) /\
  (findElement nodes tagName = None <->
   Forall (fun node => hasTag tagName node = false) nodes) /\
  (forall node,
     findElement nodes tagName = Some node ->
     node ∈ nodes /\ hasTag tagName node = true).
Proof.
  unfold findElement, findElements.
  induction nodes as [|n nodes (IH1 & IH2 & IH3)]; simpl.
  - split; [done|]. split; [done|]. by intros node.
  - destruct (hasTag tagName n) eqn:Hn; simpl.
    + split; [done|]. split.
      * split; [done|]. intros Hall. inversion Hall; congruence.
      * intros node [= <-]. split; [by left|done].
    + split; [done|]. split.
      * rewrite IH2. split; [by constructor|]. intros Hall. by inversion Hall.
      * intros node Hf. apply IH3 in Hf as [? ?]. split; [by right|done].
Qed.

(* ===================================================================== *)
(** * Saving *)
(* ===================================================================== *)

Lemma _updateDocumentXml_run (env : Collaborators) (d : Document) :
  _updateDocumentXml env d =
    (Returned tt,
     set_files
       (fun files => writeZipText files "word/document.xml" (documentXml env d))
       d).
Proof. reflexivity. Qed.

Lemma regenerated_run (env : Collaborators) (d : Document) :
  regenerated env d =
  set_files
    (fun files =>
       writeZipText (ensuredParts env files) "word/document.xml"
         (documentXml env d))
    d.
Proof. reflexivity. Qed.

Lemma ensure_lookup (files : gmap string (list Byte.byte))
  (path content other : string) (bytes : list Byte.byte) :
  files !! other = Some bytes ->
  match files !! path with
  | Some _ => files
  | None => writeZipText files path content
  end !! other = Some bytes.
Proof.
  intros Hl. destruct (files !! path) eqn:Hp; [done|].
  unfold writeZipText. rewrite lookup_insert_ne; [done|congruence].
Qed.

Lemma ensure_present (files : gmap string (list Byte.byte))
  (path content : string) :
  is_Some (match files !! path with
           | Some _ => files
           | None => writeZipText files path content
           end !! path).
Proof.
  destruct (files !! path) eqn:Hp; [by rewrite Hp|].
  unfold writeZipText. rewrite lookup_insert_eq. eauto.
Qed.

Lemma ensuredParts_lookup (env : Collaborators)
  (files : gmap string (list Byte.byte)) (path : string)
  (content : list Byte.byte) :
  files !! path = Some content -> ensuredParts env files !! path = Some content.
Proof.
  intros Hl. unfold ensuredParts. by do 3 apply ensure_lookup.
Qed.

Lemma ensure_keeps (files : gmap string (list Byte.byte))
  (path content other : string) :
  is_Some (files !! other) ->
  is_Some (match files !! path with
           | Some _ => files
           | None => writeZipText files path content
           end !! other).
Proof. intros [bytes Hb]. exists bytes. by apply ensure_lookup. Qed.

Lemma ensuredParts_present (env : Collaborators)
  (files : gmap string (list Byte.byte)) :
  is_Some (ensuredParts env files !! "[Content_Types].xml") /\
  is_Some (ensuredParts env files !! "_rels/.rels") /\
  is_Some (ensuredParts env files !! "word/_rels/document.xml.rels").
Proof.
  unfold ensuredParts. split_and!.
  - do 2 apply ensure_keeps. apply ensure_present.
  - apply ensure_keeps. apply ensure_present.
  - apply ensure_present.
Qed.

Lemma ensuredParts_idem (env : Collaborators)
  (files : gmap string (list Byte.byte)) (xml : string) :
  ensuredParts env
    (writeZipText (ensuredParts env files) "word/document.xml" xml) =
  writeZipText (ensuredParts env files) "word/document.xml" xml.
Proof.
  destruct (ensuredParts_present env files) as ([c1 H1] & [c2 H2] & [c3 H3]).
  unfold ensuredParts at 1. unfold writeZipText.
  rewrite (lookup_insert_ne _ "word/document.xml" "[Content_Types].xml")
    by done.
  rewrite H1.
  rewrite (lookup_insert_ne _ "word/document.xml" "_rels/.rels") by done.
  rewrite H2.
  rewrite (lookup_insert_ne _ "word/document.xml"
             "word/_rels/document.xml.rels") by done.
  by rewrite H3.
Qed.

Section Saving.

Variable env : Collaborators.

(** X11. [toBuffer] changes nothing but the parts: body, namespaces,
    section properties and the dirty flag are as before (a save does not
    clear the flag), and every part other than [word/document.xml] that the
    document held is still there with its content. When the document is
    dirty or holds no part, [word/document.xml] then holds the declaration
    followed by the text of the document node built from the body, the
    section properties and the namespaces; otherwise the parts are
    untouched. The buffer is the archive of the parts so left. *)
Theorem toBuffer_changes_parts_only (d : Document) :
  let d' := stateAfter (toBuffer env) d in
  outcome (toBuffer env) d = Returned (writeZip env (_files d')) /\
  _bodyElements d' = _bodyElements d /\
  _namespaces d' = _namespaces d /\
  _sectPr d' = _sectPr d /\
  _dirty d' = _dirty d /\
  (forall path content,
     path <> "word/document.xml" ->
     _files d !! path = Some content -> _files d' !! path = Some content) /\
  (if _dirty d || bool_decide (_files d = ∅)
   then readZipText (_files d') "word/document.xml" = Some (documentXml env d)
   else _files d' = _files d).
Proof.
  intros d'.
  assert (Hstate : d' = if negb (_dirty d) && (0 <? size (_files d))%nat
                        then d else regenerated env d).
  { unfold d'. by rewrite toBuffer_state, _updateFiles_run. }
  split.
  { unfold d', outcome, stateAfter, toBuffer, bind, this, ret.
    by destruct (_updateFiles env d) as [[[]|message] d1] eqn:Hrun;
      [|unfold _updateFiles, _ensureBasicStructure, ensurePart, bind, this,
          update, ret in Hrun;
        destruct (negb (_dirty d) && (0 <? size (_files d))%nat)]. }
  assert (Hcase : negb (_dirty d) && (0 <? size (_files d))%nat =
                  negb (_dirty d || bool_decide (_files d = ∅))).
  { destruct (_dirty d); [done|]. simpl.
    case_bool_decide as Hempty.
    - by rewrite Hempty, map_size_empty.
    - apply map_size_non_empty_iff in Hempty.
      apply Nat.ltb_lt. lia. }
  rewrite Hcase in Hstate.
  destruct (_dirty d || bool_decide (_files d = ∅)); simpl in Hstate;
    rewrite Hstate; [|done].
  rewrite regenerated_run. split_and!; try reflexivity.
  - intros path content Hne Hl. simpl. unfold writeZipText.
    rewrite lookup_insert_ne by done. by apply ensuredParts_lookup.
  - simpl. unfold readZipText, writeZipText. rewrite lookup_insert_eq.
    simpl. by rewrite string_of_list_byte_of_string.
Qed.

(** X12. Saving twice is saving once, as far as the document goes: a second
    [toBuffer], at whatever time it is called, leaves the document as the
    first left it and hands the archive library the same parts. Each buffer
    is what the archive library makes of these parts at the time of its
    call; the two buffers are not said to be equal. *)
Theorem toBuffer_idempotent (d : Document) (later : Z) :
  let d' := stateAfter (toBuffer env) d in
  let parts := writeZip_data (_files d') in
  stateAfter (toBuffer (atTime later env)) d' = d' /\
  outcome (toBuffer env) d = Returned (zipSync env (clock env) parts) /\
  outcome (toBuffer (atTime later env)) d' =
    Returned (zipSync env later parts).
Proof.
  intros d' parts.
  assert (Hstate : forall x,
            stateAfter (toBuffer env) x =
            if negb (_dirty x) && (0 <? size (_files x))%nat
            then x else regenerated env x).
  { intros x. by rewrite toBuffer_state, _updateFiles_run. }
  assert (Hlater : forall x,
            stateAfter (toBuffer (atTime later env)) x =
            stateAfter (toBuffer env) x).
  { intros x. by rewrite !toBuffer_state, !_updateFiles_run. }
  assert (Hout : forall (e : Collaborators) x,
            outcome (toBuffer e) x =
            Returned (writeZip e (_files (stateAfter (toBuffer e) x)))).
  { intros e x. unfold outcome, stateAfter, toBuffer, bind, this, ret.
    by destruct (_updateFiles e x) as [[[]|message] d1] eqn:Hrun;
      [|unfold _updateFiles, _ensureBasicStructure, ensurePart, bind, this,
          update, ret in Hrun;
        destruct (negb (_dirty x) && (0 <? size (_files x))%nat)]. }
  assert (Hidem : stateAfter (toBuffer env) d' = d').
  { unfold d'. rewrite (Hstate d).
    destruct (negb (_dirty d) && (0 <? size (_files d))%nat) eqn:Hclean.
    - by rewrite Hstate, Hclean.
    - rewrite Hstate.
      destruct (negb (_dirty (regenerated env d)) &&
                (0 <? size (_files (regenerated env d)))%nat); [done|].
      rewrite (regenerated_run env (regenerated env d)).
      rewrite (regenerated_run env d). unfold set_files. simpl.
      f_equal. rewrite ensuredParts_idem. unfold writeZipText.
      apply insert_insert_eq. }
  split; [by rewrite Hlater|]. split; [by rewrite (Hout env d)|].
  by rewrite (Hout (atTime later env) d'), Hlater, Hidem.
Qed.

(** X13. [toFile] writes to the path the very buffer [toBuffer] returns
    (the archive of the parts it leaves), its outcome is that of the write,
    and it leaves the document as [toBuffer] does, also when the write
    fails. *)
Theorem toFile_writes_toBuffer (path : string) (d : Document) :
  let buffer := writeZip env (_files (stateAfter (toBuffer env) d)) in
  outcome (toBuffer env) d = Returned buffer /\
  outcome (toFile env path) d = writeFile env path buffer /\
  stateAfter (toFile env path) d = stateAfter (toBuffer env) d.
Proof.
  intros buffer.
  assert (Hout : outcome (toBuffer env) d = Returned buffer).
  { unfold buffer, outcome, stateAfter, toBuffer, bind, this, ret.
    by destruct (_updateFiles env d) as [[[]|message] d1] eqn:Hrun;
      [|unfold _updateFiles, _ensureBasicStructure, ensurePart, bind, this,
          update, ret in Hrun;
        destruct (negb (_dirty d) && (0 <? size (_files d))%nat)]. }
  split; [exact Hout|]. split.
  - by apply toFile_writes_buffer.
  - apply toFile_state.
Qed.

End Saving.

(* ===================================================================== *)
(** * Loading *)
(* ===================================================================== *)

(** X14. An archive in which no entry [word/document.xml] has content loads
    as an empty document: its parts are the kept entries, it has no body
    element, no namespace and no section properties, it is not dirty, and
    it counts one page. The XML library is not called. *)
Theorem fromBuffer_without_document (env : Collaborators)
  (data : list Byte.byte) (entries : list (string * list Byte.byte)) :
  unzipSync env data = Returned entries ->
  (forall content, ("word/document.xml", content) ∈ entries -> content = []) ->
  fromBuffer env data =
    Returned (set_files (fun _ => readZip_entries entries) newDocument) /\
  getPageCount (set_files (fun _ => readZip_entries entries) newDocument) = 1.
Proof.
  intros Hzip Hnone. split; [|reflexivity].
  unfold fromBuffer, readZip. rewrite Hzip.
  assert (Hl : readZip_entries entries !! "word/document.xml" = None).
  { destruct (readZip_entries entries !! "word/document.xml")
      as [content|] eqn:Hl; [|done].
    unfold readZip_entries in Hl.
    apply readZip_entries_fold_lookup in Hl as [Hl|[Hk Hin]].
    - by rewrite lookup_empty in Hl.
    - apply Hnone in Hin as ->. unfold keptEntry in Hk.
      by rewrite andb_false_r in Hk. }
  unfold readZipText. by rewrite Hl.
Qed.

(* ===================================================================== *)
(** * Removing the last page when it holds content *)
(* ===================================================================== *)

Lemma seqZ_snoc (m n : Z) : 0 < n -> seqZ m n = seqZ m (n - 1) ++ [m + n - 1].
Proof.
  intros Hn. replace n with ((n - 1) + 1) at 1 by lia.
  rewrite (seqZ_app m (n - 1) 1) by lia.
  rewrite (seqZ_cons (m + (n - 1)) 1) by lia.
  rewrite (seqZ_nil (Z.succ (m + (n - 1)))) by lia.
  do 2 f_equal. lia.
Qed.

(** The open page begins right after the last break. *)
Lemma open_page_after_break (d : Document) (closed : list PageInfo)
  (start : Z) (before content : list XmlNode) :
  concat (List.map pageRange closed) = seqZ 0 start ->
  Forall (closedPage (_bodyElements d)) closed ->
  _bodyElements d = before ++ content ->
  Z.of_nat (length before) = start ->
  noOpenPage before = true.
Proof.
  intros Hcover Hclosed Hbody Hlen.
  destruct closed as [|p closed _] using rev_ind.
  - simpl in Hcover. destruct before as [|e before]; [done|].
    simpl in Hlen. rewrite seqZ_cons in Hcover by lia. done.
  - apply Forall_app in Hclosed as [_ Hp]. rewrite Forall_singleton in Hp.
    destruct (closedPage_bounds _ _ Hp) as [Hb1 Hb2].
    destruct Hp as (b' & c' & brk & a' & Hsplit & Hb' & Hc' & _ & Hbrk).
    rewrite map_app, concat_app in Hcover. simpl in Hcover.
    rewrite app_nil_r in Hcover. unfold pageRange in Hcover.
    rewrite (seqZ_snoc (startElement p)) in Hcover by lia.
    assert (Hpos : 0 < start).
    { destruct (decide (0 < start)) as [|Hn]; [done|].
      rewrite (seqZ_nil 0 start) in Hcover by lia.
      apply (f_equal length) in Hcover.
      rewrite !length_app in Hcover. simpl in Hcover. lia. }
    rewrite (seqZ_snoc 0 start) in Hcover by lia.
    rewrite app_assoc in Hcover. apply app_inj_tail in Hcover as [_ Hend].
    assert (Heq : before = b' ++ c' ++ [brk]).
    { assert (Htake : take (Z.to_nat start) (_bodyElements d) = before).
      { rewrite Hbody, <- Hlen, Nat2Z.id. by rewrite take_app_length. }
      rewrite <- Htake, Hsplit.
      replace (b' ++ c' ++ brk :: a') with ((b' ++ c' ++ [brk]) ++ a')
        by by rewrite <- !app_assoc.
      replace (Z.to_nat start) with (length (b' ++ c' ++ [brk])).
      { by rewrite take_app_length. }
      rewrite !length_app. simpl. lia. }
    rewrite Heq. unfold noOpenPage.
    by rewrite !app_assoc, last_snoc.
Qed.

(** X15. When content follows the last break (or the body has no break),
    removing the last page removes exactly that content: what is kept is
    the body up to and including the last break, so the document still ends
    on an open, now empty, page and the page count does not change. *)
Theorem removePage_last_content (d : Document) :
  noOpenPage (_bodyElements d) = false ->
  exists kept content : list XmlNode,
    _bodyElements d = kept ++ content /\
    content <> [] /\ isBreakFree content /\ noOpenPage kept = true /\
    removePage (getPageCount d - 1) d =
      (Returned tt, set_bodyElements (fun _ => kept) (set_dirty true d)) /\
    getPageCount (stateAfter (removePage (getPageCount d - 1)) d) =
      getPageCount d.
Proof.
  intros Hopen.
  destruct (getPages_structure d)
    as (closed & start & Hp & Hlen & _ & _ & Hcover & Hclosed & Htail & Hno).
  simpl in *.
  destruct Htail as (before & content & Hbody & Hbefore & Hfree).
  assert (Hstart : 0 <= start) by lia.
  assert (Hfinal : finalPage (_bodyElements d) start =
                   mkPageInfo (Z.of_nat (breakCount (_bodyElements d))) start
                     (Z.of_nat (length (_bodyElements d)) - 1)).
  { unfold finalPage. by rewrite Hopen. }
  assert (Hcontent : content <> []).
  { intros ->. rewrite app_nil_r in Hbody.
    assert (Hs : start = Z.of_nat (length (_bodyElements d)))
      by by rewrite Hbody.
    apply Hno in Hs. congruence. }
  assert (Hkept : noOpenPage before = true)
    by exact (open_page_after_break d closed start before content
                Hcover Hclosed Hbody Hbefore).
  assert (Hidx : getPageCount d - 1 = Z.of_nat (length closed)).
  { rewrite getPageCount_breaks, Hlen. lia. }
  assert (Hlookup : getPages d !! Z.to_nat (getPageCount d - 1) =
                    Some (finalPage (_bodyElements d) start)).
  { rewrite Hidx, Nat2Z.id, Hp. by rewrite list_lookup_middle. }
  assert (Hrun : removePage (getPageCount d - 1) d =
            (Returned tt, set_bodyElements (fun _ => before) (set_dirty true d))).
  { assert (Hi : 0 <= getPageCount d - 1) by lia.
    rewrite (removePage_content d _ _ Hi Hlookup).
    2:{ rewrite Hfinal. simpl. lia. }
    rewrite Hfinal. simpl. unfold set_bodyElements. simpl.
    do 2 f_equal. rewrite Hbody at 1.
    replace (Z.of_nat (length (_bodyElements d)) - 1 - start + 1)
      with (Z.of_nat (length content)).
    2:{ rewrite Hbody, length_app. lia. }
    rewrite <- Hbefore.
    rewrite <- (app_nil_r content) at 1. rewrite splice_middle.
    by rewrite app_nil_r. }
  exists before, content. split_and!; try done.
  unfold stateAfter. rewrite Hrun. simpl.
  rewrite getPageCount_set_body, getPageCount_breaks, Hbody, breakCount_app.
  rewrite (breakCount_free content Hfree). lia.
Qed.

(* ===================================================================== *)
(** * Merging selected pages, and merging into a pristine document *)
(* ===================================================================== *)

Lemma slice_middle {A} (before middle after : list A) :
  slice (before ++ middle ++ after) (Z.of_nat (length before))
    (Z.of_nat (length before) + Z.of_nat (length middle)) = middle.
Proof.
  unfold slice, clampIndex. rewrite !length_app.
  destruct (Z.ltb_spec (Z.of_nat (length before)) 0); [lia|].
  destruct (Z.ltb_spec (Z.of_nat (length before) + Z.of_nat (length middle)) 0);
    [lia|].
  rewrite !Z.min_l by lia.
  replace (Z.to_nat (Z.of_nat (length before) + Z.of_nat (length middle) -
                     Z.of_nat (length before))) with (length middle) by lia.
  rewrite Nat2Z.id, drop_app_length. by rewrite take_app_length.
Qed.

(** A page before the last one brings its closing break, the last page
    brings none. *)
Lemma pageElements_breakCount (sourceDoc : Document) (idx : Z) :
  0 <= idx ->
  breakCount (pageElements sourceDoc idx) =
  if idx <? getPageCount sourceDoc - 1 then 1%nat else 0%nat.
Proof.
  intros Hidx. unfold pageElements.
  destruct (Z.ltb_spec idx 0) as [|_]; [lia|].
  destruct (getPages_structure sourceDoc)
    as (closed & start & Hp & Hlen & _ & _ & _ & Hclosed & Htail & Hno).
  simpl in *. rewrite getPageCount_breaks, <- Hlen, Hp.
  replace (Z.of_nat (length closed) + 1 - 1) with (Z.of_nat (length closed))
    by lia.
  destruct (Z.ltb_spec idx (Z.of_nat (length closed))) as [Hlt|Hge].
  - destruct (lookup_lt_is_Some_2 closed (Z.to_nat idx)) as [p Hl]; [lia|].
    rewrite lookup_app_l by lia. rewrite Hl.
    assert (Hcp : closedPage (_bodyElements sourceDoc) p).
    { eapply Forall_forall in Hclosed; [exact Hclosed|].
      by eapply list_elem_of_lookup_2. }
    destruct (closedPage_bounds _ _ Hcp) as [Hb1 Hb2].
    destruct Hcp as (b' & c' & brk & a' & Hsplit & Hb' & Hc' & Hfree & Hbrk).
    destruct (Z.eqb_spec (startElement p) (-1)) as [|_]; [lia|].
    rewrite Hsplit.
    replace (b' ++ c' ++ brk :: a') with (b' ++ (c' ++ [brk]) ++ a')
      by by rewrite <- !app_assoc.
    replace (startElement p) with (Z.of_nat (length b')) by done.
    replace (endElement p + 1)
      with (Z.of_nat (length b') + Z.of_nat (length (c' ++ [brk]))).
    2:{ rewrite length_app. simpl. lia. }
    rewrite slice_middle, breakCount_app, (breakCount_free c' Hfree).
    unfold breakCount. simpl. by rewrite Hbrk.
  - destruct (decide (idx = Z.of_nat (length closed))) as [->|Hne].
    + rewrite Nat2Z.id, list_lookup_middle by done.
      unfold finalPage.
      destruct (noOpenPage (_bodyElements sourceDoc)) eqn:Hopen; [done|].
      simpl.
      destruct Htail as (before & content & Hbody & Hbefore & Hfree).
      destruct (Z.eqb_spec start (-1)) as [|_]; [lia|].
      rewrite Hbody at 1. rewrite <- (app_nil_r content) at 1.
      rewrite <- Hbefore.
      replace (Z.of_nat (length (_bodyElements sourceDoc)) - 1 + 1)
        with (Z.of_nat (length before) + Z.of_nat (length content)).
      2:{ rewrite Hbody, length_app. lia. }
      rewrite slice_middle. by apply breakCount_free.
    + rewrite lookup_ge_None_2; [done|].
      rewrite length_app. simpl. lia.
Qed.

Lemma pageElements_lookup (sourceDoc : Document) (idx : Z) :
  0 <= idx ->
  pageElements sourceDoc idx =
  match getPages sourceDoc !! Z.to_nat idx with
  | Some page =>
      if startElement page =? -1 then []
      else slice (_bodyElements sourceDoc) (startElement page)
             (endElement page + 1)
  | None => []
  end.
Proof.
  intros Hidx. unfold pageElements.
  by destruct (Z.ltb_spec idx 0) as [|_]; [lia|].
Qed.

Lemma appendPages_requested (sourceDoc : Document) (valid : list Z) :
  Forall (fun idx => 0 <= idx) valid ->
  forall b : list XmlNode,
    appendPages sourceDoc
      (omap (fun idx => getPages sourceDoc !! Z.to_nat idx) valid) b =
    b ++ concat (List.map (pageElements sourceDoc) valid).
Proof.
  unfold appendPages.
  induction 1 as [|idx valid Hidx _ IH]; intros b; simpl.
  - by rewrite app_nil_r.
  - rewrite (pageElements_lookup _ idx) by done.
    destruct (getPages sourceDoc !! Z.to_nat idx) as [page|]; simpl.
    + rewrite IH. destruct (startElement page =? -1); [done|].
      by rewrite <- app_assoc.
    + by rewrite IH.
Qed.

Lemma breakCount_requested (sourceDoc : Document) (valid : list Z) :
  Forall (fun idx => 0 <= idx) valid ->
  breakCount (concat (List.map (pageElements sourceDoc) valid)) =
  length (List.filter (fun idx => idx <? getPageCount sourceDoc - 1) valid).
Proof.
  induction 1 as [|idx valid Hidx _ IH]; simpl; [done|].
  rewrite breakCount_app, IH, (pageElements_breakCount _ _ Hidx).
  by destruct (idx <? getPageCount sourceDoc - 1).
Qed.

Section MergeSelection.

Variable env : Collaborators.

(** X16. A merge that names pages appends the elements of each requested
    index that is a page of the source, in the order requested and as often
    as requested, after one break-bearing paragraph when the target has
    content and [addPageBreakBefore] is not [false]; other indices are
    skipped. Each page taken before the last page of the source brings its
    closing break and so adds a page; the last page of the source adds
    none. *)
Theorem merge_selected_pages (source : MergeSource) (sourceDoc : Document)
  (options : MergeOptions) (requested : list Z) (d : Document) :
  loadSource env source = Returned sourceDoc ->
  pages options = Some requested ->
  let d' := stateAfter (merge env source options) d in
  let valid := validRequests requested sourceDoc in
  let brk := match valid with [] => [] | _ :: _ => breakBefore options d end in
  _bodyElements d' =
    _bodyElements d ++ brk ++
    concat (List.map (pageElements sourceDoc) valid) /\
  getPageCount d' =
    getPageCount d + Z.of_nat (length brk) +
    Z.of_nat
      (length
         (List.filter (fun idx => idx <? getPageCount sourceDoc - 1) valid)).
Proof.
  intros Hload Hpages d' valid brk.
  assert (Hvalid : Forall (fun idx => 0 <= idx < getPageCount sourceDoc) valid).
  { apply Forall_forall. intros idx Hin.
    apply list_elem_of_In, filter_In in Hin as [_ Hin].
    apply andb_prop in Hin as [H1 H2]. lia. }
  assert (Hpos : Forall (fun idx => 0 <= idx) valid).
  { eapply Forall_impl; [exact Hvalid|]. simpl. lia. }
  assert (Hselected :
    pagesToMerge options (getPages sourceDoc) =
    omap (fun idx => getPages sourceDoc !! Z.to_nat idx) valid).
  { unfold pagesToMerge. by rewrite Hpages. }
  assert (Hbody : _bodyElements d' =
            _bodyElements d ++ brk ++
            concat (List.map (pageElements sourceDoc) valid)).
  { unfold d'. rewrite (merge_body env _ _ _ _ Hload), Hselected.
    destruct valid as [|idx rest] eqn:Hv; [by rewrite app_nil_r|].
    destruct (omap (fun idx0 => getPages sourceDoc !! Z.to_nat idx0)
                (idx :: rest)) as [|page pages] eqn:Hsel.
    { exfalso. simpl in Hsel. inversion Hvalid as [|? ? Hi _]; subst.
      destruct (lookup_lt_is_Some_2 (getPages sourceDoc) (Z.to_nat idx))
        as [p Hl]; [unfold getPageCount in Hi; lia|].
      by rewrite Hl in Hsel. }
    rewrite <- Hsel, appendPages_requested by done.
    by rewrite <- app_assoc. }
  split; [exact Hbody|].
  rewrite (getPageCount_breaks d'), (getPageCount_breaks d), Hbody.
  rewrite !breakCount_app, breakCount_requested by done.
  assert (Hbrk : breakCount brk = length brk).
  { unfold brk, breakBefore. destruct valid; [done|].
    destruct (addPageBreakBefore options) as [[|]|];
      try destruct (0 <? Z.of_nat (length (_bodyElements d))); done. }
  rewrite Hbrk. lia.
Qed.

(** X17. A merge into a pristine document (no body element, no part)
    copies the structure of the source: every part of the source except
    [word/document.xml], and its section properties unless the target has
    its own. No break-bearing paragraph is put before the content, so a
    merge of all pages gives the body and the page count of the source. *)
Theorem merge_into_pristine (source : MergeSource) (sourceDoc : Document)
  (options : MergeOptions) (d : Document) :
  loadSource env source = Returned sourceDoc ->
  _bodyElements d = [] -> _files d = ∅ ->
  let d' := stateAfter (merge env source options) d in
  _files d' = delete "word/document.xml" (_files sourceDoc) /\
  _sectPr d' =
    match _sectPr d with Some own => Some own | None => _sectPr sourceDoc end /\
  (pages options = None ->
   _bodyElements d' = _bodyElements sourceDoc /\
   getPageCount d' = getPageCount sourceDoc).
Proof.
  intros Hload Hbody Hfiles d'.
  assert (Hstructure :
    _files d' = delete "word/document.xml" (_files sourceDoc) /\
    _sectPr d' =
      match _sectPr d with Some own => Some own | None => _sectPr sourceDoc end).
  { unfold d', stateAfter, merge. rewrite Hload, mergeDocument_run. simpl.
    assert (Hbefore :
      _files (beforeSelection sourceDoc d) =
        delete "word/document.xml" (_files sourceDoc) /\
      _sectPr (beforeSelection sourceDoc d) =
        match _sectPr d with
        | Some own => Some own
        | None => _sectPr sourceDoc
        end).
    { unfold beforeSelection. rewrite Hbody, Hfiles, map_size_empty. simpl.
      unfold stateAfter. rewrite _copyDocumentStructure_run. simpl.
      by rewrite Hfiles, (left_id_L ∅ (∪)). }
    by destruct (Z.of_nat (length (pagesToMerge options (getPages sourceDoc)))
                 =? 0). }
  destruct Hstructure as [Hf Hs]. split; [exact Hf|]. split; [exact Hs|].
  intros Hall.
  assert (Hb : _bodyElements d' = _bodyElements sourceDoc).
  { unfold d'. rewrite (merge_body env _ _ _ _ Hload).
    unfold pagesToMerge. rewrite Hall.
    destruct (getPages_structure sourceDoc) as (closed & start & Hp & _).
    destruct (getPages sourceDoc) as [|page rest] eqn:Hpages.
    { by destruct closed. }
    rewrite <- Hpages, appendPages_all. unfold breakBefore.
    rewrite Hbody. simpl. by destruct (addPageBreakBefore options) as [[|]|]. }
  split; [exact Hb|]. by rewrite !getPageCount_breaks, Hb.
Qed.

End MergeSelection.

(* ===================================================================== *)
(** * The shape of the documents a caller can hold *)
(* ===================================================================== *)

Lemma shape_ret {A} (a : A) : keepsShape (ret a).
Proof. by intros d. Qed.

Lemma shape_throw {A} (message : string) : keepsShape (@throw A message).
Proof. by intros d. Qed.

Lemma shape_this {A} (f : Document -> A) : keepsShape (this f).
Proof. by intros d. Qed.

Lemma shape_update (f : Document -> Document) :
  (forall d, wellFormed d -> wellFormed (f d)) -> keepsShape (update f).
Proof. intros Hf d. apply Hf. Qed.

Lemma shape_bind {A B} (m : Method A) (k : A -> Method B) :
  keepsShape m -> (forall a, keepsShape (k a)) -> keepsShape (bind m k).
Proof.
  intros Hm Hk d Hd. unfold stateAfter, bind.
  specialize (Hm d Hd). unfold stateAfter in Hm.
  destruct (m d) as [[a|message] d']; simpl in *; [|done].
  by apply Hk.
Qed.

Lemma shape_set_dirty (v : bool) (d : Document) :
  wellFormed d -> wellFormed (set_dirty v d).
Proof. by intros Hd. Qed.

Lemma shape_set_files
  (f : gmap string (list Byte.byte) -> gmap string (list Byte.byte))
  (d : Document) :
  wellFormed d -> wellFormed (set_files f d).
Proof. by intros Hd. Qed.

Lemma shape_set_documentParsed (v : list XmlNode) (d : Document) :
  wellFormed d -> wellFormed (set_documentParsed v d).
Proof. by intros Hd. Qed.

Lemma shape_set_body (f : list XmlNode -> list XmlNode) (d : Document) :
  (Forall (fun element => hasTag "w:sectPr" element = false) (_bodyElements d) ->
   Forall (fun element => hasTag "w:sectPr" element = false)
     (f (_bodyElements d))) ->
  wellFormed d -> wellFormed (set_bodyElements f d).
Proof. intros Hf (Hb & Hs & Hn). split_and!; [by apply Hf|done|done]. Qed.

Lemma shape_splice (start deleteCount : Z) (d : Document) :
  wellFormed d ->
  wellFormed (set_bodyElements (fun b => splice b start deleteCount) d).
Proof.
  apply shape_set_body. intros Hb. unfold splice.
  apply Forall_app. split; [by apply Forall_take|by apply Forall_drop].
Qed.

Lemma shape_removePage (i : Z) : keepsShape (removePage i).
Proof.
  unfold removePage, pageAt.
  repeat first
    [ apply shape_ret
    | apply shape_throw
    | apply shape_this
    | apply shape_update; intros;
      first [by apply shape_set_dirty | by apply shape_splice]
    | apply shape_bind; [|intros ?]
    | match goal with
      | |- keepsShape (if ?b then _ else _) => destruct b
      | |- keepsShape (match ?x with _ => _ end) => destruct x
      end ].
Qed.

Lemma shape_addPageBreak : keepsShape addPageBreak.
Proof.
  unfold addPageBreak. apply shape_bind; [|intros _].
  - apply shape_update. intros. by apply shape_set_dirty.
  - apply shape_update. intros d. apply shape_set_body. intros Hb.
    apply Forall_app. split; [done|]. by repeat constructor.
Qed.

(** The template pass keeps the keys of every node. *)
Lemma objHas_objSet_present {V} (fs : list (string * V)) (k k' : string)
  (v : V) :
  objHas fs k = true -> objHas (objSet fs k v) k' = objHas fs k'.
Proof.
  unfold objHas. intros Hk.
  destruct (String.eqb_spec k k') as [<-|Hne].
  - rewrite objGet_objSet. by destruct (objGet fs k).
  - by rewrite objGet_objSet_ne.
Qed.

Lemma renderNode_hasTag (data : gmap string TemplateValue)
  (options : TemplateOptions) (node : XmlNode) (tagName : string) :
  hasTag tagName (renderNode data options node) = hasTag tagName node.
Proof.
  destruct node as [fs]. simpl.
  destruct (hasTag "w:p" (XmlObj fs)) eqn:Hp.
  - unfold renderParagraph.
    destruct (hasPlaceholder _ _); [|done].
    unfold hasTag. simpl. by apply objHas_objSet_present.
  - unfold hasTag, objHas. simpl. clear Hp.
    induction fs as [|[k0 v0] fs IH]; simpl; [done|].
    by destruct (String.eqb k0 tagName).
Qed.

Lemma shape_render (data : gmap string TemplateValue)
  (options : TemplateOptions) : keepsShape (render data options).
Proof.
  unfold render. apply shape_bind; [|intros _].
  - apply shape_update. intros. by apply shape_set_dirty.
  - apply shape_update. intros d. apply shape_set_body. intros Hb.
    apply Forall_fmap. eapply Forall_impl; [exact Hb|].
    intros node Hn. simpl. by rewrite renderNode_hasTag.
Qed.

Lemma substring_all (s : string) : substring 0 (String.length s) s = s.
Proof. induction s as [|c s IH]; simpl; [done|]. by rewrite IH. Qed.

(** [key.slice(2)] of an [@_xmlns...] attribute name is an [xmlns] name. *)
Lemma namespace_key (key : string) :
  String.prefix "@_xmlns" key = true ->
  String.prefix "xmlns" (substring 2 (String.length key - 2) key) = true.
Proof.
  destruct key as [|c1 [|c2 rest]]; cbn [String.prefix]; try done.
  { by destruct (ascii_dec "@" c1). }
  destruct (ascii_dec "@" c1); [|done]. destruct (ascii_dec "_" c2); [|done].
  intros Hrest. cbn [String.length substring Nat.sub].
  rewrite Nat.sub_0_r, substring_all. exact Hrest.
Qed.

Lemma shape_parsed_namespaces (attrs : list (string * string)) :
  forall ns : gmap string string,
    (forall key, is_Some (ns !! key) -> String.prefix "xmlns" key = true) ->
    forall key,
      is_Some
        (fold_left
           (fun acc kv =>
              let key := fst kv in
              if String.prefix "@_xmlns" key then
                let nsKey :=
                  String.substring 2 (String.length key - 2) key in
                <[nsKey := snd kv]> acc
              else acc)
           attrs ns !! key) ->
      String.prefix "xmlns" key = true.
Proof.
  induction attrs as [|[k v] attrs IH]; intros ns Hns key; simpl; [apply Hns|].
  apply IH. intros key'.
  destruct (String.prefix "@_xmlns" k) eqn:Hk; [|apply Hns].
  destruct (decide (substring 2 (String.length k - 2) k = key')) as [<-|Hne].
  - intros _. by apply namespace_key.
  - rewrite lookup_insert_ne by done. apply Hns.
Qed.

Lemma findElement_hasTag (nodes : list XmlNode) (tagName : string)
  (node : XmlNode) :
  findElement nodes tagName = Some node -> hasTag tagName node = true.
Proof.
  unfold findElement. intros Hf. apply find_some in Hf. tauto.
Qed.

Lemma shape_parseDocument (env : Collaborators) (xml : string) :
  keepsShape (_parseDocument env xml).
Proof.
  unfold _parseDocument.
  destruct (parseXml env xml) as [parsed|message]; [|apply shape_throw].
  apply shape_bind; [|intros _].
  { apply shape_update. intros. by apply shape_set_documentParsed. }
  destruct (findElement parsed "w:document") as [documentNode|];
    [|apply shape_ret].
  apply shape_bind; [|intros _].
  { destruct (objGet (nodeFields documentNode) ":@") as [[| |attrs]|];
      try apply shape_ret.
    apply shape_update. intros d (Hb & Hs & Hn). split_and!; [done|done|].
    simpl. by apply shape_parsed_namespaces. }
  destruct (findElement (getChildren documentNode "w:document") "w:body")
    as [bodyNode|]; [|apply shape_ret].
  apply shape_bind; [|intros _].
  { destruct (findElement (getChildren bodyNode "w:body") "w:sectPr")
      as [sectPrNode|] eqn:Hfind; [|apply shape_ret].
    apply shape_update. intros d (Hb & Hs & Hn). split_and!; [done| |done].
    simpl. intros node [= <-]. by eapply findElement_hasTag. }
  apply shape_update. intros d. apply shape_set_body. intros _.
  apply Forall_forall. intros child Hin.
  apply list_elem_of_In, filter_In in Hin as [_ Hin].
  by apply negb_true_iff in Hin.
Qed.

Lemma shape_newDocument : wellFormed newDocument.
Proof.
  split_and!; [constructor|done|].
  intros key [v Hv]. simpl in Hv. by rewrite lookup_empty in Hv.
Qed.

Lemma shape_fromBuffer (env : Collaborators) (data : list Byte.byte)
  (d : Document) :
  fromBuffer env data = Returned d -> wellFormed d.
Proof.
  unfold fromBuffer. destruct (readZip env data) as [files|]; [|done].
  assert (Hdoc : wellFormed (set_files (fun _ => files) newDocument))
    by apply shape_set_files, shape_newDocument.
  destruct (readZipText files "word/document.xml") as [documentXml|];
    [|by intros [= <-]].
  destruct (0 <? String.length documentXml)%nat; [|by intros [= <-]].
  pose proof (shape_parseDocument env documentXml _ Hdoc) as Hparsed.
  unfold stateAfter in Hparsed.
  destruct (_parseDocument env documentXml _) as [[[]|message] d'];
    [|done].
  by intros [= <-].
Qed.

Lemma shape_merge (env : Collaborators) (source : MergeSource)
  (sourceDoc : Document) (options : MergeOptions) (d : Document) :
  loadSource env source = Returned sourceDoc ->
  wellFormed sourceDoc -> wellFormed d ->
  wellFormed (stateAfter (merge env source options) d).
Proof.
  intros Hload (Hsb & Hss & Hsn) (Hb & Hs & Hn).
  assert (Hbefore : wellFormed (beforeSelection sourceDoc d)).
  { split_and!.
    - by rewrite beforeSelection_body.
    - unfold beforeSelection.
      destruct (_ && _); [|done].
      unfold stateAfter. rewrite _copyDocumentStructure_run. simpl.
      destruct (_sectPr d) as [own|]; [apply Hs|apply Hss].
    - rewrite beforeSelection_namespaces. intros key Hkey.
      apply lookup_union_is_Some in Hkey as [Hkey|Hkey]; eauto. }
  split_and!.
  - rewrite (merge_body env _ _ _ _ Hload).
    destruct (pagesToMerge options (getPages sourceDoc)) as [|page rest];
      [done|].
    destruct (appendPages_suffix sourceDoc (page :: rest)
                (_bodyElements d ++ breakBefore options d))
      as (added & -> & Hadded).
    rewrite !Forall_app. split_and!; [done| |].
    + unfold breakBefore.
      destruct (addPageBreakBefore options) as [[|]|];
        try destruct (0 <? Z.of_nat (length (_bodyElements d)));
        by repeat constructor.
    + apply Forall_forall. intros e He.
      eapply Forall_forall in Hadded; [|exact He].
      eapply Forall_forall in Hsb; [exact Hsb|exact Hadded].
  - unfold stateAfter, merge. rewrite Hload, mergeDocument_run. simpl.
    destruct (_ =? 0); apply Hbefore.
  - unfold stateAfter, merge. rewrite Hload, mergeDocument_run. simpl.
    destruct (_ =? 0); apply Hbefore.
Qed.

Lemma shape_toBuffer (env : Collaborators) (d : Document) :
  wellFormed d -> wellFormed (stateAfter (toBuffer env) d).
Proof.
  intros Hd. rewrite toBuffer_state, _updateFiles_run.
  by destruct (_ && _).
Qed.

Lemma writtenSectPr_hasTag (d : Document) :
  (forall node, _sectPr d = Some node -> hasTag "w:sectPr" node = true) ->
  hasTag "w:sectPr" (writtenSectPr d) = true.
Proof.
  intros Hs. unfold writtenSectPr.
  destruct (_sectPr d) as [node|]; [|reflexivity].
  rewrite cloneNode_id. by apply Hs.
Qed.

(** X18. Every document a caller can hold (created or loaded, then changed
    by [addPageBreak], [removePage], [merge], the template pass as modelled,
    [toBuffer] and [toFile]) keeps the section properties apart from the
    body: no body element is a [w:sectPr], the stored section properties are
    one, and every stored namespace key begins with [xmlns]. So the body
    that [_updateDocumentXml] writes holds exactly one [w:sectPr], its last
    child. *)
Theorem reachable_wellFormed (env : Collaborators) (d : Document) :
  reachable env d ->
  wellFormed d /\
  exists bodyNode : XmlNode,
    getChildren (documentTree d) "w:document" = [bodyNode] /\
    getChildren bodyNode "w:body" = _bodyElements d ++ [writtenSectPr d] /\
    findElements (getChildren bodyNode "w:body") "w:sectPr" =
      [writtenSectPr d].
Proof.
  intros Hreach.
  assert (Hshape : wellFormed d).
  { induction Hreach as [|data d Hload|path d Hload|d _ IH|d i _ IH
                  |d source sourceDoc options _ IH Hload _ IHs
                  |d data options _ IH|d _ IH|d path _ IH].
    - apply (shape_set_dirty true), shape_newDocument.
    - by eapply shape_fromBuffer.
    - unfold fromFile in Hload. destruct (readFile env path); [|discriminate].
      by eapply shape_fromBuffer.
    - by apply shape_addPageBreak.
    - by apply shape_removePage.
    - by eapply shape_merge.
    - by apply shape_render.
    - by apply shape_toBuffer.
    - rewrite toFile_state. by apply shape_toBuffer. }
  split; [exact Hshape|].
  exists (createElement "w:body" [] (_bodyElements d ++ [writtenSectPr d])).
  split; [by apply createElement_children|].
  rewrite createElement_children by done. split; [reflexivity|].
  destruct Hshape as (Hb & Hs & _).
  unfold findElements. rewrite List.filter_app. simpl.
  rewrite (writtenSectPr_hasTag d Hs).
  replace (List.filter (hasTag "w:sectPr") (_bodyElements d)) with
    (@nil XmlNode); [done|].
  induction Hb as [|e l He _ IH]; simpl; [done|]. by rewrite He.
Qed.

(* ===================================================================== *)
(** * Saving, then loading *)
(* ===================================================================== *)

Lemma readZip_entries_map_to_list (m : gmap string (list Byte.byte)) :
  partsKept m -> readZip_entries (map_to_list m) = m.
Proof.
  intros Hkept. apply map_eq. intros path.
  destruct (m !! path) as [content|] eqn:Hm.
  - apply readZip_entries_present.
    + apply NoDup_fst_map_to_list.
    + by apply elem_of_map_to_list.
    + by apply (Hkept path content).
  - destruct (readZip_entries (map_to_list m) !! path) as [content|] eqn:Hl;
      [|done].
    unfold readZip_entries in Hl.
    apply readZip_entries_fold_lookup in Hl as [Hl|[_ Hin]].
    + by rewrite lookup_empty in Hl.
    + apply elem_of_map_to_list in Hin. congruence.
Qed.

Lemma writeZip_data_partsKept (files : gmap string (list Byte.byte)) :
  partsKept (writeZip_data files).
Proof.
  intros path content Hl. rewrite writeZip_data_lookup in Hl.
  destruct (files !! path) as [c|]; [|done].
  destruct (keptEntry path c) eqn:Hk; [|done]. by injection Hl as <-.
Qed.

Lemma _getNamespaceAttributes_nonempty (d : Document) :
  _getNamespaceAttributes d <> [].
Proof.
  unfold _getNamespaceAttributes.
  destruct (0 <? size (_namespaces d))%nat eqn:Hsize; [|done].
  intros Hnil. apply map_to_list_empty_iff in Hnil.
  rewrite Hnil, map_size_empty in Hsize. done.
Qed.

Lemma _getNamespaceAttributes_NoDup (d : Document) :
  NoDup (_getNamespaceAttributes d).*1.
Proof.
  unfold _getNamespaceAttributes.
  destruct (0 <? size (_namespaces d))%nat; [apply NoDup_fst_map_to_list|].
  simpl. apply NoDup_cons. split; [|apply NoDup_singleton].
  by intros [= ]%list_elem_of_singleton.
Qed.

Lemma _getNamespaceAttributes_xmlns (d : Document) :
  (forall key, is_Some (_namespaces d !! key) ->
               String.prefix "xmlns" key = true) ->
  Forall (fun kv => String.prefix "xmlns" (fst kv) = true)
    (_getNamespaceAttributes d).
Proof.
  intros Hn. unfold _getNamespaceAttributes.
  destruct (0 <? size (_namespaces d))%nat; [|by repeat constructor].
  apply Forall_forall. intros [k v] Hin. apply elem_of_map_to_list in Hin.
  apply Hn. by exists v.
Qed.

Lemma objSet_fresh {V} (o : list (string * V)) (k : string) (v : V) :
  objGet o k = None -> objSet o k v = o ++ [(k, v)].
Proof.
  induction o as [|[k0 v0] o IH]; simpl; [done|].
  destruct (String.eqb k0 k); [done|]. intros Hnone. by rewrite IH.
Qed.

(** With distinct names, the attribute record of [createElement] lists the
    attributes in the order given. *)
Lemma createElement_attrObj_NoDup (attrs : list (string * string)) :
  NoDup attrs.*1 ->
  forall acc : list (string * string),
    (forall kv, kv ∈ attrs -> objGet acc ("@_" +:+ fst kv) = None) ->
    fold_left (fun acc kv => objSet acc ("@_" +:+ fst kv) (snd kv)) attrs acc =
    acc ++ List.map (fun kv => ("@_" +:+ fst kv, snd kv)) attrs.
Proof.
  induction attrs as [|[k v] attrs IH]; intros Hnd acc Hfresh; simpl.
  { by rewrite app_nil_r. }
  simpl in Hnd. apply NoDup_cons in Hnd as [Hk Hnd].
  rewrite objSet_fresh by (apply (Hfresh (k, v)); by left).
  rewrite IH; [by rewrite <- app_assoc|done|].
  intros [k' v'] Hin. rewrite objGet_app.
  rewrite (Hfresh (k', v')) by by right.
  cbn [objGet fst snd].
  match goal with
  | |- context [String.eqb ?a ?b] => destruct (String.eqb_spec a b) as [Heq|]
  end; [|done].
  apply (attribute_key_inj k k') in Heq as ->.
  exfalso. apply Hk. apply list_elem_of_fmap. by exists (k', v').
Qed.

Lemma attribute_key_prefix (k : string) :
  String.prefix "@_xmlns" ("@_" +:+ k) = String.prefix "xmlns" k.
Proof.
  change ("@_" +:+ k) with (String "@" (String "_" k)).
  cbn [String.prefix].
  destruct (ascii_dec "@" "@"); [|done]. by destruct (ascii_dec "_" "_").
Qed.

Lemma attribute_key_slice (k : string) :
  substring 2 (String.length ("@_" +:+ k) - 2) ("@_" +:+ k) = k.
Proof.
  change ("@_" +:+ k) with (String "@" (String "_" k)).
  cbn [String.length substring Nat.sub].
  by rewrite Nat.sub_0_r, substring_all.
Qed.

Lemma fold_insert_lookup (attrs : list (string * string)) (key : string) :
  NoDup attrs.*1 ->
  forall acc : gmap string string,
    fold_left (fun acc kv => <[fst kv := snd kv]> acc) attrs acc !! key =
    match (list_to_map attrs : gmap string string) !! key with
    | Some v => Some v
    | None => acc !! key
    end.
Proof.
  induction attrs as [|[k v] attrs IH]; intros Hnd acc; simpl; [done|].
  simpl in Hnd. apply NoDup_cons in Hnd as [Hk Hnd].
  rewrite IH by done.
  destruct (decide (k = key)) as [->|Hne].
  - rewrite !lookup_insert_eq.
    by rewrite (not_elem_of_list_to_map_1 (M := gmap string) attrs key Hk).
  - by rewrite !lookup_insert_ne.
Qed.

(** The namespaces that [_parseDocument] reads off a document node built by
    [createElement] from [xmlns] attributes are those attributes. *)
Lemma parsed_namespaces (attrs : list (string * string)) :
  NoDup attrs.*1 ->
  Forall (fun kv => String.prefix "xmlns" (fst kv) = true) attrs ->
  fold_left
    (fun acc kv =>
       let key := fst kv in
       if String.prefix "@_xmlns" key then
         let nsKey := String.substring 2 (String.length key - 2) key in
         <[nsKey := snd kv]> acc
       else acc)
    (fold_left (fun acc kv => objSet acc ("@_" +:+ fst kv) (snd kv)) attrs [])
    (∅ : gmap string string) =
  list_to_map attrs.
Proof.
  intros Hnd Hxmlns.
  rewrite createElement_attrObj_NoDup by done. simpl.
  assert (Hfold : forall acc : gmap string string,
    fold_left
      (fun acc kv =>
         let key := fst kv in
         if String.prefix "@_xmlns" key then
           let nsKey := String.substring 2 (String.length key - 2) key in
           <[nsKey := snd kv]> acc
         else acc)
      (List.map (fun kv => ("@_" +:+ fst kv, snd kv)) attrs) acc =
    fold_left (fun acc kv => <[fst kv := snd kv]> acc) attrs acc).
  { clear Hnd. induction Hxmlns as [|[k v] attrs Hk _ IH]; intros acc;
      [done|].
    cbn [List.map fold_left fst snd].
    rewrite attribute_key_prefix, attribute_key_slice. simpl in Hk.
    by rewrite Hk, IH. }
  rewrite Hfold. apply map_eq. intros key.
  rewrite fold_insert_lookup by done.
  by destruct (list_to_map attrs !! key).
Qed.

Lemma findElement_app_none (a b : list XmlNode) (tagName : string) :
  findElement a tagName = None ->
  findElement (a ++ b) tagName = findElement b tagName.
Proof.
  unfold findElement. induction a as [|n a IH]; simpl; [done|].
  by destruct (hasTag tagName n).
Qed.

Lemma findElement_none (nodes : list XmlNode) (tagName : string) :
  Forall (fun node => hasTag tagName node = false) nodes ->
  findElement nodes tagName = None.
Proof.
  unfold findElement. induction 1 as [|n nodes Hn _ IH]; simpl; [done|].
  by rewrite Hn.
Qed.

Lemma filter_body (body : list XmlNode) (sectPr : XmlNode) :
  Forall (fun node => hasTag "w:sectPr" node = false) body ->
  hasTag "w:sectPr" sectPr = true ->
  List.filter (fun child => negb (hasTag "w:sectPr" child)) (body ++ [sectPr]) =
  body.
Proof.
  intros Hbody Hs. rewrite List.filter_app. simpl. rewrite Hs. simpl.
  rewrite app_nil_r. induction Hbody as [|n body Hn _ IH]; simpl; [done|].
  by rewrite Hn, IH.
Qed.

Lemma documentXml_length (env : Collaborators) (d : Document) :
  (0 <? String.length (documentXml env d))%nat = true.
Proof.
  unfold documentXml. rewrite string_length_app.
  change (String.length xmlDeclaration) with 56%nat. done.
Qed.

Section RoundTrip.

Variable env : Collaborators.

(** What [_parseDocument] makes of the text that [_updateDocumentXml] wrote,
    when the XML library reads the document node back. *)
Lemma _parseDocument_documentXml (d doc : Document) (prolog : list XmlNode) :
  wellFormed d ->
  parseXml env (documentXml env d) = Returned (prolog ++ [documentTree d]) ->
  findElement prolog "w:document" = None ->
  _namespaces doc = ∅ ->
  _parseDocument env (documentXml env d) doc =
    (Returned tt,
     mkDocument (_files doc) (_bodyElements d) (prolog ++ [documentTree d])
       (_dirty doc) (list_to_map (_getNamespaceAttributes d))
       (Some (writtenSectPr d))).
Proof.
  intros (Hb & Hs & Hn) Hparse Hprolog Hempty.
  pose (bodyNode :=
          createElement "w:body" [] (_bodyElements d ++ [writtenSectPr d])).
  assert (Hsp : hasTag "w:sectPr" (writtenSectPr d) = true)
    by by apply writtenSectPr_hasTag.
  assert (Hfind1 : findElement (prolog ++ [documentTree d]) "w:document" =
                   Some (documentTree d)).
  { rewrite findElement_app_none by done. unfold findElement. simpl.
    unfold documentTree. by rewrite createElement_hasTag. }
  assert (Hattr : objGet (nodeFields (documentTree d)) ":@" =
            Some (XmlRecord
                    (fold_left
                       (fun acc kv => objSet acc ("@_" +:+ fst kv) (snd kv))
                       (_getNamespaceAttributes d) []))).
  { unfold documentTree. rewrite createElement_fields by done.
    pose proof (_getNamespaceAttributes_nonempty d) as Hne.
    destruct (_getNamespaceAttributes d); [done|]. reflexivity. }
  assert (Hch1 : getChildren (documentTree d) "w:document" = [bodyNode])
    by by apply createElement_children.
  assert (Hfind2 : findElement [bodyNode] "w:body" = Some bodyNode)
    by reflexivity.
  assert (Hch2 : getChildren bodyNode "w:body" =
                 _bodyElements d ++ [writtenSectPr d]) by reflexivity.
  assert (Hfind3 : findElement (_bodyElements d ++ [writtenSectPr d])
                     "w:sectPr" = Some (writtenSectPr d)).
  { rewrite findElement_app_none by by apply findElement_none.
    unfold findElement. simpl. by rewrite Hsp. }
  unfold _parseDocument. rewrite Hparse.
  unfold bind, update, ret. cbv beta iota zeta.
  rewrite Hfind1, Hattr. cbv beta iota zeta.
  rewrite Hch1, Hfind2. cbv beta iota zeta.
  rewrite Hch2, Hfind3. cbv beta iota zeta.
  rewrite filter_body by done.
  unfold set_bodyElements, set_sectPr, set_namespaces, set_documentParsed.
  cbn [_files _bodyElements _documentParsed _dirty _namespaces _sectPr].
  rewrite Hempty, parsed_namespaces; [done| |].
  - apply _getNamespaceAttributes_NoDup.
  - by apply _getNamespaceAttributes_xmlns.
Qed.

(** X19. Saving and loading again gives the document back. For a document
    of the shape every method keeps, dirty or without parts, whose archive
    the archive library opens again with the parts written, and whose
    [word/document.xml] the XML library reads back as the document node
    (after any prolog), [fromBuffer] of the buffer of [toBuffer] returns a
    document with the same body and page count, the section properties that
    were written, the namespaces that were written (the stored ones, or the
    two defaults when none was stored), the written parts, and a clear dirty
    flag. *)
Theorem save_load_round_trip (d : Document) (prolog : list XmlNode) :
  wellFormed d ->
  _dirty d = true \/ _files d = ∅ ->
  let buffer := writeZip env (_files (stateAfter (toBuffer env) d)) in
  unzipSync env buffer = Returned (map_to_list (packageParts env d)) ->
  parseXml env (documentXml env d) = Returned (prolog ++ [documentTree d]) ->
  findElement prolog "w:document" = None ->
  outcome (toBuffer env) d = Returned buffer /\
  exists d' : Document,
    fromBuffer env buffer = Returned d' /\
    _bodyElements d' = _bodyElements d /\
    getPageCount d' = getPageCount d /\
    _sectPr d' = Some (writtenSectPr d) /\
    (forall node, _sectPr d = Some node -> _sectPr d' = Some node) /\
    _namespaces d' = list_to_map (_getNamespaceAttributes d) /\
    (_namespaces d <> ∅ -> _namespaces d' = _namespaces d) /\
    _files d' = packageParts env d /\
    _dirty d' = false.
Proof.
  intros Hshape Hregen buffer Hzip Hparse Hprolog.
  assert (Hout : outcome (toBuffer env) d = Returned buffer).
  { unfold buffer, outcome, stateAfter, toBuffer, bind, this, ret.
    by destruct (_updateFiles env d) as [[[]|message] d1] eqn:Hrun;
      [|unfold _updateFiles, _ensureBasicStructure, ensurePart, bind, this,
          update, ret in Hrun;
        destruct (negb (_dirty d) && (0 <? size (_files d))%nat)]. }
  split; [exact Hout|].
  assert (Hstate : stateAfter (toBuffer env) d = regenerated env d).
  { rewrite toBuffer_state, _updateFiles_run.
    destruct Hregen as [->| ->]; [done|].
    rewrite map_size_empty. by rewrite andb_false_r. }
  assert (Hpart : packageParts env d !! "word/document.xml" =
                  Some (list_byte_of_string (documentXml env d))).
  { unfold packageParts. rewrite writeZip_data_lookup, Hstate.
    rewrite regenerated_run. simpl. unfold writeZipText.
    rewrite lookup_insert_eq. unfold documentXml.
    by rewrite generated_part_kept. }
  assert (Hread : readZip env buffer = Returned (packageParts env d)).
  { unfold readZip. rewrite Hzip. f_equal.
    apply readZip_entries_map_to_list, writeZip_data_partsKept. }
  unfold fromBuffer. rewrite Hread. unfold readZipText. rewrite Hpart.
  cbn [fmap option_fmap option_map].
  rewrite string_of_list_byte_of_string, documentXml_length.
  rewrite (_parseDocument_documentXml d _ prolog Hshape Hparse Hprolog)
    by reflexivity.
  eexists. split; [reflexivity|]. simpl. split_and!; try reflexivity.
  - intros node Hnode. unfold writtenSectPr.
    by rewrite Hnode, cloneNode_id.
  - intros Hne. unfold _getNamespaceAttributes.
    apply map_size_non_empty_iff in Hne.
    destruct (0 <? size (_namespaces d))%nat eqn:Hsize.
    + apply list_to_map_to_list.
    + apply Nat.ltb_ge in Hsize. lia.
Qed.

End RoundTrip.

(* ===================================================================== *)
(** * Removing a page, element by element *)
(* ===================================================================== *)



(** The last page of a body that ends on a break is the sentinel, and
    removing it removes that break. *)
Lemma removePage_after_break (d : Document) (rest : list XmlNode)
  (brk : XmlNode) :
  _bodyElements d = rest ++ [brk] -> _hasPageBreak brk = true ->
  removePage (getPageCount d - 1) d =
    (Returned tt, set_bodyElements (fun _ => rest) (set_dirty true d)).
Proof.
  intros Hbody Hbrk.
  destruct (getPages_structure d)
    as (closed & start & Hp & Hlen & _ & Hends & _ & _ & Htail & _).
  pose proof (openTail_bound _ _ Htail) as Hb.
  simpl in *.
  assert (Hcount : breakCount (_bodyElements d) = S (breakCount rest)).
  { rewrite Hbody, breakCount_app, breakCount_cons, Hbrk.
    change (breakCount []) with 0%nat. lia. }
  assert (Hopen : noOpenPage (_bodyElements d) = true).
  { unfold noOpenPage. by rewrite Hbody, last_snoc. }
  assert (Hidx : getPageCount d - 1 = Z.of_nat (length closed)).
  { rewrite getPageCount_breaks, Hlen. lia. }
  assert (Hfinal : getPages d !! Z.to_nat (getPageCount d - 1) =
                   Some (finalPage (_bodyElements d) start)).
  { rewrite Hidx, Nat2Z.id, Hp. by apply list_lookup_middle. }
  assert (Hsent : startElement (finalPage (_bodyElements d) start) = -1).
  { apply finalPage_start; [lia|done]. }
  destruct (lookup_lt_is_Some_2 closed (breakCount rest)) as [prev Hcp];
    [lia|].
  assert (Hprev : getPages d !! Z.to_nat (getPageCount d - 1 - 1) = Some prev).
  { rewrite Hidx, Hp, Hlen, Hcount.
    replace (Z.to_nat (Z.of_nat (S (breakCount rest)) - 1))
      with (breakCount rest) by lia.
    by apply lookup_app_l_Some. }
  assert (Hend : endElement prev = Z.of_nat (length rest)).
  { assert (Hm : List.map endElement closed !! breakCount rest =
                 Some (endElement prev)).
    { change (List.map endElement closed) with (endElement <$> closed).
      by rewrite list_lookup_fmap, Hcp. }
    rewrite Hends, Hbody, breakPositions_app in Hm. simpl in Hm.
    rewrite Hbrk in Hm.
    rewrite <- (length_breakPositions rest 0) in Hm.
    rewrite list_lookup_middle in Hm by done. injection Hm as <-. lia. }
  rewrite (removePage_trailing d _ _ prev) by (done || lia).
  unfold set_bodyElements. simpl.
  by rewrite Hend, Hbody, splice_last.
Qed.

(** X21. [removePage] of the last page undoes [addPageBreak]: after a break
    is added to any document, removing the page with the index of the old
    page count returns and gives back the body and the page count the
    document had. *)
Theorem removePage_undoes_addPageBreak (d : Document) :
  let d1 := stateAfter addPageBreak d in
  let d2 := stateAfter (removePage (getPageCount d)) d1 in
  outcome (removePage (getPageCount d)) d1 = Returned tt /\
  _bodyElements d2 = _bodyElements d /\
  getPageCount d2 = getPageCount d.
Proof.
  intros d1 d2.
  assert (Hbody : _bodyElements d1 =
                  _bodyElements d ++ [_createPageBreakParagraph])
    by apply addPageBreak_body.
  assert (Hcount : getPageCount d = getPageCount d1 - 1).
  { rewrite !getPageCount_breaks, Hbody, breakCount_app.
    change (breakCount [_createPageBreakParagraph]) with 1%nat. lia. }
  assert (Hrun : removePage (getPageCount d) d1 =
            (Returned tt,
             set_bodyElements (fun _ => _bodyElements d) (set_dirty true d1))).
  { rewrite Hcount. by apply removePage_after_break with _createPageBreakParagraph. }
  unfold d2, outcome, stateAfter. rewrite Hrun. simpl.
  split; [done|]. split; [done|].
  by rewrite getPageCount_set_body, getPageCount_breaks.
Qed.

(* ===================================================================== *)
(** * The further properties at work *)
(* ===================================================================== *)

Lemma merge_all_pages_witness :
  let source := SourceDocument Bench.threePages in
  let options := mkMergeOptions None None in
  let d' := stateAfter (merge Bench.env source options) Bench.onePage in
  loadSource Bench.env source = Returned Bench.threePages /\
  pages options = None /\
  _bodyElements d' =
    _bodyElements Bench.onePage ++ [_createPageBreakParagraph] ++
    _bodyElements Bench.threePages /\
  getPageCount d' = 4.
Proof.
  intros source options d'.
  split; [reflexivity|]. split; [reflexivity|].
  destruct (merge_all_pages Bench.env source Bench.threePages options
              Bench.onePage eq_refl eq_refl) as (_ & Hbody & Hcount).
  split; [exact Hbody|exact Hcount].
Defined.

Lemma merge_only_appends_witness :
  let source := SourceDocument Bench.threePages in
  let options := mkMergeOptions (Some [1]) (Some false) in
  loadSource Bench.env source = Returned Bench.threePages /\
  exists added : list XmlNode,
    _bodyElements (stateAfter (merge Bench.env source options) Bench.onePage) =
      _bodyElements Bench.onePage ++ added /\
    Forall (fun e => e = _createPageBreakParagraph \/
                     e ∈ _bodyElements Bench.threePages) added.
Proof.
  intros source options. split; [reflexivity|].
  exact (merge_only_appends Bench.env source Bench.threePages options
           Bench.onePage eq_refl).
Defined.

Lemma merge_structure_only_first_witness :
  let source := SourceDocument Bench.styledSource in
  let options := mkMergeOptions None None in
  let d' := stateAfter (merge Bench.env source options) Bench.onePage in
  loadSource Bench.env source = Returned Bench.styledSource /\
  (_bodyElements Bench.onePage <> [] \/ _files Bench.onePage <> ∅) /\
  _files d' = _files Bench.onePage /\
  _sectPr d' = _sectPr Bench.onePage /\
  _dirty d' = true.
Proof.
  intros source options d'.
  assert (Hused : _bodyElements Bench.onePage <> [] \/
                  _files Bench.onePage <> ∅) by (left; discriminate).
  split; [reflexivity|]. split; [exact Hused|].
  exact (merge_structure_only_first Bench.env source Bench.styledSource options
           Bench.onePage eq_refl Hused).
Defined.

Lemma merge_load_failure_witness :
  let source := SourcePath "missing.docx" in
  (exists path, source = SourcePath path /\
                readFile Bench.env path = Thrown "ENOENT") /\
  merge Bench.env source (mkMergeOptions None None) Bench.onePage =
    (Thrown "ENOENT", Bench.onePage).
Proof.
  intros source.
  assert (Hfail : exists path, source = SourcePath path /\
                               readFile Bench.env path = Thrown "ENOENT")
    by (exists "missing.docx"; split; reflexivity).
  split; [exact Hfail|].
  exact (merge_load_failure Bench.env source (mkMergeOptions None None)
           Bench.onePage "ENOENT" (or_introl Hfail)).
Defined.

Lemma writeZip_drops_empty_entries_witness :
  let files : gmap string (list Byte.byte) :=
    {[ "word/styles.xml" := list_byte_of_string "<w:styles/>";
       "word/media/" := list_byte_of_string "x";
       "word/empty.xml" := [] ]} in
  files !! "__proto__" = None /\
  filter (fun entry => keptEntry (fst entry) (snd entry) = true) files =
    {[ "word/styles.xml" := list_byte_of_string "<w:styles/>" ]} /\
  writeZip Bench.env files =
    zipSync Bench.env (clock Bench.env)
      (filter (fun entry => keptEntry (fst entry) (snd entry) = true) files).
Proof.
  intros files.
  assert (Hnone : files !! "__proto__" = None) by (vm_compute; reflexivity).
  split; [exact Hnone|]. split; [vm_compute; reflexivity|].
  exact (writeZip_drops_empty_entries Bench.env files Hnone).
Defined.

Lemma readZipText_writeZipText_witness :
  let content :=
    "caf" +:+ String (ascii_of_nat 195) (String (ascii_of_nat 169) EmptyString)
  in
  let files : gmap string (list Byte.byte) :=
    {[ "word/styles.xml" := list_byte_of_string "<w:styles/>" ]} in
  exactText content = true /\
  readZipText (writeZipText files "word/note.xml" content) "word/note.xml" =
    Some content /\
  readZipText (writeZipText files "word/note.xml" content) "word/styles.xml" =
    Some "<w:styles/>".
Proof.
  intros content files.
  assert (Hexact : exactText content = true) by (vm_compute; reflexivity).
  split; [exact Hexact|].
  destruct (readZipText_writeZipText files "word/note.xml" content
              "word/styles.xml" Hexact) as [Hsame Hother].
  split; [exact Hsame|].
  etrans; [apply Hother; discriminate|vm_compute; reflexivity].
Defined.

Lemma readZip_keeps_files_witness :
  unzipSync Bench.env [] = Returned Bench.stylesOnly /\
  exists files : gmap string (list Byte.byte),
    readZip Bench.env [] = Returned files /\
    (forall path content,
       files !! path = Some content ->
       keptEntry path content = true /\ (path, content) ∈ Bench.stylesOnly) /\
    (NoDup Bench.stylesOnly.*1 ->
     forall path content,
       (path, content) ∈ Bench.stylesOnly -> keptEntry path content = true ->
       files !! path = Some content) /\
    writeZip_data files = files.
Proof.
  split; [reflexivity|].
  exact (readZip_keeps_files Bench.env [] Bench.stylesOnly eq_refl).
Defined.

Lemma createElement_reads_back_witness :
  let node :=
    createElement "w:t" [("xml:space", "preserve")] [createText "cover"] in
  "w:t" <> ":@" /\
  hasTag "w:t" node = true /\
  getChildren node "w:t" = [createText "cover"] /\
  getAttr node "xml:space" = Some "preserve" /\
  getText node "w:t" = Some "cover".
Proof.
  intros node.
  assert (Htag : "w:t" <> ":@") by discriminate.
  split; [exact Htag|].
  destruct (createElement_reads_back "w:t" [("xml:space", "preserve")]
              [createText "cover"] "xml:space" Htag)
    as (Hhas & _ & Hchildren & Hattr & Htext).
  split; [exact Hhas|]. split; [exact Hchildren|]. split; [exact Hattr|].
  exact (Htext "cover" [] eq_refl).
Defined.

Lemma fromBuffer_without_document_witness :
  unzipSync Bench.env [] = Returned Bench.stylesOnly /\
  (forall content,
     ("word/document.xml", content) ∈ Bench.stylesOnly -> content = []) /\
  fromBuffer Bench.env [] =
    Returned
      (set_files (fun _ => readZip_entries Bench.stylesOnly) newDocument) /\
  getPageCount
    (set_files (fun _ => readZip_entries Bench.stylesOnly) newDocument) = 1.
Proof.
  assert (Hnone : forall content,
            ("word/document.xml", content) ∈ Bench.stylesOnly -> content = []).
  { intros content Hin. apply list_elem_of_singleton in Hin. discriminate. }
  split; [reflexivity|]. split; [exact Hnone|].
  exact (fromBuffer_without_document Bench.env [] Bench.stylesOnly eq_refl
           Hnone).
Defined.

Lemma removePage_last_content_witness :
  noOpenPage (_bodyElements Bench.threePages) = false /\
  getPageCount Bench.threePages = 3 /\
  exists kept content : list XmlNode,
    _bodyElements Bench.threePages = kept ++ content /\
    content <> [] /\ isBreakFree content /\ noOpenPage kept = true /\
    removePage 2 Bench.threePages =
      (Returned tt,
       set_bodyElements (fun _ => kept) (set_dirty true Bench.threePages)) /\
    getPageCount (stateAfter (removePage 2) Bench.threePages) = 3.
Proof.
  split; [reflexivity|]. split; [reflexivity|].
  exact (removePage_last_content Bench.threePages eq_refl).
Defined.

Lemma merge_selected_pages_witness :
  let source := SourceDocument Bench.threePages in
  let options := mkMergeOptions (Some [2; 7; 0; 0]) None in
  let d' := stateAfter (merge Bench.env source options) Bench.onePage in
  loadSource Bench.env source = Returned Bench.threePages /\
  pages options = Some [2; 7; 0; 0] /\
  validRequests [2; 7; 0; 0] Bench.threePages = [2; 0; 0] /\
  _bodyElements d' =
    _bodyElements Bench.onePage ++ [_createPageBreakParagraph] ++
    [Bench.textParagraph "c";
     Bench.textParagraph "a"; _createPageBreakParagraph;
     Bench.textParagraph "a"; _createPageBreakParagraph] /\
  getPageCount d' = 4.
Proof.
  intros source options d'.
  split; [reflexivity|]. split; [reflexivity|]. split; [reflexivity|].
  destruct (merge_selected_pages Bench.env source Bench.threePages options
              [2; 7; 0; 0] Bench.onePage eq_refl eq_refl) as (Hbody & Hcount).
  split; [exact Hbody|exact Hcount].
Defined.

Lemma merge_into_pristine_witness :
  let source := SourceDocument Bench.styledSource in
  let options := mkMergeOptions None None in
  let d' := stateAfter (merge Bench.env source options) create in
  loadSource Bench.env source = Returned Bench.styledSource /\
  _bodyElements create = [] /\ _files create = ∅ /\
  _files d' = {[ "word/styles.xml" := list_byte_of_string "<w:styles/>" ]} /\
  _sectPr d' = Some (createElement "w:sectPr" [] []) /\
  _bodyElements d' = [Bench.textParagraph "body"] /\
  getPageCount d' = 1.
Proof.
  intros source options d'.
  split; [reflexivity|]. split; [reflexivity|]. split; [reflexivity|].
  destruct (merge_into_pristine Bench.env source Bench.styledSource options
              create eq_refl eq_refl eq_refl) as (Hfiles & Hsect & Hall).
  destruct (Hall eq_refl) as (Hbody & Hcount).
  split; [etrans; [exact Hfiles|vm_compute; reflexivity]|].
  split; [exact Hsect|]. split; [exact Hbody|exact Hcount].
Defined.

Lemma reachable_wellFormed_witness :
  let d := stateAfter (removePage 0)
             (stateAfter addPageBreak (stateAfter addPageBreak create)) in
  reachable Bench.env d /\
  wellFormed d /\
  exists bodyNode : XmlNode,
    getChildren (documentTree d) "w:document" = [bodyNode] /\
    getChildren bodyNode "w:body" = _bodyElements d ++ [writtenSectPr d] /\
    findElements (getChildren bodyNode "w:body") "w:sectPr" =
      [writtenSectPr d].
Proof.
  intros d.
  assert (Hreach : reachable Bench.env d).
  { apply reach_removePage, reach_addPageBreak, reach_addPageBreak.
    apply reach_create. }
  split; [exact Hreach|].
  exact (reachable_wellFormed Bench.env d Hreach).
Defined.

Lemma save_load_round_trip_witness :
  let d := Bench.threePages in
  let buffer := writeZip Reread.env (_files (stateAfter (toBuffer Reread.env) d)) in
  wellFormed d /\
  _dirty d = true /\
  unzipSync Reread.env buffer =
    Returned (map_to_list (packageParts Reread.env d)) /\
  parseXml Reread.env (documentXml Reread.env d) =
    Returned (Reread.prolog ++ [documentTree d]) /\
  findElement Reread.prolog "w:document" = None /\
  outcome (toBuffer Reread.env) d = Returned buffer /\
  exists d' : Document,
    fromBuffer Reread.env buffer = Returned d' /\
    _bodyElements d' = _bodyElements d /\
    getPageCount d' = 3 /\
    _dirty d' = false.
Proof.
  intros d buffer.
  assert (Hshape : wellFormed d).
  { split_and!.
    - unfold d. simpl. repeat constructor.
    - intros node Hnode. discriminate.
    - intros key [v Hv]. vm_compute in Hv. discriminate. }
  split; [exact Hshape|]. split; [reflexivity|].
  split; [reflexivity|]. split; [reflexivity|]. split; [reflexivity|].
  destruct (save_load_round_trip Reread.env d Reread.prolog Hshape
              (or_introl eq_refl) eq_refl eq_refl eq_refl)
    as (Hout & d' & Hload & Hbody & Hcount & _ & _ & _ & _ & _ & Hdirty).
  split; [exact Hout|].
  exists d'. split; [exact Hload|]. split; [exact Hbody|].
  split; [exact Hcount|exact Hdirty].
Defined.

